(** * SB3204C BERT instrument: channel mapper, PCA9557 driver and worker

    A shallow embedding of the hardware-facing part of the SB3204C control
    software (BertChannel.cpp, PCA9557.cpp, BertWorker.cpp, globals.h and
    globals.cpp), with the properties of its discovery, initialisation,
    teardown and register-update logic.

    Conventions of the embedding.
    - A C++ [int] is a [Z]; [/] and [%] on [int] are [Z.quot] and [Z.rem]
      (truncation towards zero).  The channel mapper computes on an
      arbitrary [int] argument: its sums, differences and products are
      32-bit, written [int_add], [int_sub] and [int_mul], which wrap
      around in two's complement (signed overflow is undefined in C++;
      the build wraps).  A property that needs the absence of overflow
      bounds the channel.
    - A [uint8_t] is a [Z] in [0, 256); where the source narrows an [int]
      expression to [uint8_t] the truncation [to_u8] is written out.
    - The embedding is of the release build: [Q_ASSERT] expands to nothing
      under QT_NO_DEBUG, which is why the source repeats each asserted
      condition in an explicit run-time guard.  [qDebug] output is not part
      of the model.
    - Qt signals are recorded, in emission order, in a list held by the
      emitting object. *)

From Stdlib Require Import ZArith Bool String Ascii DecimalString Lia List.
Import ListNotations.
Local Open Scope Z_scope.

(** [QString::arg(int)]: decimal rendering of an integer. *)
Definition string_of_Z (z : Z) : string := NilZero.string_of_int (Z.to_int z).

(** [QString::arg]: [s.arg(a)] replaces every occurrence of the
    lowest-numbered place marker of [s] by [a], and returns [s] as it is
    when it holds no place marker.  A place marker is a percent sign, an
    optional L and one or two decimal digits. *)
Definition digit_of (a : ascii) : option nat :=
  let n := nat_of_ascii a in
  if ((48 <=? n) && (n <=? 57))%nat then Some (n - 48)%nat else None.

Definition is_percent (a : ascii) : bool := Ascii.eqb a "%".

(** The place marker whose percent sign stands before [s], if there is
    one: its number, whether it has an L, and the text behind it. *)
Definition marker (s : string) : option (nat * bool * string) :=
  let '(localised, s) :=
    match s with
    | String "L" r => (true, r)
    | _ => (false, s)
    end in
  match s with
  | String a r =>
      match digit_of a with
      | Some d1 =>
          match r with
          | String b r2 =>
              match digit_of b with
              | Some d2 => Some ((10 * d1 + d2)%nat, localised, r2)
              | None => Some (d1, localised, r)
              end
          | EmptyString => Some (d1, localised, r)
          end
      | None => None
      end
  | EmptyString => None
  end.

(** The lowest number among the place markers of a string. *)
Fixpoint lowest_marker (s : string) : option nat :=
  match s with
  | EmptyString => None
  | String a r =>
      let rest := lowest_marker r in
      if is_percent a
      then
        match marker r, rest with
        | Some (n, _, _), Some m => Some (Nat.min n m)
        | Some (n, _, _), None => Some n
        | None, _ => rest
        end
      else rest
  end.

(** The string with the markers numbered [n] replaced by [arg]; [skip]
    counts the characters of a replaced marker still to pass over. *)
Fixpoint replace_markers (n : nat) (arg : string) (skip : nat) (s : string)
  : string :=
  match s with
  | EmptyString => EmptyString
  | String a r =>
      match skip with
      | S skip => replace_markers n arg skip r
      | O =>
          if is_percent a
          then
            match marker r with
            | Some (m, _, rest) =>
                if (m =? n)%nat
                then
                  (arg ++ replace_markers n arg
                            (String.length r - String.length rest) r)%string
                else String a (replace_markers n arg 0 r)
            | None => String a (replace_markers n arg 0 r)
            end
          else String a (replace_markers n arg 0 r)
      end
  end.

Definition QString_arg (s a : string) : string :=
  match lowest_marker s with
  | Some n => replace_markers n a 0 s
  | None => s
  end.

(** [QString::arg(int)].  A marker with an L asks for the number in the
    form of the default locale, taken here to be the C locale, in which
    it is the plain decimal form. *)
Definition QString_arg_int (s : string) (z : Z) : string :=
  QString_arg s (string_of_Z z).

(** Whether a string holds a percent sign. *)
Fixpoint has_percent (s : string) : bool :=
  match s with
  | EmptyString => false
  | String a r => is_percent a || has_percent r
  end.

(** Two's complement wrap-around of a 32-bit [int], and the arithmetic
    of [int] with it. *)
Definition wrap_int (z : Z) : Z :=
  (z + 2147483648) mod 4294967296 - 2147483648.

Definition int_add (a b : Z) : Z := wrap_int (a + b).
Definition int_sub (a b : Z) : Z := wrap_int (a - b).
Definition int_mul (a b : Z) : Z := wrap_int (a * b).

(** Narrowing conversion to [uint8_t]. *)
Definition to_u8 (z : Z) : Z := z mod 256.

(** A value of type [uint8_t]. *)
Definition is_u8 (z : Z) : Prop := 0 <= z < 256.

(** Conversion of an [int] to [bool]: every non-zero value is [true]. *)
Definition bool_of_int (z : Z) : bool := negb (z =? 0).

(** ** globals.h / globals.cpp *)

Module globals.

Definition OK                  : Z := 0.
Definition GEN_ERROR           : Z := -1.
Definition TIMEOUT             : Z := -2.
Definition OVERFLOW            : Z := -3.
Definition NOT_CONNECTED       : Z := -4.
Definition MACRO_ERROR         : Z := -5.
Definition READ_ERROR          : Z := -6.
Definition WRITE_ERROR         : Z := -7.
Definition ADAPTOR_READ_ERROR  : Z := -13.
Definition ADAPTOR_WRITE_ERROR : Z := -14.
Definition BUSY_ERROR          : Z := -16.
Definition NOT_INITIALISED     : Z := -17.
Definition DEVICE_NOT_FOUND    : Z := -20.

Definition MISSING_GT1724      : Z := -50.
Definition MISSING_LMX         : Z := -51.
Definition MISSING_LMX_DEFS    : Z := -52.
Definition MISSING_PCA         : Z := -53.
Definition MISSING_EEPROM      : Z := -54.

Definition ALL_LANES           : Z := -1.

(** The component I2C address lists; globals.cpp selects one of three
    tables at build time. *)
Record AddressTable := mkAddressTable {
  I2C_ADDRESSES_GT1724  : list Z;
  I2C_ADDRESSES_LMX2594 : list Z;
  I2C_ADDRESSES_PCA9557 : list Z;
  I2C_ADDRESSES_M24M02  : list Z;
  I2C_ADDRESSES_SI5340  : list Z
}.

(** I2C_ADDRESS_TEST: dual GT1724 board with a fake slave. *)
Definition ADDRESSES_TEST : AddressTable :=
  mkAddressTable [0x12; 0x14; 0x12; 0x14] [0x28; 0x28] [0x1C; 0x1C]
                 [0x50; 0x50] [0x76; 0x76].

(** I2C_ADDRESS_PIXIE: single GT1724 board. *)
Definition ADDRESSES_PIXIE : AddressTable :=
  mkAddressTable [0x12] [0x28] [0x1C] [0x50] [0x76].

(** Default build: dual GT1724 board, master then slave addresses. *)
Definition ADDRESSES_DUAL : AddressTable :=
  mkAddressTable [0x12; 0x14; 0x16; 0x10] [0x28; 0x2C] [0x1C; 0x18]
                 [0x50; 0x54] [0x76; 0x72].

End globals.

(** ** The transport *)

Module I2CComms.

(** One transaction on the bus, with the result code it returned. *)
Inductive BusOp : Type :=
| BusPing  (address : Z) (result : Z)
| BusRead  (address reg : Z) (result : Z)
| BusWrite (address reg value : Z) (result : Z).

(** Modelled from the spec: the transport class I2CComms (I2CComms.h and
    its implementation) is not among the sources.  Following section 4.1
    of the specification it is a serial port that is open or closed and
    byte-addressed register access to the devices behind it.
    - [port]: the open port, if any;
    - [os_open]: the result code the operating system gives for opening
      a port name;
    - [present], [reg]: which addresses acknowledge, and the register
      contents of the devices;
    - [faults]: the result codes of the coming bus transactions, one per
      transaction ([OK]: the transaction goes through); an exhausted
      list stands for no further fault;
    - [log]: every transaction put on the bus, oldest first. *)
Record t : Type := mk {
  port    : option string;
  os_open : string -> Z;
  present : Z -> bool;
  reg     : Z -> Z -> Z;
  faults  : list Z;
  log     : list BusOp
}.

Definition portIsOpen (c : t) : bool :=
  match port c with Some _ => true | None => false end.

(** [open]: busy when already open, otherwise as the OS decides. *)
Definition open (p : string) (c : t) : Z * t :=
  if portIsOpen c then (globals.BUSY_ERROR, c)
  else
    let r := os_open c p in
    if r =? globals.OK
    then (globals.OK,
          mk (Some p) (os_open c) (present c) (reg c) (faults c) (log c))
    else (r, c).

(** [close]: releases the port; idempotent. *)
Definition close (c : t) : t :=
  mk None (os_open c) (present c) (reg c) (faults c) (log c).

(** The result of the next transaction with the device at [address]:
    the injected fault if there is one, else [nack] when no device
    acknowledges. *)
Definition outcome (c : t) (address nack : Z) : Z :=
  let f := hd globals.OK (faults c) in
  if f =? globals.OK
  then (if present c address then globals.OK else nack)
  else f.

Definition set_reg (address r v : Z) (f : Z -> Z -> Z) : Z -> Z -> Z :=
  fun a' r' => if (a' =? address) && (r' =? r) then v else f a' r'.

(** [pingAddress]: a bare address probe. *)
Definition pingAddress (address : Z) (c : t) : Z * t :=
  if negb (portIsOpen c) then (globals.NOT_CONNECTED, c)
  else
    let r := outcome c address globals.DEVICE_NOT_FOUND in
    (r, mk (port c) (os_open c) (present c) (reg c) (tl (faults c))
           (log c ++ [BusPing address r])).

(** [read8] of one byte into a buffer holding [buf]; a failed read
    leaves the buffer as it was. *)
Definition read8 (address r buf : Z) (c : t) : Z * Z * t :=
  if negb (portIsOpen c) then (globals.NOT_CONNECTED, buf, c)
  else
    let res := outcome c address globals.ADAPTOR_READ_ERROR in
    (res,
     (if res =? globals.OK then reg c address r else buf),
     mk (port c) (os_open c) (present c) (reg c) (tl (faults c))
        (log c ++ [BusRead address r res])).

(** [write8] of one byte; a failed write leaves the register as it was. *)
Definition write8 (address r v : Z) (c : t) : Z * t :=
  if negb (portIsOpen c) then (globals.NOT_CONNECTED, c)
  else
    let res := outcome c address globals.ADAPTOR_WRITE_ERROR in
    (res,
     mk (port c) (os_open c) (present c)
        (if res =? globals.OK then set_reg address r v (reg c) else reg c)
        (tl (faults c))
        (log c ++ [BusWrite address r v res])).

(** Two transports hold the same hardware state when every register of
    every device reads the same. *)
Definition same_hardware (c1 c2 : t) : Prop :=
  forall a r, reg c1 a r = reg c2 a r.

End I2CComms.

(** ** BertChannel.cpp *)

Module BertChannel.

(** The three widgets of the core-temperature read-out, which exist
    together or not at all ([groupTemp], [labelTemp], [valueTemp]). *)
Record TempSlot : Type := mkTempSlot {
  groupTemp_lane : Z;        (* lane of the pane *)
  labelTemp_text : string;   (* text of the label *)
  valueTemp_name : string;   (* object name of the value label *)
  valueTemp_lane : Z
}.

Record t : Type := mk {
  channel : Z;
  core    : Z;
  board   : Z;
  pgLane  : Z;
  edLane  : Z;
  esLane  : Z;
  ctLane  : Z;
  temp    : option TempSlot
}.

(** [QString("%1 %2:").arg(word).arg(n)] *)
Definition label_format (word : string) (n : Z) : string :=
  (word ++ " " ++ string_of_Z n ++ ":")%string.

(** The constructor: member initialisers, then the temperature widgets.
    The argument is an [int]; the divisions by 2 and 4 and the remainders
    cannot overflow, the other operations are 32-bit.  The
    pattern-generator, error-detector and eye-scan widgets built
    afterwards take the lanes computed here and are not modelled. *)
Definition new (channel : Z) : t :=
  let core   := Z.quot (int_sub channel 1) 2 in
  let board  := Z.quot (int_sub channel 1) 4 in
  let pgLane := int_mul (int_sub channel 1) 2 in
  let edLane := int_sub (int_mul channel 2) 1 in
  let esLane := int_sub (int_mul channel 2) 1 in
  let ctLane := int_mul (int_sub channel 1) 2 in
  mk channel core board pgLane edLane esLane ctLane
     (if Z.rem ctLane 4 =? 0
      then
        let labelText :=
          label_format
            (if ctLane <? 5 then "Master"%string else "Slave"%string)
            (int_add (Z.rem core 2) 1) in
        Some (mkTempSlot ctLane labelText
                ("CoreTemperature_" ++ string_of_Z ctLane)%string ctLane)
      else None).

Definition INT_MAX : Z := 2147483647.
Definition fits_int (z : Z) : Prop := - INT_MAX - 1 <= z <= INT_MAX.

(** The channels on which the constructor does not overflow: channel
    numbers start at 1, and the largest value computed, [channel * 2],
    is an [int]. *)
Definition in_range (channel : Z) : Prop :=
  1 <= channel /\ channel * 2 <= INT_MAX.

End BertChannel.

(** ** PCA9557.cpp *)

Module PCA9557.

(** Modelled from the spec: PCA9557.h is not among the sources.  The
    command bytes of the four device registers it declares ([REG_INPUT],
    [REG_OUPUT], [REG_POLARITY], [REG_CONFIG]) are taken as a parameter
    of the driver. *)
Class Registers : Type := mkRegisters {
  REG_INPUT    : Z;
  REG_OUPUT    : Z;
  REG_POLARITY : Z;
  REG_CONFIG   : Z
}.

(** The pin directions that [init] passes to [configurePins]. *)
Inductive PinDirection : Type := NORMAL_INPUT | INVERTED_INPUT | OUTPUT.

Definition is_OUTPUT (d : PinDirection) : bool :=
  match d with OUTPUT => true | _ => false end.

Definition is_INVERTED_INPUT (d : PinDirection) : bool :=
  match d with INVERTED_INPUT => true | _ => false end.

(** Signals of the driver object. *)
Inductive Signal : Type :=
| ListPopulate (name : string) (lane : Z) (items : list string)
               (defaultIndex : nat)
| ShowMessage (message : string)
| Result (result lane : Z)
| LMXLockDetect (deviceID : Z) (locked : bool).

Definition TRIGGER_DIVIDE_BITMASK : Z := 0xC0.
Definition TRIGGER_DIVIDE_LOOKUP : list Z := [0xC0; 0x80; 0x40].
Definition TRIGGER_DIVIDE_LIST : list string :=
  ["1/2"; "1/4"; "1/8"]%string.
Definition TRIGGER_DIVIDE_DEFAULT_INDEX : nat := 0.

Definition EEPROM_WC_BITMASK    : Z := 0x04.
Definition EEPROM_WRITE_ENABLE  : Z := 0x00.
Definition EEPROM_WRITE_DISABLE : Z := 0x04.

(** A driver instance.  The transport is shared by all drivers and is
    passed to each method next to the instance. *)
Record t : Type := mk {
  i2cAddress  : Z;
  deviceID    : Z;
  regConfig   : Z;
  regPolarity : Z;
  regOutput   : Z;
  regInput    : Z;
  emitted     : list Signal
}.

(** The constructor stores the address and the ID.  It leaves the four
    register caches unassigned; they start at 0 here, and [init] assigns
    [regConfig], [regPolarity] and [regOutput] before they are used. *)
Definition new (i2cAddress deviceID : Z) : t :=
  mk i2cAddress deviceID 0 0 0 0 [].

Definition set_regConfig (v : Z) (this : t) : t :=
  mk (i2cAddress this) (deviceID this) v (regPolarity this)
     (regOutput this) (regInput this) (emitted this).

Definition set_regPolarity (v : Z) (this : t) : t :=
  mk (i2cAddress this) (deviceID this) (regConfig this) v
     (regOutput this) (regInput this) (emitted this).

Definition set_regOutput (v : Z) (this : t) : t :=
  mk (i2cAddress this) (deviceID this) (regConfig this) (regPolarity this)
     v (regInput this) (emitted this).

Definition set_regInput (v : Z) (this : t) : t :=
  mk (i2cAddress this) (deviceID this) (regConfig this) (regPolarity this)
     (regOutput this) v (emitted this).

Definition emit (s : Signal) (this : t) : t :=
  mk (i2cAddress this) (deviceID this) (regConfig this) (regPolarity this)
     (regOutput this) (regInput this) (emitted this ++ [s]).

(** [if (cond) reg |= bit;] *)
Definition or_if (cond : bool) (bit r : Z) : Z :=
  if cond then Z.lor r bit else r.

Section Driver.
Context {R : Registers}.

(** [bool PCA9557::ping(I2CComms *comms, const uint8_t i2cAddress)] *)
Definition ping (comms : I2CComms.t) (i2cAddress : Z)
  : bool * I2CComms.t :=
  if negb (I2CComms.portIsOpen comms)
  then (bool_of_int globals.NOT_CONNECTED, comms)
  else
    let '(result, comms) := I2CComms.pingAddress i2cAddress comms in
    if negb (result =? globals.OK) then (false, comms)
    else
      (* Read initial register values *)
      let regPolarity := 0 in
      let '(result, regPolarity, comms) :=
        I2CComms.read8 i2cAddress REG_POLARITY regPolarity comms in
      if negb (result =? globals.OK) then (false, comms)
      else
        (* Set to a test value *)
        let regPolarityNew := 0x55 in
        let '(result, comms) :=
          I2CComms.write8 i2cAddress REG_POLARITY regPolarityNew comms in
        if negb (result =? globals.OK) then (false, comms)
        else
          let '(result, regPolarityNew, comms) :=
            I2CComms.read8 i2cAddress REG_POLARITY regPolarityNew comms in
          if negb (result =? globals.OK) then (false, comms)
          else
            (* Set the polarity inversion register back *)
            let '(_, comms) :=
              I2CComms.write8 i2cAddress REG_POLARITY regPolarity comms in
            (regPolarityNew =? 0x55, comms).

(** [void PCA9557::getOptions()] *)
Definition getOptions (this : t) : t :=
  emit (ListPopulate "listLMXTrigOutDivRatio" globals.ALL_LANES
          TRIGGER_DIVIDE_LIST TRIGGER_DIVIDE_DEFAULT_INDEX) this.

(** [int PCA9557::writePins()] *)
Definition writePins (this : t) (comms : I2CComms.t)
  : Z * t * I2CComms.t :=
  if negb (I2CComms.portIsOpen comms)
  then (globals.NOT_CONNECTED, this, comms)
  else
    let '(result, comms) :=
      I2CComms.write8 (i2cAddress this) REG_OUPUT (regOutput this) comms in
    if negb (result =? globals.OK) then (result, this, comms)
    else (globals.OK, this, comms).

(** [int PCA9557::readPins()] *)
Definition readPins (this : t) (comms : I2CComms.t)
  : Z * t * I2CComms.t :=
  if negb (I2CComms.portIsOpen comms)
  then (globals.NOT_CONNECTED, this, comms)
  else
    let '(result, v, comms) :=
      I2CComms.read8 (i2cAddress this) REG_INPUT (regInput this) comms in
    let this := set_regInput v this in
    if negb (result =? globals.OK) then (result, this, comms)
    else (globals.OK, this, comms).

(** [int PCA9557::setPins(const uint8_t value)] *)
Definition setPins (value : Z) (this : t) (comms : I2CComms.t)
  : Z * t * I2CComms.t :=
  let this := set_regOutput value this in
  writePins this comms.

(** [int PCA9557::getPins(uint8_t *value)]: the result and [*value]. *)
Definition getPins (this : t) (comms : I2CComms.t)
  : Z * Z * t * I2CComms.t :=
  let '(result, this, comms) := readPins this comms in
  (result, regInput this, this, comms).

(** [int PCA9557::updatePins(const uint8_t mask, const uint8_t value)] *)
Definition updatePins (mask value : Z) (this : t) (comms : I2CComms.t)
  : Z * t * I2CComms.t :=
  let regNew :=
    to_u8 (Z.lor (Z.land (regOutput this) (Z.lnot mask)) value) in
  let '(result, this, comms) := setPins regNew this comms in
  if negb (result =? globals.OK)
  then
    let this := emit (ShowMessage "I/O controller error!") this in
    let this := emit (Result result globals.ALL_LANES) this in
    (result, this, comms)
  else (result, this, comms).

(** [int PCA9557::configurePins(p0Dir, ..., p7Dir)] *)
Definition configurePins (p0Dir p1Dir p2Dir p3Dir p4Dir p5Dir p6Dir p7Dir
                            : PinDirection)
           (this : t) (comms : I2CComms.t) : Z * t * I2CComms.t :=
  if negb (I2CComms.portIsOpen comms)
  then (globals.NOT_CONNECTED, this, comms)
  else
    (* Configuration register: 0 = Output; 1 = Input *)
    let rc := 0x00 in
    let rc := or_if (negb (is_OUTPUT p0Dir)) 0x01 rc in
    let rc := or_if (negb (is_OUTPUT p1Dir)) 0x02 rc in
    let rc := or_if (negb (is_OUTPUT p2Dir)) 0x04 rc in
    let rc := or_if (negb (is_OUTPUT p3Dir)) 0x08 rc in
    let rc := or_if (negb (is_OUTPUT p4Dir)) 0x10 rc in
    let rc := or_if (negb (is_OUTPUT p5Dir)) 0x20 rc in
    let rc := or_if (negb (is_OUTPUT p6Dir)) 0x40 rc in
    let rc := or_if (negb (is_OUTPUT p7Dir)) 0x80 rc in
    let this := set_regConfig rc this in
    let '(result, comms) :=
      I2CComms.write8 (i2cAddress this) REG_CONFIG (regConfig this) comms in
    if negb (result =? globals.OK) then (result, this, comms)
    else
      (* Polarity inversion register: 1 = Inverted input *)
      let rp := 0x00 in
      let rp := or_if (is_INVERTED_INPUT p0Dir) 0x01 rp in
      let rp := or_if (is_INVERTED_INPUT p1Dir) 0x02 rp in
      let rp := or_if (is_INVERTED_INPUT p2Dir) 0x04 rp in
      let rp := or_if (is_INVERTED_INPUT p3Dir) 0x08 rp in
      let rp := or_if (is_INVERTED_INPUT p4Dir) 0x10 rp in
      let rp := or_if (is_INVERTED_INPUT p5Dir) 0x20 rp in
      let rp := or_if (is_INVERTED_INPUT p6Dir) 0x40 rp in
      let rp := or_if (is_INVERTED_INPUT p7Dir) 0x80 rp in
      let this := set_regPolarity rp this in
      let '(result, comms) :=
        I2CComms.write8 (i2cAddress this) REG_POLARITY (regPolarity this)
                        comms in
      if negb (result =? globals.OK) then (result, this, comms)
      else (globals.OK, this, comms).

(** [int PCA9557::init()] *)
Definition init (this : t) (comms : I2CComms.t) : Z * t * I2CComms.t :=
  let '(result, this, comms) :=
    configurePins NORMAL_INPUT NORMAL_INPUT OUTPUT NORMAL_INPUT
                  NORMAL_INPUT NORMAL_INPUT OUTPUT OUTPUT this comms in
  if negb (result =? globals.OK)
  then
    (result, emit (ShowMessage "Error configuring I/O controller!") this,
     comms)
  else
    (* Safe defaults: default trigger divide ratio, EEPROM write
       disabled *)
    let '(result, this, comms) :=
      setPins
        (to_u8 (Z.lor (nth TRIGGER_DIVIDE_DEFAULT_INDEX
                           TRIGGER_DIVIDE_LOOKUP 0)
                      EEPROM_WRITE_DISABLE))
        this comms in
    if negb (result =? globals.OK)
    then
      (result,
       emit (ShowMessage "Error configuring I/O controller!") this, comms)
    else (result, this, comms).

(** [void PCA9557::SelectTriggerDivide(int index)] *)
Definition SelectTriggerDivide (index : Z) (this : t) (comms : I2CComms.t)
  : t * I2CComms.t :=
  if (index <? 0) || (index >=? Z.of_nat (List.length TRIGGER_DIVIDE_LOOKUP))
  then (this, comms)
  else
    let '(result, this, comms) :=
      updatePins TRIGGER_DIVIDE_BITMASK
                 (nth (Z.to_nat index) TRIGGER_DIVIDE_LOOKUP 0)
                 this comms in
    (emit (Result result globals.ALL_LANES) this, comms).

(** [void PCA9557::SetEEPROMWriteEnable(bool enable)] *)
Definition SetEEPROMWriteEnable (enable : bool) (this : t)
           (comms : I2CComms.t) : t * I2CComms.t :=
  let newValue :=
    if enable then EEPROM_WRITE_ENABLE else EEPROM_WRITE_DISABLE in
  let '(result, this, comms) :=
    updatePins EEPROM_WC_BITMASK newValue this comms in
  (emit (Result result globals.ALL_LANES) this, comms).

(** [void PCA9557::ReadLMXLockDetect()] *)
Definition ReadLMXLockDetect (this : t) (comms : I2CComms.t)
  : t * I2CComms.t :=
  let '(result, value, this, comms) := getPins this comms in
  if result =? globals.OK
  then
    if bool_of_int (Z.land (Z.shiftr value 3) 0x01)
    then (emit (LMXLockDetect (deviceID this) true) this, comms)
    else (emit (LMXLockDetect (deviceID this) false) this, comms)
  else (this, comms).

(** A client that issues a sequence of [updatePins (mask, value)] calls
    on one instance; it returns the result code of each call. *)
Fixpoint run_updatePins (calls : list (Z * Z)) (this : t)
         (comms : I2CComms.t) : list Z * t * I2CComms.t :=
  match calls with
  | [] => ([], this, comms)
  | (mask, value) :: rest =>
      let '(result, this, comms) := updatePins mask value this comms in
      let '(results, this, comms) := run_updatePins rest this comms in
      (result :: results, this, comms)
  end.

(** The macro [RESULT_CHECK]: return [result] unless it is [OK]. *)
Definition RESULT_CHECK (result : Z) (comms : I2CComms.t)
           (rest : Z * I2CComms.t) : Z * I2CComms.t :=
  if negb (result =? globals.OK) then (result, comms) else rest.

(** The block after the label [testFinished] of [test]: output, config
    and polarity inversion registers are set back to the values read at
    the start. *)
Definition testFinished (i2cAddress regOutput regPolarity regConfig : Z)
           (comms : I2CComms.t) : Z * I2CComms.t :=
  let '(result, comms) :=
    I2CComms.write8 i2cAddress REG_CONFIG regConfig comms in
  RESULT_CHECK result comms (
  let '(result, comms) :=
    I2CComms.write8 i2cAddress REG_POLARITY regPolarity comms in
  RESULT_CHECK result comms (
  let '(result, comms) :=
    I2CComms.write8 i2cAddress REG_OUPUT regOutput comms in
  RESULT_CHECK result comms (globals.OK, comms))).

(** [int PCA9557::test(bool loopBackTest)].  The four register variables
    of the method are locals that hide the members of the same names, so
    the instance itself is not changed; [globals::sleep] only waits. *)
Definition test (loopBackTest : bool) (this : t) (comms : I2CComms.t)
  : Z * I2CComms.t :=
  if negb (I2CComms.portIsOpen comms) then (globals.NOT_CONNECTED, comms)
  else
  let i2cAddress := i2cAddress this in
  (* Read initial register values *)
  let regInput := 0 in
  let regOutput := 0 in
  let regPolarity := 0 in
  let regConfig := 0 in
  let '(result, regInput, comms) :=
    I2CComms.read8 i2cAddress REG_INPUT regInput comms in
  RESULT_CHECK result comms (
  let '(result, regOutput, comms) :=
    I2CComms.read8 i2cAddress REG_OUPUT regOutput comms in
  RESULT_CHECK result comms (
  let '(result, regPolarity, comms) :=
    I2CComms.read8 i2cAddress REG_POLARITY regPolarity comms in
  RESULT_CHECK result comms (
  let '(result, regConfig, comms) :=
    I2CComms.read8 i2cAddress REG_CONFIG regConfig comms in
  RESULT_CHECK result comms (
  (* Set the polarity inversion register to 0x55 and read it back *)
  let regPolarityNew := 0x55 in
  let '(result, comms) :=
    I2CComms.write8 i2cAddress REG_POLARITY regPolarityNew comms in
  RESULT_CHECK result comms (
  let '(result, regPolarityNew, comms) :=
    I2CComms.read8 i2cAddress REG_POLARITY regPolarityNew comms in
  RESULT_CHECK result comms (
  if negb (regPolarityNew =? 0x55) then (globals.GEN_ERROR, comms)
  else
  (* Set the polarity inversion register back to original value *)
  let '(result, comms) :=
    I2CComms.write8 i2cAddress REG_POLARITY regPolarity comms in
  RESULT_CHECK result comms (
  let '(result, regPolarityNew, comms) :=
    I2CComms.read8 i2cAddress REG_POLARITY regPolarityNew comms in
  RESULT_CHECK result comms (
  if negb (regPolarityNew =? regPolarity) then (globals.GEN_ERROR, comms)
  else
  if negb loopBackTest
  then testFinished i2cAddress regOutput regPolarity regConfig comms
  else
  (* Loop back test: pin 6 as input, pin 7 as output *)
  let tempRegConfig := to_u8 (Z.lor (Z.land regConfig 0x3F) 0x40) in
  let '(result, comms) :=
    I2CComms.write8 i2cAddress REG_CONFIG tempRegConfig comms in
  RESULT_CHECK result comms (
  let tempRegPolarity := to_u8 (Z.land regPolarity 0xBF) in
  let '(result, comms) :=
    I2CComms.write8 i2cAddress REG_POLARITY tempRegPolarity comms in
  RESULT_CHECK result comms (
  (* Clear pin 7, read pin 6 *)
  let tempReg := to_u8 (Z.land regOutput 0x7F) in
  let '(result, comms) :=
    I2CComms.write8 i2cAddress REG_OUPUT tempReg comms in
  RESULT_CHECK result comms (
  let '(result, tempReg, comms) :=
    I2CComms.read8 i2cAddress REG_INPUT tempReg comms in
  RESULT_CHECK result comms (
  if negb (Z.land tempReg 0x40 =? 0x00) then (globals.GEN_ERROR, comms)
  else
  (* Set pin 7, read pin 6 *)
  let tempReg := to_u8 (Z.lor regOutput 0x80) in
  let '(result, comms) :=
    I2CComms.write8 i2cAddress REG_OUPUT tempReg comms in
  RESULT_CHECK result comms (
  let '(result, tempReg, comms) :=
    I2CComms.read8 i2cAddress REG_INPUT tempReg comms in
  RESULT_CHECK result comms (
  if Z.land tempReg 0x40 =? 0x00 then (globals.GEN_ERROR, comms)
  else
  testFinished i2cAddress regOutput regPolarity regConfig comms
  )))))))))))))).

End Driver.

(** The command bytes of the PCA9557 data sheet, for evaluating the
    driver on concrete transports. *)
Definition datasheet : Registers := mkRegisters 0 1 2 3.

(** The successive contents of the output register under a sequence of
    [(mask, value)] updates that starts from [r0]. *)
Fixpoint outputs (calls : list (Z * Z)) (r0 : Z) : list Z :=
  match calls with
  | [] => []
  | (mask, value) :: rest =>
      let r1 := Z.lor (Z.land r0 (Z.lnot mask)) value in
      r1 :: outputs rest r1
  end.

(** Bit [i] after a sequence of updates, when only the calls whose mask
    covers the bit affect it: the bit of the value of the last such call,
    or the initial bit [b0] when there is none. *)
Fixpoint bit_after (calls : list (Z * Z)) (i : Z) (b0 : bool) : bool :=
  match calls with
  | [] => b0
  | (mask, value) :: rest =>
      bit_after rest i (if Z.testbit mask i then Z.testbit value i else b0)
  end.

(** An update whose arguments are bytes and whose value has no bit set
    outside its mask. *)
Definition masked_call (call : Z * Z) : Prop :=
  is_u8 (fst call) /\ is_u8 (snd call)
  /\ Z.land (snd call) (Z.lnot (fst call)) = 0.

(** The bus writes of the output register of the device at [address],
    one per value, with the result codes of the transport. *)
Fixpoint output_writes {R : Registers} (address : Z) (values results : list Z)
  : list I2CComms.BusOp :=
  match values, results with
  | v :: values, r :: results =>
      I2CComms.BusWrite address REG_OUPUT v r
        :: output_writes address values results
  | _, _ => []
  end.

(** The result code of a bus transaction. *)
Definition op_result (op : I2CComms.BusOp) : Z :=
  match op with
  | I2CComms.BusPing _ r => r
  | I2CComms.BusRead _ _ r => r
  | I2CComms.BusWrite _ _ _ r => r
  end.

(** The transactions a run added to the bus log. *)
Definition bus_added (before after : I2CComms.t) : list I2CComms.BusOp :=
  skipn (length (I2CComms.log before)) (I2CComms.log after).

(** The next [n] transactions of the transport meet no injected fault. *)
Definition fault_free (n : nat) (c : I2CComms.t) : Prop :=
  forall k, (k < n)%nat -> nth k (I2CComms.faults c) globals.OK = globals.OK.

(** What one transaction leaves of the transport [c]: the registers [rg],
    the next fault consumed and [op] appended to the log. *)
Definition after (c : I2CComms.t) (rg : Z -> Z -> Z) (op : I2CComms.BusOp)
  : I2CComms.t :=
  I2CComms.mk (I2CComms.port c) (I2CComms.os_open c) (I2CComms.present c) rg
              (tl (I2CComms.faults c)) (I2CComms.log c ++ [op]).

(** A run from [c] to [c'] touches at most the register [r] of the device
    at [a]: every other register, the port and the set of answering
    devices are as before. *)
Definition touches_only (a r : Z) (c c' : I2CComms.t) : Prop :=
  I2CComms.port c' = I2CComms.port c
  /\ I2CComms.present c' = I2CComms.present c
  /\ forall a' r', (a' =? a) && (r' =? r) = false ->
                   I2CComms.reg c' a' r' = I2CComms.reg c a' r'.

(** The direction of pin [i] among the eight arguments of
    [configurePins]. *)
Definition pin_dir (dirs : list PinDirection) (i : nat) : PinDirection :=
  nth i dirs NORMAL_INPUT.

(** The port is open after a run from [c] to [c'], and every transaction
    the run added to the log succeeded. *)
Definition all_succeeded (c c' : I2CComms.t) : Prop :=
  I2CComms.portIsOpen c' = true
  /\ exists ops, I2CComms.log c' = I2CComms.log c ++ ops
                 /\ Forall (fun op => op_result op = globals.OK) ops.

(** The caches of a driver object hold the bytes that [init] writes:
    pins 2, 6 and 7 outputs, no input inverted, trigger divide ratio 1/2
    and EEPROM write disabled. *)
Definition initialised (d : t) : Prop :=
  regConfig d = 0x3B /\ regPolarity d = 0x00 /\ regOutput d = 0xC4.

End PCA9557.

(** ** BertWorker.cpp *)

Module BertWorker.

(** The five chip families the worker manages. *)
Inductive Family : Type :=
| F_GT1724 | F_M24M02 | F_LMX2594 | F_PCA9557 | F_SI5340.

(** Modelled from the spec: the driver classes GT1724, M24M02, LMX2594
    and SI5340 are not among the sources.  By section 4.2 of the
    specification each has the ping / init shape of the PCA9557 driver,
    so the worker takes, for each of them, the type of its objects, the
    static [ping], the constructor and [init] as parameters.  A driver
    works through the shared transport, which it receives and returns.
    The LMX2594 constructor also receives the first EEPROM object. *)
Record Drivers : Type := mkDrivers {
  GT1724       : Type;
  GT1724_ping  : I2CComms.t -> Z -> bool * I2CComms.t;
  GT1724_new   : Z -> Z -> GT1724;
  GT1724_init  : GT1724 -> I2CComms.t -> Z * GT1724 * I2CComms.t;
  M24M02       : Type;
  M24M02_ping  : I2CComms.t -> Z -> bool * I2CComms.t;
  M24M02_new   : Z -> Z -> M24M02;
  M24M02_init  : M24M02 -> I2CComms.t -> Z * M24M02 * I2CComms.t;
  LMX2594      : Type;
  LMX2594_ping : I2CComms.t -> Z -> bool * I2CComms.t;
  LMX2594_new  : Z -> Z -> M24M02 -> LMX2594;
  LMX2594_init : LMX2594 -> I2CComms.t -> Z * LMX2594 * I2CComms.t;
  SI5340       : Type;
  SI5340_ping  : I2CComms.t -> Z -> bool * I2CComms.t;
  SI5340_new   : Z -> Z -> SI5340;
  SI5340_init  : SI5340 -> I2CComms.t -> Z * SI5340 * I2CComms.t
}.

(** Signals of the worker.  The object pointer carried by an [...Added]
    signal is given as the position of the new object in its set. *)
Inductive Signal : Type :=
| WorkerShowMessage (message : string) (append : option bool)
| WorkerResult (result : Z)
| StatusConnect (connected : bool)
| GT1724Added (index : nat) (laneOffset : Z)
| M24M02Added (index : nat) (deviceID : Z)
| LMX2594Added (index : nat) (deviceID : Z)
| PCA9557Added (index : nat) (deviceID : Z)
| SI5340Added (index : nat) (deviceID : Z).

(** What the worker does, in program order: the signals it emits, its
    calls of [comms->open] and [comms->close], each [init()] call on a
    device (family, position in its set, result) and each [delete] of a
    device (family, position in its set). *)
Inductive Event : Type :=
| Emit (s : Signal)
| Open (port : string) (result : Z)
| Close
| Init (f : Family) (index : nat) (result : Z)
| Delete (f : Family) (index : nat).

Section Worker.
Context (D : Drivers) {R : PCA9557.Registers} (A : globals.AddressTable).

Record t : Type := mk {
  flagStop        : bool;
  flagWorkerReady : bool;
  comms           : I2CComms.t;
  gt1724Set       : list (GT1724 D);
  lmxClockSet     : list (LMX2594 D);
  pca9557Set      : list PCA9557.t;
  m24m02Set       : list (M24M02 D);
  si5340Set       : list (SI5340 D);
  trace           : list Event
}.

Definition set_comms (c : I2CComms.t) (w : t) : t :=
  mk (flagStop w) (flagWorkerReady w) c (gt1724Set w) (lmxClockSet w)
     (pca9557Set w) (m24m02Set w) (si5340Set w) (trace w).
Definition set_gt1724Set (s : list (GT1724 D)) (w : t) : t :=
  mk (flagStop w) (flagWorkerReady w) (comms w) s (lmxClockSet w)
     (pca9557Set w) (m24m02Set w) (si5340Set w) (trace w).
Definition set_lmxClockSet (s : list (LMX2594 D)) (w : t) : t :=
  mk (flagStop w) (flagWorkerReady w) (comms w) (gt1724Set w) s
     (pca9557Set w) (m24m02Set w) (si5340Set w) (trace w).
Definition set_pca9557Set (s : list PCA9557.t) (w : t) : t :=
  mk (flagStop w) (flagWorkerReady w) (comms w) (gt1724Set w)
     (lmxClockSet w) s (m24m02Set w) (si5340Set w) (trace w).
Definition set_m24m02Set (s : list (M24M02 D)) (w : t) : t :=
  mk (flagStop w) (flagWorkerReady w) (comms w) (gt1724Set w)
     (lmxClockSet w) (pca9557Set w) s (si5340Set w) (trace w).
Definition set_si5340Set (s : list (SI5340 D)) (w : t) : t :=
  mk (flagStop w) (flagWorkerReady w) (comms w) (gt1724Set w)
     (lmxClockSet w) (pca9557Set w) (m24m02Set w) s (trace w).
Definition set_trace (tr : list Event) (w : t) : t :=
  mk (flagStop w) (flagWorkerReady w) (comms w) (gt1724Set w)
     (lmxClockSet w) (pca9557Set w) (m24m02Set w) (si5340Set w) tr.
(** *** The worker's methods as state transformers *)

Definition M (X : Type) : Type := t -> X * t.

Definition ret {X} (x : X) : M X := fun w => (x, w).

Definition bind {X Y} (m : M X) (k : X -> M Y) : M Y :=
  fun w => let '(x, w') := m w in k x w'.

Definition gets {X} (f : t -> X) : M X := fun w => (f w, w).

Definition record (e : Event) : M unit :=
  fun w => (tt, set_trace (trace w ++ [e]) w).

Definition emit (s : Signal) : M unit := record (Emit s).

Local Notation "x <- m ;; k" := (bind m (fun x => k))
  (at level 61, m at next level, right associativity).
Local Notation "m ;; k" := (bind m (fun _ => k))
  (at level 61, right associativity).

(** A driver's static [ping] through the worker's transport. *)
Definition ping_with (ping : I2CComms.t -> Z -> bool * I2CComms.t)
           (address : Z) : M bool :=
  fun w => let '(found, c) := ping (comms w) address in
           (found, set_comms c w).

(** [foreach (uint8_t address, addresses) if (ping (comms, address))
    { add; n += step; }] with the loop's counter [n]. *)
Fixpoint foreach_ping (ping : I2CComms.t -> Z -> bool * I2CComms.t)
         (add : Z -> Z -> M unit) (step : Z) (addresses : list Z) (n : Z)
  : M unit :=
  match addresses with
  | [] => ret tt
  | address :: rest =>
      found <- ping_with ping address ;;
      if found
      then add address n ;; foreach_ping ping add step rest (n + step)
      else foreach_ping ping add step rest n
  end.

(** The bodies of the five discovery loops: create the object, append
    it to its set, emit the [...Added] signal. *)
Definition add_GT1724 (address laneOffset : Z) : M unit :=
  fun w =>
    let gt1724 := GT1724_new D address (to_u8 laneOffset) in
    emit (GT1724Added (length (gt1724Set w)) laneOffset)
         (set_gt1724Set (gt1724Set w ++ [gt1724]) w).

Definition add_M24M02 (address deviceID : Z) : M unit :=
  fun w =>
    let m24m02 := M24M02_new D address deviceID in
    emit (M24M02Added (length (m24m02Set w)) deviceID)
         (set_m24m02Set (m24m02Set w ++ [m24m02]) w).

Definition add_LMX2594 (eeprom0 : M24M02 D) (address deviceID : Z)
  : M unit :=
  fun w =>
    let lmxClock := LMX2594_new D address deviceID eeprom0 in
    emit (LMX2594Added (length (lmxClockSet w)) deviceID)
         (set_lmxClockSet (lmxClockSet w ++ [lmxClock]) w).

Definition add_PCA9557 (address deviceID : Z) : M unit :=
  fun w =>
    let pca9557 := PCA9557.new address deviceID in
    emit (PCA9557Added (length (pca9557Set w)) deviceID)
         (set_pca9557Set (pca9557Set w ++ [pca9557]) w).

Definition add_SI5340 (address deviceID : Z) : M unit :=
  fun w =>
    let si5340 := SI5340_new D address deviceID in
    emit (SI5340Added (length (si5340Set w)) deviceID)
         (set_si5340Set (si5340Set w ++ [si5340]) w).

(** [int BertWorker::findComponents()].  The test
    [m24m02Set.count() == 0] and the later [m24m02Set.at(0)] are one
    match on the set, which the LMX2594 loop does not change. *)
Definition findComponents : M Z :=
  (* GT1724 ICs *)
  foreach_ping (GT1724_ping D) add_GT1724 4
               (globals.I2C_ADDRESSES_GT1724 A) 0 ;;
  count <- gets (fun w => length (gt1724Set w)) ;;
  if Nat.eqb count 0
  then emit (WorkerShowMessage "Core module not found!" None) ;;
       ret globals.MISSING_GT1724
  else
  (* M24M02 EEPROM *)
  foreach_ping (M24M02_ping D) add_M24M02 1
               (globals.I2C_ADDRESSES_M24M02 A) 0 ;;
  eeproms <- gets m24m02Set ;;
  match eeproms with
  | [] =>
      emit (WorkerShowMessage "Data EEPROM not found!" None) ;;
      ret globals.MISSING_EEPROM
  | eeprom0 :: _ =>
  (* LMX clock modules *)
  foreach_ping (LMX2594_ping D) (add_LMX2594 eeprom0) 1
               (globals.I2C_ADDRESSES_LMX2594 A) 0 ;;
  count <- gets (fun w => length (lmxClockSet w)) ;;
  if Nat.eqb count 0
  then emit (WorkerShowMessage "Clock synthesizer module not found!"
                               None) ;;
       ret globals.MISSING_LMX
  else
  (* PCA9557 IO controllers *)
  foreach_ping PCA9557.ping add_PCA9557 1
               (globals.I2C_ADDRESSES_PCA9557 A) 0 ;;
  count <- gets (fun w => length (pca9557Set w)) ;;
  if Nat.eqb count 0
  then emit (WorkerShowMessage "IO controller module not found!" None) ;;
       ret globals.MISSING_PCA
  else
  (* SI5340 reference clock: no devices found is not an error *)
  foreach_ping (SI5340_ping D) add_SI5340 1
               (globals.I2C_ADDRESSES_SI5340 A) 0 ;;
  ret globals.OK
  end.

(** [foreach (T *dev, set) { result = dev->init();
    if (result != globals::OK) return result; }]: the result, and the
    set with the objects as their [init] left them. *)
Fixpoint init_loop {T} (f : Family)
         (init : T -> I2CComms.t -> Z * T * I2CComms.t)
         (index : nat) (set : list T) (c : I2CComms.t) (tr : list Event)
  : Z * list T * I2CComms.t * list Event :=
  match set with
  | [] => (globals.OK, [], c, tr)
  | dev :: rest =>
      let '(result, dev, c) := init dev c in
      let tr := tr ++ [Init f index result] in
      if negb (result =? globals.OK) then (result, dev :: rest, c, tr)
      else
        let '(result, rest, c, tr) :=
          init_loop f init (S index) rest c tr in
        (result, dev :: rest, c, tr)
  end.

Definition foreach_init {T} (f : Family)
           (init : T -> I2CComms.t -> Z * T * I2CComms.t)
           (get : t -> list T) (put : list T -> t -> t) : M Z :=
  fun w =>
    let '(result, set, c, tr) :=
      init_loop f init 0 (get w) (comms w) (trace w) in
    (result, put set (set_comms c (set_trace tr w))).

(** [int BertWorker::initComponents()] *)
Definition initComponents : M Z :=
  (* SI5340 low jitter reference clock IC *)
  result <- foreach_init F_SI5340 (SI5340_init D) si5340Set
                         set_si5340Set ;;
  if negb (result =? globals.OK)
  then emit (WorkerShowMessage "Error configuring system!" None) ;;
       ret result
  else
  (* M24M02 EEPROMs *)
  result <- foreach_init F_M24M02 (M24M02_init D) m24m02Set
                         set_m24m02Set ;;
  if negb (result =? globals.OK)
  then emit (WorkerShowMessage "Error configuring system!" None) ;;
       ret result
  else
  (* LMX clock modules *)
  result <- foreach_init F_LMX2594 (LMX2594_init D) lmxClockSet
                         set_lmxClockSet ;;
  if negb (result =? globals.OK)
  then emit (WorkerShowMessage "Frequency synthesizer set up error!"
                               None) ;;
       ret result
  else
  (* PCA9557 IO modules *)
  result <- foreach_init F_PCA9557 PCA9557.init pca9557Set
                         set_pca9557Set ;;
  if negb (result =? globals.OK)
  then emit (WorkerShowMessage "IO Controller set up error!" None) ;;
       ret result
  else
  (* GT1724 ICs *)
  result <- foreach_init F_GT1724 (GT1724_init D) gt1724Set
                         set_gt1724Set ;;
  if negb (result =? globals.OK)
  then emit (WorkerShowMessage "Error configuring system!" None) ;;
       ret result
  else ret globals.OK.

(** [while (set.count() > 0) { dev = set.last(); delete dev;
    set.removeLast(); }]; each turn shortens the set by one, so the
    initial count bounds the number of turns. *)
Fixpoint delete_loop {T} (f : Family) (turns : nat) (set : list T)
         (tr : list Event) : list T * list Event :=
  match turns with
  | O => (set, tr)
  | S turns =>
      if (0 <? length set)%nat
      then delete_loop f turns (removelast set)
                       (tr ++ [Delete f (length set - 1)])
      else (set, tr)
  end.

Definition delete_all {T} (f : Family) (get : t -> list T)
           (put : list T -> t -> t) : M unit :=
  fun w =>
    let '(set, tr) := delete_loop f (length (get w)) (get w) (trace w) in
    (tt, put set (set_trace tr w)).

(** [void BertWorker::shutdownComponents()] *)
Definition shutdownComponents : M unit :=
  delete_all F_GT1724 gt1724Set set_gt1724Set ;;
  delete_all F_LMX2594 lmxClockSet set_lmxClockSet ;;
  delete_all F_PCA9557 pca9557Set set_pca9557Set ;;
  delete_all F_M24M02 m24m02Set set_m24m02Set ;;
  delete_all F_SI5340 si5340Set set_si5340Set.

Definition comms_open (port : string) : M Z :=
  fun w =>
    let '(result, c) := I2CComms.open port (comms w) in
    (result, set_trace (trace w ++ [Open port result]) (set_comms c w)).

Definition comms_close : M unit :=
  fun w =>
    (tt, set_trace (trace w ++ [Close])
                   (set_comms (I2CComms.close (comms w)) w)).

(** [void BertWorker::CommsDisconnect()] *)
Definition CommsDisconnect : M unit :=
  ready <- gets flagWorkerReady ;;
  if negb ready then ret tt
  else
    shutdownComponents ;;
    isOpen <- gets (fun w => I2CComms.portIsOpen (comms w)) ;;
    (if isOpen then comms_close else ret tt) ;;
    emit (WorkerResult globals.OK) ;;
    emit (WorkerShowMessage "Disconnected." None) ;;
    emit (StatusConnect false).

(** [void BertWorker::CommsConnect(QString port)] *)
Definition CommsConnect (port : string) : M unit :=
  ready <- gets flagWorkerReady ;;
  if negb ready then ret tt
  else
    isOpen <- gets (fun w => I2CComms.portIsOpen (comms w)) ;;
    if isOpen
    then emit (WorkerShowMessage "Connected." None) ;;
         emit (StatusConnect true)
    else
      result <- comms_open port ;;
      if negb (result =? globals.OK)
      then
        emit (WorkerResult result) ;;
        emit (StatusConnect false) ;;
        emit (WorkerShowMessage
                (QString_arg_int
                   (QString_arg "Couldn't connect to instrument on %1 (%2)"
                                port)
                   result)
                (Some false))
      else
        emit (WorkerShowMessage
                "Comms Open. Checking system components..." None) ;;
        result <- findComponents ;;
        if result =? globals.OK
        then emit (WorkerShowMessage "Connected." None) ;;
             emit (StatusConnect true)
        else if (result =? globals.MISSING_LMX_DEFS)
                || (result =? globals.MISSING_GT1724)
        then
          (* fatal for the connect: disconnect again *)
          CommsDisconnect ;;
          emit (WorkerShowMessage
                  "Connect FAILED: Error setting up system components!"
                  None)
        else
          (* other error codes: no disconnect *)
          emit (StatusConnect true).

(** [void BertWorker::InitComponents()] *)
Definition InitComponents : M unit :=
  ready <- gets flagWorkerReady ;;
  if negb ready then ret tt
  else
    emit (WorkerShowMessage
            "Comms Open. Initializing system components..." None) ;;
    result <- initComponents ;;
    emit (WorkerResult result) ;;
    emit (WorkerShowMessage "Ready." None).

(** *** Reading a trace *)

(** The [StatusConnect] values emitted, in order. *)
Fixpoint status_of (tr : list Event) : list bool :=
  match tr with
  | [] => []
  | Emit (StatusConnect b) :: tr => b :: status_of tr
  | _ :: tr => status_of tr
  end.

(** The [init()] calls made, in order. *)
Fixpoint inits_of (tr : list Event) : list (Family * nat * Z) :=
  match tr with
  | [] => []
  | Init f i r :: tr => (f, i, r) :: inits_of tr
  | _ :: tr => inits_of tr
  end.

(** The teardown actions (device deletions and the closing of the
    transport), in order. *)
Fixpoint teardown_of (tr : list Event) : list Event :=
  match tr with
  | [] => []
  | Delete f i :: tr => Delete f i :: teardown_of tr
  | Close :: tr => Close :: teardown_of tr
  | _ :: tr => teardown_of tr
  end.

(** The calls of [comms->open], in order. *)
Fixpoint opens_of (tr : list Event) : list (string * Z) :=
  match tr with
  | [] => []
  | Open p r :: tr => (p, r) :: opens_of tr
  | _ :: tr => opens_of tr
  end.

(** The events a run added to the trace [before] it. *)
Definition added (before after : t) : list Event :=
  skipn (length (trace before)) (trace after).

(** The [init()] calls that [initComponents] is to make on the sets of
    [w], in the order of the source: each family's devices by
    position, the families in the order SI5340, M24M02, LMX2594,
    PCA9557, GT1724. *)
Definition devices_of (f : Family) (count : nat) : list (Family * nat) :=
  map (fun i => (f, i)) (seq 0 count).

Definition init_plan (w : t) : list (Family * nat) :=
  devices_of F_SI5340 (length (si5340Set w))
    ++ devices_of F_M24M02 (length (m24m02Set w))
    ++ devices_of F_LMX2594 (length (lmxClockSet w))
    ++ devices_of F_PCA9557 (length (pca9557Set w))
    ++ devices_of F_GT1724 (length (gt1724Set w)).

(** A device object of any of the five families. *)
Inductive Device : Type :=
| SI5340_device (d : SI5340 D)
| M24M02_device (d : M24M02 D)
| LMX2594_device (d : LMX2594 D)
| PCA9557_device (d : PCA9557.t)
| GT1724_device (d : GT1724 D).

(** [dev->init()], by the driver of the device's family: the result, the
    object and the transport as the call leaves them. *)
Definition init_device (d : Device) (c : I2CComms.t)
  : Z * Device * I2CComms.t :=
  match d with
  | SI5340_device d =>
      let '(result, d, c) := SI5340_init D d c in
      (result, SI5340_device d, c)
  | M24M02_device d =>
      let '(result, d, c) := M24M02_init D d c in
      (result, M24M02_device d, c)
  | LMX2594_device d =>
      let '(result, d, c) := LMX2594_init D d c in
      (result, LMX2594_device d, c)
  | PCA9557_device d =>
      let '(result, d, c) := PCA9557.init d c in
      (result, PCA9557_device d, c)
  | GT1724_device d =>
      let '(result, d, c) := GT1724_init D d c in
      (result, GT1724_device d, c)
  end.

(** The device objects of the worker, family by family in the order
    SI5340, M24M02, LMX2594, PCA9557, GT1724, each set in discovery
    order. *)
Definition init_sequence (w : t) : list Device :=
  map SI5340_device (si5340Set w)
    ++ map M24M02_device (m24m02Set w)
    ++ map LMX2594_device (lmxClockSet w)
    ++ map PCA9557_device (pca9557Set w)
    ++ map GT1724_device (gt1724Set w).

(** The object at position [index] of the set of family [f]. *)
Definition device_at (f : Family) (index : nat) (w : t) : option Device :=
  match f with
  | F_SI5340 => option_map SI5340_device (nth_error (si5340Set w) index)
  | F_M24M02 => option_map M24M02_device (nth_error (m24m02Set w) index)
  | F_LMX2594 => option_map LMX2594_device (nth_error (lmxClockSet w) index)
  | F_PCA9557 => option_map PCA9557_device (nth_error (pca9557Set w) index)
  | F_GT1724 => option_map GT1724_device (nth_error (gt1724Set w) index)
  end.

(** The initialisation as the specification words it: [init()] is called
    on the devices in turn, each call on the transport as the call before
    left it, and the first call that fails ends the sequence.  The
    results of the calls made, the device objects afterwards and the
    transport afterwards. *)
Fixpoint init_in_turn (devices : list Device) (c : I2CComms.t)
  : list Z * list Device * I2CComms.t :=
  match devices with
  | [] => ([], [], c)
  | d :: rest =>
      let '(result, d, c) := init_device d c in
      if result =? globals.OK
      then
        let '(results, rest, c) := init_in_turn rest c in
        (result :: results, d :: rest, c)
      else ([result], d :: rest, c)
  end.

(** The deletions of a whole family, last object first. *)
Definition deletions (f : Family) (count : nat) : list Event :=
  map (Delete f) (rev (seq 0 count)).

Definition no_devices (w : t) : Prop :=
  gt1724Set w = [] /\ lmxClockSet w = [] /\ pca9557Set w = []
  /\ m24m02Set w = [] /\ si5340Set w = [].

(** Two states of the worker hold the same device objects. *)
Definition same_devices (w w' : t) : Prop :=
  gt1724Set w' = gt1724Set w /\ lmxClockSet w' = lmxClockSet w
  /\ pca9557Set w' = pca9557Set w /\ m24m02Set w' = m24m02Set w
  /\ si5340Set w' = si5340Set w.

(** Two states of the worker hold as many devices of each family. *)
Definition same_counts (w w' : t) : Prop :=
  length (gt1724Set w') = length (gt1724Set w)
  /\ length (lmxClockSet w') = length (lmxClockSet w)
  /\ length (pca9557Set w') = length (pca9557Set w)
  /\ length (m24m02Set w') = length (m24m02Set w)
  /\ length (si5340Set w') = length (si5340Set w).

(** How a run of [init()] calls over the planned devices [plan] may
    go: every call returns [OK] and the result is [OK]; or the calls
    stop at the first one that does not return [OK], whose result is
    the result of the run. *)
Definition init_outcome (plan : list (Family * nat)) (result : Z)
           (calls : list (Family * nat * Z)) : Prop :=
  (result = globals.OK
   /\ calls = map (fun d => (d, globals.OK)) plan)
  \/ (result <> globals.OK
      /\ exists k d,
          nth_error plan k = Some d
          /\ calls = map (fun d => (d, globals.OK)) (firstn k plan)
                      ++ [(d, result)]).

(** The discovery that [CommsConnect] runs once it has opened [port]
    from the state [w]: its result code and the state it leaves. *)
Definition discovery (port : string) (w : t) : Z * t :=
  findComponents
    (snd ((comms_open port ;;
           emit (WorkerShowMessage
                   "Comms Open. Checking system components..." None))
            w)).

(** The events of a disconnect from [w]: the deletions family by
    family, the closing of the port if it is open, and the three
    signals. *)
Definition disconnect_events (w : t) : list Event :=
  deletions F_GT1724 (length (gt1724Set w))
    ++ deletions F_LMX2594 (length (lmxClockSet w))
    ++ deletions F_PCA9557 (length (pca9557Set w))
    ++ deletions F_M24M02 (length (m24m02Set w))
    ++ deletions F_SI5340 (length (si5340Set w))
    ++ (if I2CComms.portIsOpen (comms w) then [Close] else [])
    ++ [Emit (WorkerResult globals.OK);
        Emit (WorkerShowMessage "Disconnected." None);
        Emit (StatusConnect false)].

(** A step of the worker is quiet when it keeps [flagWorkerReady] and
    adds to the trace neither a [StatusConnect] signal nor a teardown
    action. *)
Definition quiet (w w' : t) : Prop :=
  flagWorkerReady w' = flagWorkerReady w
  /\ exists evs, trace w' = trace w ++ evs
                 /\ status_of evs = [] /\ teardown_of evs = [].

(** A method all of whose runs are related to their start by [rel]. *)
Definition preserves {X} (rel : t -> t -> Prop) (m : M X) : Prop :=
  forall w, rel w (snd (m w)).

(** A method whose [init()] calls, run from [w], go as [init_outcome]
    says for [plan], and which keeps the device counts. *)
Definition init_run (plan : list (Family * nat)) (m : M Z) (w : t)
  : Prop :=
  same_counts w (snd (m w))
  /\ exists evs, trace (snd (m w)) = trace w ++ evs
                 /\ init_outcome plan (fst (m w)) (inits_of evs).

End Worker.

Arguments flagStop {D} _.
Arguments flagWorkerReady {D} _.
Arguments comms {D} _.
Arguments gt1724Set {D} _.
Arguments lmxClockSet {D} _.
Arguments pca9557Set {D} _.
Arguments m24m02Set {D} _.
Arguments si5340Set {D} _.
Arguments trace {D} _.
Arguments set_comms {D} _ _.
Arguments set_trace {D} _ _.
Arguments set_gt1724Set {D} _ _.
Arguments set_lmxClockSet {D} _ _.
Arguments set_pca9557Set {D} _ _.
Arguments set_m24m02Set {D} _ _.
Arguments set_si5340Set {D} _ _.
Arguments ret {D X} _ _.
Arguments bind {D X Y} _ _ _.
Arguments gets {D X} _ _.
Arguments record {D} _ _.
Arguments emit {D} _ _.
Arguments ping_with {D} _ _ _.
Arguments foreach_ping {D} _ _ _ _ _ _.
Arguments add_GT1724 {D} _ _ _.
Arguments add_M24M02 {D} _ _ _.
Arguments add_LMX2594 {D} _ _ _ _.
Arguments add_PCA9557 {D} _ _ _.
Arguments add_SI5340 {D} _ _ _.
Arguments findComponents {D R} A _.
Arguments foreach_init {D T} _ _ _ _ _.
Arguments initComponents {D R} _.
Arguments delete_all {D T} _ _ _ _.
Arguments shutdownComponents {D} _.
Arguments comms_open {D} _ _.
Arguments comms_close {D} _.
Arguments CommsDisconnect {D} _.
Arguments CommsConnect {D R} A _ _.
Arguments InitComponents {D R} _.
Arguments added {D} _ _.
Arguments init_plan {D} _.
Arguments SI5340_device {D} _.
Arguments M24M02_device {D} _.
Arguments LMX2594_device {D} _.
Arguments PCA9557_device {D} _.
Arguments GT1724_device {D} _.
Arguments init_device {D R} _ _.
Arguments init_sequence {D} _.
Arguments device_at {D} _ _ _.
Arguments init_in_turn {D R} _ _.
Arguments no_devices {D} _.
Arguments same_devices {D} _ _.
Arguments same_counts {D} _ _.
Arguments discovery {D R} A _ _.
Arguments disconnect_events {D} _.
Arguments quiet {D} _ _.
Arguments preserves {D X} _ _.
Arguments init_run {D} _ _ _.

(** The families of the devices deleted, in order. *)
Fixpoint deleted_families (tr : list Event) : list Family :=
  match tr with
  | [] => []
  | Delete f _ :: tr => f :: deleted_families tr
  | _ :: tr => deleted_families tr
  end.

Definition family_eqb (f g : Family) : bool :=
  match f, g with
  | F_GT1724, F_GT1724 | F_M24M02, F_M24M02 | F_LMX2594, F_LMX2594
  | F_PCA9557, F_PCA9557 | F_SI5340, F_SI5340 => true
  | _, _ => false
  end.

(** Position of a family in a family order. *)
Fixpoint rank (order : list Family) (f : Family) : nat :=
  match order with
  | [] => O
  | g :: order => if family_eqb f g then O else S (rank order f)
  end.

(** A sequence of deletions follows a family order when no device is
    deleted after a device of a later family. *)
Fixpoint follows_order (order : list Family) (fs : list Family) : bool :=
  match fs with
  | [] => true
  | f :: rest =>
      forallb (fun g => (rank order f <=? rank order g)%nat) rest
      && follows_order order rest
  end.

(** The number of device objects of a family that the worker holds. *)
Definition count {D : Drivers} (f : Family) (w : t D) : nat :=
  match f with
  | F_GT1724 => length (gt1724Set w)
  | F_M24M02 => length (m24m02Set w)
  | F_LMX2594 => length (lmxClockSet w)
  | F_PCA9557 => length (pca9557Set w)
  | F_SI5340 => length (si5340Set w)
  end.

(** The set of family [f] is the same in two states of the worker. *)
Definition same_set {D : Drivers} (f : Family) (w w' : t D) : Prop :=
  match f with
  | F_GT1724 => gt1724Set w' = gt1724Set w
  | F_M24M02 => m24m02Set w' = m24m02Set w
  | F_LMX2594 => lmxClockSet w' = lmxClockSet w
  | F_PCA9557 => pca9557Set w' = pca9557Set w
  | F_SI5340 => si5340Set w' = si5340Set w
  end.

(** A step of the worker that leaves [flagWorkerReady] and the sets of
    all families other than [f] as they were. *)
Definition others_kept {D : Drivers} (f : Family) (w w' : t D) : Prop :=
  flagWorkerReady w' = flagWorkerReady w
  /\ forall g, g <> f -> same_set g w w'.

(** The [...Added] signal of a family, for the object at position [i]
    with the counter value [n] of the discovery loop. *)
Definition added_signal (f : Family) (i : nat) (n : Z) : Signal :=
  match f with
  | F_GT1724 => GT1724Added i n
  | F_M24M02 => M24M02Added i n
  | F_LMX2594 => LMX2594Added i n
  | F_PCA9557 => PCA9557Added i n
  | F_SI5340 => SI5340Added i n
  end.

(** The counter step of the discovery loop of a family. *)
Definition counter_step (f : Family) : Z :=
  match f with F_GT1724 => 4 | _ => 1 end.

(** The signals of a discovery loop of family [f] that starts with [k]
    objects in the set and the counter at [n] and finds [m] devices. *)
Definition announcements (f : Family) (k : nat) (n : Z) (m : nat)
  : list Event :=
  map (fun j => Emit (added_signal f (k + j)
                                   (n + counter_step f * Z.of_nat j)))
      (seq 0 m).

(** An [...Added] signal is well numbered when a GT1724 is announced with
    the lane offset 4 times its position in the set, and a device of
    another family with its position as device ID. *)
Definition well_numbered (e : Event) : Prop :=
  match e with
  | Emit (GT1724Added i laneOffset) => laneOffset = 4 * Z.of_nat i
  | Emit (M24M02Added i deviceID) => deviceID = Z.of_nat i
  | Emit (LMX2594Added i deviceID) => deviceID = Z.of_nat i
  | Emit (PCA9557Added i deviceID) => deviceID = Z.of_nat i
  | Emit (SI5340Added i deviceID) => deviceID = Z.of_nat i
  | _ => True
  end.

(** The number of [...Added] signals of each family in a trace, in the
    order GT1724, M24M02, LMX2594, PCA9557, SI5340. *)
Definition is_added (f : Family) (e : Event) : bool :=
  match f, e with
  | F_GT1724, Emit (GT1724Added _ _) => true
  | F_M24M02, Emit (M24M02Added _ _) => true
  | F_LMX2594, Emit (LMX2594Added _ _) => true
  | F_PCA9557, Emit (PCA9557Added _ _) => true
  | F_SI5340, Emit (SI5340Added _ _) => true
  | _, _ => false
  end.

(** The number of [...Added] signals of family [f] in a trace. *)
Definition count_added (f : Family) (tr : list Event) : nat :=
  length (filter (is_added f) tr).

(** The state [wk] is reached from [w] by discovery steps that probed the
    families [probed]: the sets of the other families are as in [w], and
    when [w] held no device every announcement made since is well
    numbered and each family has as many announcements as objects. *)
Definition probed {D : Drivers} (families : list Family) (w wk : t D)
  : Prop :=
  flagWorkerReady wk = flagWorkerReady w
  /\ (forall g, ~ In g families -> same_set g w wk)
  /\ exists evs,
      trace wk = trace w ++ evs
      /\ (no_devices w ->
          Forall well_numbered evs
          /\ forall f, count_added f evs = count f wk).

End BertWorker.

(** ** Concrete transports, drivers and workers

    Small configurations on which the model is evaluated. *)

Module Bench.

Definition mem (a : Z) (l : list Z) : bool := existsb (Z.eqb a) l.

(** A transport whose devices sit at the addresses [devices], with all
    registers reading 0, the port [port] and the coming transaction
    results [faults]; the OS opens every port. *)
Definition bus (port : option string) (devices faults : list Z)
  : I2CComms.t :=
  I2CComms.mk port (fun _ => globals.OK) (fun a => mem a devices)
              (fun _ _ => 0) faults [].

(** Stand-ins for the four drivers that are parameters of the worker: an
    object is its I2C address, [ping] answers at the listed addresses,
    and [init] fails with [GEN_ERROR] at the addresses [bad]. *)
Definition answering (l : list Z) (c : I2CComms.t) (a : Z)
  : bool * I2CComms.t := (mem a l, c).

Definition init_by (bad : list Z) (d : Z) (c : I2CComms.t)
  : Z * Z * I2CComms.t :=
  (if mem d bad then globals.GEN_ERROR else globals.OK, d, c).

Definition drivers (gt ee lmx si bad : list Z) : BertWorker.Drivers :=
  BertWorker.mkDrivers
    Z (answering gt)  (fun a _ => a)   (init_by bad)
    Z (answering ee)  (fun a _ => a)   (init_by bad)
    Z (answering lmx) (fun a _ _ => a) (init_by bad)
    Z (answering si)  (fun a _ => a)   (init_by bad).

(** The ready worker before any connect. *)
Definition idle (D : BertWorker.Drivers) (c : I2CComms.t)
  : BertWorker.t D :=
  BertWorker.mk D false true c [] [] [] [] [] [].

(** The dual board with every chip answering. *)
Definition all_chips : BertWorker.Drivers :=
  drivers [0x12; 0x14; 0x16; 0x10] [0x50; 0x54] [0x28; 0x2C] [0x76; 0x72] [].

(** The same board with no EEPROM answering. *)
Definition no_eeprom : BertWorker.Drivers :=
  drivers [0x12; 0x14; 0x16; 0x10] [] [0x28; 0x2C] [0x76; 0x72] [].

(** The same board with its second clock synthesizer failing [init]. *)
Definition bad_clock : BertWorker.Drivers :=
  drivers [0x12; 0x14; 0x16; 0x10] [0x50; 0x54] [0x28; 0x2C] [0x76; 0x72]
          [0x2C].

(** The same board with no BERT core answering. *)
Definition no_core : BertWorker.Drivers :=
  drivers [] [0x50; 0x54] [0x28; 0x2C] [0x76; 0x72] [].

(** The worker of the full dual board after a successful connect on
    "COM1". *)
Definition connected : BertWorker.t all_chips :=
  snd (@BertWorker.CommsConnect all_chips PCA9557.datasheet
         globals.ADDRESSES_DUAL "COM1"
         (idle all_chips (bus None [0x1C; 0x18] []))).

(** What a connect on "COM1" makes of the idle worker on the dual board
    whose two I/O expanders answer. *)
Definition connect (D : BertWorker.Drivers) : BertWorker.t D :=
  snd (@BertWorker.CommsConnect D PCA9557.datasheet globals.ADDRESSES_DUAL
         "COM1" (idle D (bus None [0x1C; 0x18] []))).

End Bench.

(** * Properties *)

(** ** Channel mapper *)

Section ChannelMapper.
Import BertChannel.

(** Within the range of [int] the 32-bit arithmetic is the exact one. *)
Lemma wrap_int_id (z : Z) : fits_int z -> wrap_int z = z.
Proof.
  unfold fits_int, INT_MAX, wrap_int. intros H.
  rewrite Z.mod_small by lia. lia.
Qed.

Lemma quot_nonneg_bounds (a b : Z) :
  0 <= a -> 0 < b -> 0 <= a ÷ b <= a.
Proof.
  intros Ha Hb. rewrite Z.quot_div_nonneg by lia. split.
  - apply Z.div_pos; lia.
  - apply Z.div_le_upper_bound; nia.
Qed.

(** On the channels in range no operation of the constructor
    overflows, and the descriptor is the one given by exact arithmetic. *)
Lemma new_in_range (c : Z) :
  in_range c ->
  new c
  = mk c ((c - 1) ÷ 2) ((c - 1) ÷ 4) ((c - 1) * 2) (c * 2 - 1)
       (c * 2 - 1) ((c - 1) * 2)
       (if Z.rem ((c - 1) * 2) 4 =? 0
        then Some (mkTempSlot ((c - 1) * 2)
                     (label_format
                        (if (c - 1) * 2 <? 5 then "Master"%string
                         else "Slave"%string)
                        (Z.rem ((c - 1) ÷ 2) 2 + 1))
                     ("CoreTemperature_" ++ string_of_Z ((c - 1) * 2))%string
                     ((c - 1) * 2))
        else None).
Proof.
  unfold in_range, INT_MAX. intros [H1 H2].
  pose proof (quot_nonneg_bounds (c - 1) 2 ltac:(lia) ltac:(lia)) as Hq.
  pose proof (Z.rem_bound_pos ((c - 1) ÷ 2) 2 ltac:(lia) ltac:(lia)) as Hr.
  unfold new, int_add, int_sub, int_mul.
  rewrite (wrap_int_id (c - 1)) by (unfold fits_int, INT_MAX; lia).
  rewrite (wrap_int_id ((c - 1) * 2)) by (unfold fits_int, INT_MAX; lia).
  rewrite (wrap_int_id (c * 2)) by (unfold fits_int, INT_MAX; lia).
  rewrite (wrap_int_id (c * 2 - 1)) by (unfold fits_int, INT_MAX; lia).
  rewrite (wrap_int_id (Z.rem ((c - 1) ÷ 2) 2 + 1))
    by (unfold fits_int, INT_MAX; lia).
  reflexivity.
Qed.

(** C6, as the specification states it, fails on large channel numbers:
    at channel 1073741825 the product (channel - 1) * 2 is 2^31, which
    is not an [int]; the lane computed is -2147483648. *)
Lemma channel_mapper_overflow :
  fits_int 1073741825
  /\ pgLane (new 1073741825) = -2147483648
  /\ pgLane (new 1073741825) <> (1073741825 - 1) * 2.
Proof.
  split; [unfold fits_int, INT_MAX; lia|].
  split; [vm_compute; reflexivity|]. vm_compute. discriminate.
Qed.

(** C6 (amended): for every logical channel number c >= 1 whose double
    is an [int] (c <= 1073741823) the constructor yields
    core = floor((c-1)/2), board = floor((c-1)/4), pattern-generator
    lane = (c-1)*2, error-detector lane = eye-scan lane = c*2-1 and
    temperature lane = (c-1)*2. *)
Theorem channel_mapper_formulas (c : Z) :
  in_range c ->
  core (new c) = (c - 1) / 2
  /\ board (new c) = (c - 1) / 4
  /\ pgLane (new c) = (c - 1) * 2
  /\ edLane (new c) = c * 2 - 1
  /\ esLane (new c) = c * 2 - 1
  /\ ctLane (new c) = (c - 1) * 2.
Proof.
  intros Hc. rewrite (new_in_range c Hc). destruct Hc as [Hc _].
  cbn [core board pgLane edLane esLane ctLane].
  repeat split; apply Z.quot_div_nonneg; lia.
Qed.

Lemma channel_mapper_formulas_witness :
  in_range 8
  /\ core (new 8) = 3 /\ board (new 8) = 1 /\ pgLane (new 8) = 14
  /\ edLane (new 8) = 15 /\ esLane (new 8) = 15 /\ ctLane (new 8) = 14.
Proof.
  assert (H : in_range 8) by (unfold in_range, INT_MAX; lia).
  split; [exact H|]. exact (channel_mapper_formulas 8 H).
Defined.

(** C7, as the specification states it, fails on channel 3: its
    temperature lane is 4, which is below 5, so the label reads
    "Master 2:" and not "Slave 2:". *)
Lemma channel_3_label_is_master :
  ctLane (new 3) = 4
  /\ temp (new 3) = Some (mkTempSlot 4 "Master 2:" "CoreTemperature_4" 4)
  /\ ~ (exists s, temp (new 3) = Some s
                  /\ labelTemp_text s = "Slave 2:"%string).
Proof.
  split; [reflexivity|]. split; [reflexivity|].
  intros [s [Hs Hl]]. vm_compute in Hs. injection Hs as <-.
  vm_compute in Hl. discriminate Hl.
Qed.

Lemma rem_4_zero (z : Z) : (Z.rem z 4 =? 0) = (z mod 4 =? 0).
Proof.
  destruct (Z.eqb_spec (Z.rem z 4) 0) as [E|E],
           (Z.eqb_spec (z mod 4) 0) as [F|F]; try reflexivity; exfalso.
  - apply F. apply Z.mod_divide; [lia|]. apply Z.rem_divide; [lia|exact E].
  - apply E. apply Z.rem_divide; [lia|]. apply Z.mod_divide; [lia|exact F].
Qed.

(** C7 (amended): for every logical channel c >= 1 (an [int]), with the
    temperature lane and the core as the constructor computes them, a
    temperature slot exists exactly when the temperature lane mod 4 is
    0; its label is "Master" when the temperature lane is below 5 and
    "Slave" otherwise, followed by the group number (core mod 2) + 1; in
    particular channel 3 (temperature lane 4) has a slot labelled
    "Master", with group 2. *)
Theorem temperature_slot (c : Z) :
  1 <= c <= INT_MAX ->
  (temp (new c) <> None <-> ctLane (new c) mod 4 = 0)
  /\ (forall s, temp (new c) = Some s ->
        labelTemp_text s
        = label_format
            (if ctLane (new c) <? 5 then "Master"%string else "Slave"%string)
            (core (new c) mod 2 + 1))
  /\ (exists s, temp (new 3) = Some s
                /\ labelTemp_text s = "Master 2:"%string).
Proof.
  unfold INT_MAX. intros Hc.
  assert (Hsub : int_sub c 1 = c - 1)
    by (apply wrap_int_id; unfold fits_int, INT_MAX; lia).
  pose proof (quot_nonneg_bounds (c - 1) 2 ltac:(lia) ltac:(lia)) as Hq.
  assert (Hcore : Z.rem ((c - 1) ÷ 2) 2 = ((c - 1) ÷ 2) mod 2)
    by (apply Z.rem_mod_nonneg; lia).
  pose proof (Z.mod_pos_bound ((c - 1) ÷ 2) 2 ltac:(lia)) as Hm.
  assert (Hgrp : int_add (((c - 1) ÷ 2) mod 2) 1 = ((c - 1) ÷ 2) mod 2 + 1)
    by (apply wrap_int_id; unfold fits_int, INT_MAX; lia).
  cbn [new temp ctLane core]. rewrite Hsub, Hcore, Hgrp, rem_4_zero.
  destruct (Z.eqb_spec (int_mul (c - 1) 2 mod 4) 0) as [E|E].
  - split; [split; [intros _; exact E | intros _; discriminate]|].
    split.
    + intros s Hs. injection Hs as <-. reflexivity.
    + eexists. split; reflexivity.
  - split; [split; [intros H; exfalso; apply H; reflexivity
                   | intros H; contradiction]|].
    split.
    + intros s Hs. discriminate Hs.
    + eexists. split; reflexivity.
Qed.

Lemma temperature_slot_witness :
  (temp (new 5) <> None <-> ctLane (new 5) mod 4 = 0)
  /\ (forall s, temp (new 5) = Some s ->
        labelTemp_text s
        = label_format
            (if ctLane (new 5) <? 5 then "Master"%string else "Slave"%string)
            (core (new 5) mod 2 + 1))
  /\ (exists s, temp (new 3) = Some s
                /\ labelTemp_text s = "Master 2:"%string).
Proof.
  exact (temperature_slot 5 ltac:(unfold INT_MAX; lia)).
Defined.

End ChannelMapper.

(** ** PCA9557 driver *)

Section Driver.
Import PCA9557.
Context {R : Registers}.

(** *** Bytes *)

Lemma u8_high_bits (z i : Z) : is_u8 z -> 8 <= i -> Z.testbit z i = false.
Proof.
  intros [Hlo Hhi] Hi.
  destruct (Z.eq_dec z 0) as [->|Hz]; [apply Z.bits_0|].
  apply Z.bits_above_log2; [lia|].
  assert (Z.log2 z < 8) by (apply Z.log2_lt_pow2; lia). lia.
Qed.

Lemma high_bits_u8 (z : Z) :
  0 <= z -> (forall i, 8 <= i -> Z.testbit z i = false) -> is_u8 z.
Proof.
  intros Hz Hbits. split; [exact Hz|].
  destruct (Z.eq_dec z 0) as [->|Hnz]; [lia|].
  destruct (Z_lt_le_dec z 256) as [H|H]; [exact H|exfalso].
  assert (Hl : 8 <= Z.log2 z) by (apply (Z.log2_le_pow2 z 8); lia).
  specialize (Hbits (Z.log2 z) Hl).
  rewrite Z.bit_log2 in Hbits by lia. discriminate.
Qed.

Lemma update_is_u8 (r m v : Z) :
  is_u8 r -> is_u8 v -> is_u8 (Z.lor (Z.land r (Z.lnot m)) v).
Proof.
  intros Hr Hv. apply high_bits_u8.
  - apply Z.lor_nonneg. split; [|apply Hv].
    apply Z.land_nonneg. left. apply Hr.
  - intros i Hi. rewrite Z.lor_spec, Z.land_spec.
    rewrite (u8_high_bits r i Hr Hi), (u8_high_bits v i Hv Hi). reflexivity.
Qed.

Lemma to_u8_id (z : Z) : is_u8 z -> to_u8 z = z.
Proof. intros H. apply Z.mod_small. exact H. Qed.

Lemma last_cons {X} (l : list X) (x d : X) : last (x :: l) d = last l x.
Proof.
  revert x d. induction l as [|y l IH]; intros x d; [reflexivity|].
  change (last (x :: y :: l) d) with (last (y :: l) d).
  rewrite !IH. reflexivity.
Qed.

(** *** The methods, by the state of the port *)

Lemma write8_closed (a r v : Z) (c : I2CComms.t) :
  I2CComms.portIsOpen c = false ->
  I2CComms.write8 a r v c = (globals.NOT_CONNECTED, c).
Proof. intros H. unfold I2CComms.write8. rewrite H. reflexivity. Qed.

Lemma writePins_closed (d : t) (c : I2CComms.t) :
  I2CComms.portIsOpen c = false ->
  writePins d c = (globals.NOT_CONNECTED, d, c).
Proof. intros H. unfold writePins. rewrite H. reflexivity. Qed.

Lemma writePins_open (d : t) (c : I2CComms.t) :
  I2CComms.portIsOpen c = true ->
  writePins d c
  = (fst (I2CComms.write8 (i2cAddress d) REG_OUPUT (regOutput d) c), d,
     snd (I2CComms.write8 (i2cAddress d) REG_OUPUT (regOutput d) c)).
Proof.
  intros H. unfold writePins. rewrite H. cbn [negb].
  destruct (I2CComms.write8 _ _ _ c) as [r c']. cbn [fst snd].
  destruct (Z.eqb_spec r globals.OK) as [->|Hr]; reflexivity.
Qed.

Lemma write8_open (a r v : Z) (c : I2CComms.t) :
  I2CComms.portIsOpen c = true ->
  let res := I2CComms.outcome c a globals.ADAPTOR_WRITE_ERROR in
  fst (I2CComms.write8 a r v c) = res
  /\ I2CComms.portIsOpen (snd (I2CComms.write8 a r v c)) = true
  /\ I2CComms.log (snd (I2CComms.write8 a r v c))
     = I2CComms.log c ++ [I2CComms.BusWrite a r v res]
  /\ (res <> globals.OK ->
      I2CComms.reg (snd (I2CComms.write8 a r v c)) = I2CComms.reg c).
Proof.
  intros H res. unfold I2CComms.write8. rewrite H. cbn [negb fst snd].
  fold res. repeat split.
  - exact H.
  - intros Hres. cbn [I2CComms.reg].
    destruct (Z.eqb_spec res globals.OK); [contradiction|reflexivity].
Qed.

(** What one [updatePins] call does to the cache and to the bus. *)
Lemma updatePins_step (mask value : Z) (d : t) (c : I2CComms.t) :
  let regNew := to_u8 (Z.lor (Z.land (regOutput d) (Z.lnot mask)) value) in
  let out := updatePins mask value d c in
  regOutput (snd (fst out)) = regNew
  /\ i2cAddress (snd (fst out)) = i2cAddress d
  /\ I2CComms.portIsOpen (snd out) = I2CComms.portIsOpen c
  /\ (I2CComms.portIsOpen c = true ->
      I2CComms.log (snd out)
      = I2CComms.log c
          ++ [I2CComms.BusWrite (i2cAddress d) REG_OUPUT regNew
                                (fst (fst out))])
  /\ (I2CComms.portIsOpen c = false ->
      fst (fst out) = globals.NOT_CONNECTED /\ snd out = c)
  /\ (fst (fst out) <> globals.OK ->
      I2CComms.reg (snd out) = I2CComms.reg c).
Proof.
  intros regNew out. subst out. unfold updatePins, setPins. fold regNew.
  destruct (I2CComms.portIsOpen c) eqn:Hopen.
  - rewrite writePins_open by exact Hopen.
    cbn [regOutput i2cAddress set_regOutput].
    destruct (write8_open (i2cAddress d) REG_OUPUT regNew c Hopen)
      as (Hres & Hport & Hlog & Hreg).
    destruct (I2CComms.write8 (i2cAddress d) REG_OUPUT regNew c)
      as [r c'] eqn:Hw.
    cbn [fst snd] in *.
    destruct (negb (r =? globals.OK)); cbn [fst snd regOutput i2cAddress emit];
      (repeat split;
       [ exact Hport | intros _; rewrite Hlog, Hres; reflexivity
       | discriminate | discriminate
       | intros Hr; apply Hreg; rewrite <- Hres; exact Hr ]).
  - rewrite writePins_closed by exact Hopen.
    cbn [negb Z.eqb globals.NOT_CONNECTED globals.OK fst snd regOutput
         i2cAddress emit set_regOutput].
    repeat split; try exact Hopen; discriminate.
Qed.


(** Under a masked call the bits outside the mask keep their value and
    the bits inside take the value's. *)
Lemma masked_update_bit (r mask value i : Z) :
  Z.land value (Z.lnot mask) = 0 -> 0 <= i ->
  Z.testbit (Z.lor (Z.land r (Z.lnot mask)) value) i
  = if Z.testbit mask i then Z.testbit value i else Z.testbit r i.
Proof.
  intros Hm Hi.
  assert (Hb : Z.testbit value i && negb (Z.testbit mask i) = false).
  { rewrite <- Z.lnot_spec, <- Z.land_spec, Hm by exact Hi.
    apply Z.bits_0. }
  rewrite Z.lor_spec, Z.land_spec, Z.lnot_spec by exact Hi.
  destruct (Z.testbit mask i), (Z.testbit value i), (Z.testbit r i);
    cbn in *; congruence.
Qed.

(** C4 (amended): for every sequence of [updatePins (mask, value)] calls
    whose values have no bit set outside their masks, each call made
    while the port is open puts exactly one write on the bus, of the
    whole output register with [(cachedOutput & ~mask) | value]; the
    cache ends at the last value so computed; and every bit holds the
    value given by the last call whose mask covers it, or its initial
    value when no call covers it. *)
Theorem updatePins_masking (calls : list (Z * Z)) (d : t) (c : I2CComms.t) :
  is_u8 (regOutput d) ->
  Forall masked_call calls ->
  let out := run_updatePins calls d c in
  (I2CComms.portIsOpen c = true ->
   I2CComms.log (snd out)
   = I2CComms.log c
       ++ output_writes (i2cAddress d) (outputs calls (regOutput d))
                        (fst (fst out)))
  /\ length (fst (fst out)) = length calls
  /\ regOutput (snd (fst out))
     = last (outputs calls (regOutput d)) (regOutput d)
  /\ (forall i, 0 <= i ->
        Z.testbit (regOutput (snd (fst out))) i
        = bit_after calls i (Z.testbit (regOutput d) i)).
Proof.
  intros Hu8 Hcalls. revert d c Hu8.
  induction Hcalls as [|[mask value] rest [Hm [Hv Hmv]] Hrest IH];
    intros d c Hu8.
  - cbn. rewrite app_nil_r. repeat split.
  - cbn [fst snd] in Hm, Hv, Hmv.
    cbn [run_updatePins outputs bit_after].
    destruct (updatePins_step mask value d c)
      as (Hreg & Haddr & Hport & Hlog & _ & _).
    rewrite to_u8_id in Hreg, Hlog by (apply update_is_u8; assumption).
    destruct (updatePins mask value d c) as [[r d1] c1].
    cbn [fst snd] in Hreg, Haddr, Hport, Hlog.
    assert (Hu8' : is_u8 (regOutput d1))
      by (rewrite Hreg; apply update_is_u8; assumption).
    specialize (IH d1 c1 Hu8').
    destruct (run_updatePins rest d1 c1) as [[rs d2] c2].
    cbn [fst snd] in IH |- *.
    destruct IH as (IHlog & IHlen & IHreg & IHbit).
    rewrite Hreg, Haddr in *. repeat split.
    + intros Hopen. rewrite IHlog by (rewrite Hport; exact Hopen).
      rewrite (Hlog Hopen), <- app_assoc. reflexivity.
    + cbn [length]. rewrite IHlen. reflexivity.
    + rewrite IHreg, last_cons. reflexivity.
    + intros i Hi. rewrite (IHbit i Hi).
      rewrite masked_update_bit by assumption. reflexivity.
Qed.

(** C10: when the write issued by [setPins] or [updatePins] fails, the
    cached output register already holds the new value while the
    hardware registers are as before, and a later [updatePins] composes
    against that never-written value. *)
Theorem failed_write_keeps_new_cache
        (d : t) (c : I2CComms.t) (value mask mask2 value2 : Z) :
  (fst (fst (setPins value d c)) <> globals.OK ->
   let d' := snd (fst (setPins value d c)) in
   let c' := snd (setPins value d c) in
   regOutput d' = value
   /\ I2CComms.reg c' = I2CComms.reg c
   /\ regOutput (snd (fst (updatePins mask2 value2 d' c')))
      = to_u8 (Z.lor (Z.land value (Z.lnot mask2)) value2))
  /\ (fst (fst (updatePins mask value d c)) <> globals.OK ->
      let regNew :=
        to_u8 (Z.lor (Z.land (regOutput d) (Z.lnot mask)) value) in
      let d' := snd (fst (updatePins mask value d c)) in
      let c' := snd (updatePins mask value d c) in
      regOutput d' = regNew
      /\ I2CComms.reg c' = I2CComms.reg c
      /\ regOutput (snd (fst (updatePins mask2 value2 d' c')))
         = to_u8 (Z.lor (Z.land regNew (Z.lnot mask2)) value2)).
Proof.
  split.
  - intros Hfail d' c'.
    assert (Hd' : regOutput d' = value).
    { subst d'. unfold setPins.
      destruct (I2CComms.portIsOpen c) eqn:Hopen.
      - rewrite writePins_open by exact Hopen. reflexivity.
      - rewrite writePins_closed by exact Hopen. reflexivity. }
    split; [exact Hd'|]. split.
    + subst c'. revert Hfail. unfold setPins.
      destruct (I2CComms.portIsOpen c) eqn:Hopen.
      * rewrite writePins_open by exact Hopen. cbn [fst snd regOutput
          i2cAddress set_regOutput].
        destruct (write8_open (i2cAddress d) REG_OUPUT value c Hopen)
          as (Hres & _ & _ & Hreg).
        intros Hfail. apply Hreg. rewrite <- Hres. exact Hfail.
      * rewrite writePins_closed by exact Hopen. reflexivity.
    + destruct (updatePins_step mask2 value2 d' c') as (H & _).
      rewrite H, Hd'. reflexivity.
  - intros Hfail regNew d' c'.
    destruct (updatePins_step mask value d c) as (Hreg & _ & _ & _ & _ & Hhw).
    split; [exact Hreg|]. split; [exact (Hhw Hfail)|].
    destruct (updatePins_step mask2 value2 d' c') as (H & _).
    rewrite H. subst d'. rewrite Hreg. reflexivity.
Qed.

(** C8, failing input: on a transport whose port is not open, [ping]
    puts nothing on the bus but returns [true]: the [int] value
    [NOT_CONNECTED] is converted to the [bool] result. *)
Theorem ping_on_closed_port (c : I2CComms.t) (address : Z) :
  I2CComms.portIsOpen c = false ->
  ping c address = (true, c).
Proof. intros H. unfold ping. rewrite H. reflexivity. Qed.

(** The other operations do return [NOT_CONNECTED] on a closed port, and
    leave the transport untouched. *)
Lemma closed_port_not_connected (d : t) (c : I2CComms.t) :
  I2CComms.portIsOpen c = false ->
  writePins d c = (globals.NOT_CONNECTED, d, c)
  /\ readPins d c = (globals.NOT_CONNECTED, d, c)
  /\ (forall v, fst (fst (setPins v d c)) = globals.NOT_CONNECTED
                /\ snd (setPins v d c) = c)
  /\ (forall m v, fst (fst (updatePins m v d c)) = globals.NOT_CONNECTED
                  /\ snd (updatePins m v d c) = c)
  /\ fst (fst (fst (getPins d c))) = globals.NOT_CONNECTED
  /\ snd (getPins d c) = c
  /\ (forall p0 p1 p2 p3 p4 p5 p6 p7,
        configurePins p0 p1 p2 p3 p4 p5 p6 p7 d c
        = (globals.NOT_CONNECTED, d, c))
  /\ fst (fst (init d c)) = globals.NOT_CONNECTED
  /\ snd (init d c) = c.
Proof.
  intros H.
  assert (Hcfg : forall p0 p1 p2 p3 p4 p5 p6 p7,
             configurePins p0 p1 p2 p3 p4 p5 p6 p7 d c
             = (globals.NOT_CONNECTED, d, c)).
  { intros. unfold configurePins. rewrite H. reflexivity. }
  assert (Hrd : readPins d c = (globals.NOT_CONNECTED, d, c)).
  { unfold readPins. rewrite H. reflexivity. }
  split; [apply writePins_closed; exact H|].
  split; [exact Hrd|].
  split; [intros v; unfold setPins; rewrite writePins_closed by exact H;
          split; reflexivity|].
  split; [intros m v; destruct (updatePins_step m v d c)
                        as (_ & _ & _ & _ & Hc & _); exact (Hc H)|].
  split; [unfold getPins; rewrite Hrd; reflexivity|].
  split; [unfold getPins; rewrite Hrd; reflexivity|].
  split; [exact Hcfg|].
  unfold init. rewrite Hcfg. split; reflexivity.
Qed.

(** The calls the driver itself makes are masked: the trigger-divide
    selections lie within [TRIGGER_DIVIDE_BITMASK] and the EEPROM write
    control values within [EEPROM_WC_BITMASK]. *)
Lemma driver_calls_are_masked :
  Forall (fun v => masked_call (TRIGGER_DIVIDE_BITMASK, v))
         TRIGGER_DIVIDE_LOOKUP
  /\ masked_call (EEPROM_WC_BITMASK, EEPROM_WRITE_ENABLE)
  /\ masked_call (EEPROM_WC_BITMASK, EEPROM_WRITE_DISABLE).
Proof.
  split; [unfold TRIGGER_DIVIDE_LOOKUP; repeat apply Forall_cons;
          try apply Forall_nil|split];
    unfold masked_call, is_u8; repeat split;
    solve [reflexivity | cbv; discriminate].
Qed.

(** When the device answers and no transaction fails, [ping] finds the
    device and leaves every register as it was. *)
Lemma ping_restores_without_fault (c : I2CComms.t) (address : Z) :
  I2CComms.portIsOpen c = true ->
  I2CComms.present c address = true ->
  I2CComms.faults c = [] ->
  fst (ping c address) = true
  /\ I2CComms.same_hardware (snd (ping c address)) c.
Proof.
  intros Hopen Hpresent Hfaults.
  unfold ping, I2CComms.pingAddress, I2CComms.read8, I2CComms.write8,
    I2CComms.outcome, I2CComms.portIsOpen in *.
  destruct c as [p os pr rg fs lg]. cbn in Hopen, Hpresent, Hfaults |- *.
  subst fs. destruct p; [|discriminate]. cbn.
  repeat (rewrite Hpresent; cbn).
  unfold I2CComms.set_reg. rewrite ?Z.eqb_refl. cbn.
  split; [reflexivity|].
  intros a r. cbn.
  destruct ((a =? address) && (r =? REG_POLARITY)) eqn:E; [|reflexivity].
  apply andb_true_iff in E. destruct E as [Ea Er].
  apply Z.eqb_eq in Ea, Er. subst. reflexivity.
Qed.

End Driver.

(** C4, as the specification states it, fails when the value has a bit
    set outside the mask: with the cache at 0, [updatePins (0x01, 0x02)]
    writes 0x02, so bit 1, which the mask does not cover, changes from 0
    to 1. *)
Lemma updatePins_sets_unmasked_bit :
  let d := PCA9557.new 0x1C 0 in
  let c := Bench.bus (Some "COM1"%string) [0x1C] [] in
  let out := @PCA9557.updatePins PCA9557.datasheet 0x01 0x02 d c in
  Z.testbit 0x01 1 = false
  /\ Z.testbit (PCA9557.regOutput d) 1 = false
  /\ Z.testbit (PCA9557.regOutput (snd (fst out))) 1 = true
  /\ I2CComms.log (snd out) = [I2CComms.BusWrite 0x1C 1 0x02 globals.OK].
Proof. repeat split. Qed.

Lemma updatePins_masking_witness :
  let d := PCA9557.new 0x1C 0 in
  let c := Bench.bus (Some "COM1"%string) [0x1C] [] in
  let calls := [(0xC0, 0x80); (0x04, 0x04)] in
  let out := @PCA9557.run_updatePins PCA9557.datasheet calls d c in
  is_u8 (PCA9557.regOutput d)
  /\ Forall PCA9557.masked_call calls
  /\ I2CComms.log (snd out)
     = [I2CComms.BusWrite 0x1C 1 0x80 globals.OK;
        I2CComms.BusWrite 0x1C 1 0x84 globals.OK]
  /\ PCA9557.regOutput (snd (fst out)) = 0x84.
Proof.
  intros d c calls out.
  assert (Hd : is_u8 (PCA9557.regOutput d)) by (unfold is_u8; cbn; lia).
  assert (Hcalls : Forall PCA9557.masked_call calls).
  { constructor; [|constructor; [|constructor]];
      unfold PCA9557.masked_call, is_u8; cbn; lia. }
  split; [exact Hd|]. split; [exact Hcalls|].
  destruct (@updatePins_masking PCA9557.datasheet calls d c Hd Hcalls)
    as (Hlog & _ & Hreg & _).
  split; [exact (Hlog eq_refl) | exact Hreg].
Defined.

Lemma failed_write_keeps_new_cache_witness :
  let d := PCA9557.new 0x1C 0 in
  let c := Bench.bus None [0x1C] [] in
  let out := @PCA9557.setPins PCA9557.datasheet 0xC4 d c in
  fst (fst out) <> globals.OK
  /\ PCA9557.regOutput (snd (fst out)) = 0xC4
  /\ I2CComms.reg (snd out) 0x1C 1 = 0
  /\ PCA9557.regOutput
       (snd (fst (@PCA9557.updatePins PCA9557.datasheet 0xC0 0x40
                    (snd (fst out)) (snd out))))
     = 0x44.
Proof.
  intros d c out.
  assert (Hfail : fst (fst out) <> globals.OK) by (cbv; discriminate).
  split; [exact Hfail|].
  destruct (proj1 (@failed_write_keeps_new_cache PCA9557.datasheet d c 0xC4
                     0 0xC0 0x40) Hfail) as (Hcache & Hreg & Hnext).
  split; [exact Hcache|]. split; [|exact Hnext].
  fold out in Hreg. rewrite Hreg. reflexivity.
Defined.

Lemma ping_on_closed_port_witness :
  let c := Bench.bus None [0x1C] [] in
  I2CComms.portIsOpen c = false
  /\ @PCA9557.ping PCA9557.datasheet c 0x1C = (true, c).
Proof.
  split; [reflexivity|].
  exact (@ping_on_closed_port PCA9557.datasheet (Bench.bus None [0x1C] [])
           0x1C eq_refl).
Defined.

(** C5, failing input: a device answers at 0x1C with its polarity
    inversion register at 0.  When the read-back of the test value fails,
    [ping] returns at once and the register is left at 0x55; when the
    restoring write fails, the register is left at 0x55 as well and [ping]
    reports the device as found. *)
Theorem ping_leaves_test_value :
  let ping := @PCA9557.ping PCA9557.datasheet in
  let polarity c := I2CComms.reg c 0x1C (@PCA9557.REG_POLARITY PCA9557.datasheet) in
  let OK := globals.OK in
  let c1 := Bench.bus (Some "COM1"%string) [0x1C]
                      [OK; OK; OK; globals.READ_ERROR] in
  let c2 := Bench.bus (Some "COM1"%string) [0x1C]
                      [OK; OK; OK; OK; globals.WRITE_ERROR] in
  (polarity c1 = 0
   /\ fst (ping c1 0x1C) = false /\ polarity (snd (ping c1 0x1C)) = 0x55)
  /\ (polarity c2 = 0
      /\ fst (ping c2 0x1C) = true /\ polarity (snd (ping c2 0x1C)) = 0x55).
Proof. repeat split. Qed.

(** ** Worker *)

Section WorkerFacts.
Import BertWorker.
Context {D : Drivers} {R : PCA9557.Registers}.

(** *** Traces *)

Lemma status_of_app (a b : list Event) :
  status_of (a ++ b) = status_of a ++ status_of b.
Proof.
  induction a as [|e a IH]; [reflexivity|].
  destruct e as [s| | | |]; try destruct s; cbn; rewrite IH; reflexivity.
Qed.

Lemma teardown_of_app (a b : list Event) :
  teardown_of (a ++ b) = teardown_of a ++ teardown_of b.
Proof.
  induction a as [|e a IH]; [reflexivity|].
  destruct e; cbn; rewrite IH; reflexivity.
Qed.

Lemma inits_of_app (a b : list Event) :
  inits_of (a ++ b) = inits_of a ++ inits_of b.
Proof.
  induction a as [|e a IH]; [reflexivity|].
  destruct e; cbn; rewrite IH; reflexivity.
Qed.

Lemma opens_of_app (a b : list Event) :
  opens_of (a ++ b) = opens_of a ++ opens_of b.
Proof.
  induction a as [|e a IH]; [reflexivity|].
  destruct e; cbn; rewrite IH; reflexivity.
Qed.

Lemma skipn_length_app {X} (a b : list X) : skipn (length a) (a ++ b) = b.
Proof. induction a as [|x a IH]; [reflexivity|exact IH]. Qed.

Lemma added_app (w w' : t D) (evs : list Event) :
  trace w' = trace w ++ evs -> added w w' = evs.
Proof. intros H. unfold added. rewrite H. apply skipn_length_app. Qed.

(** *** Teardown *)

Lemma deletions_S (f : Family) (n : nat) :
  deletions f (S n) = Delete f n :: deletions f n.
Proof.
  unfold deletions. rewrite seq_S, rev_app_distr. reflexivity.
Qed.

Lemma length_removelast {X} (l : list X) :
  length (removelast l) = (length l - 1)%nat.
Proof.
  induction l as [|x l IH]; [reflexivity|].
  destruct l as [|y l]; [reflexivity|].
  change (removelast (x :: y :: l)) with (x :: removelast (y :: l)).
  cbn [length] in *. rewrite IH. lia.
Qed.

(** The loop of [shutdownComponents] empties a set, deleting its objects
    last first. *)
Lemma delete_loop_all {X} (f : Family) (set : list X) (tr : list Event) :
  delete_loop f (length set) set tr
  = ([], tr ++ deletions f (length set)).
Proof.
  remember (length set) as n eqn:Hn. revert set tr Hn.
  induction n as [|n IH]; intros set tr Hn.
  - destruct set; [|discriminate]. cbn. rewrite app_nil_r. reflexivity.
  - cbn [delete_loop]. rewrite <- Hn. cbn [Nat.ltb Nat.leb].
    replace (S n - 1)%nat with n by lia.
    rewrite IH by (rewrite length_removelast; lia).
    rewrite deletions_S, <- app_assoc. reflexivity.
Qed.

Lemma CommsDisconnect_ready (w : t D) :
  flagWorkerReady w = true ->
  let w' := snd (CommsDisconnect w) in
  no_devices w'
  /\ I2CComms.portIsOpen (comms w') = false
  /\ comms w' = (if I2CComms.portIsOpen (comms w)
                 then I2CComms.close (comms w) else comms w)
  /\ flagWorkerReady w' = true
  /\ trace w' = trace w ++ disconnect_events w.
Proof.
  destruct w as [fs fr c gt lmx pca ee si tr]. cbn [flagWorkerReady].
  intros ->. unfold disconnect_events, no_devices.
  unfold CommsDisconnect, shutdownComponents, delete_all, bind, gets, ret,
    emit, record, comms_close, set_trace, set_gt1724Set, set_lmxClockSet,
    set_pca9557Set, set_m24m02Set, set_si5340Set, set_comms.
  cbn [flagWorkerReady negb gt1724Set lmxClockSet pca9557Set m24m02Set
       si5340Set comms trace flagStop].
  rewrite !delete_loop_all.
  destruct (I2CComms.portIsOpen c) eqn:Hopen;
    cbn [snd flagWorkerReady negb gt1724Set lmxClockSet pca9557Set m24m02Set
         si5340Set comms trace flagStop];
    rewrite Hopen;
    cbn [snd flagWorkerReady negb gt1724Set lmxClockSet pca9557Set m24m02Set
         si5340Set comms trace flagStop];
    rewrite <- ?app_assoc; repeat split; assumption.
Qed.


Lemma teardown_of_deletions (f : Family) (n : nat) :
  teardown_of (deletions f n) = deletions f n.
Proof.
  unfold deletions. induction (rev (seq 0 n)) as [|i l IH];
    [reflexivity|]. cbn. rewrite IH. reflexivity.
Qed.

Lemma status_of_deletions (f : Family) (n : nat) :
  status_of (deletions f n) = [].
Proof.
  unfold deletions. induction (rev (seq 0 n)) as [|i l IH];
    [reflexivity|exact IH].
Qed.

Lemma teardown_of_disconnect (w : t D) :
  teardown_of (disconnect_events w)
  = deletions F_GT1724 (length (gt1724Set w))
      ++ deletions F_LMX2594 (length (lmxClockSet w))
      ++ deletions F_PCA9557 (length (pca9557Set w))
      ++ deletions F_M24M02 (length (m24m02Set w))
      ++ deletions F_SI5340 (length (si5340Set w))
      ++ (if I2CComms.portIsOpen (comms w) then [Close] else []).
Proof.
  unfold disconnect_events.
  rewrite !teardown_of_app, !teardown_of_deletions.
  destruct (I2CComms.portIsOpen (comms w)); cbn; rewrite ?app_nil_r;
    reflexivity.
Qed.

Lemma status_of_disconnect (w : t D) :
  status_of (disconnect_events w) = [false].
Proof.
  unfold disconnect_events.
  rewrite !status_of_app, !status_of_deletions.
  destruct (I2CComms.portIsOpen (comms w)); reflexivity.
Qed.

(** C3 (amended): a disconnect tears down every device record in the
    family order BERT-core IC, clock synthesizer, I/O expander, EEPROM,
    reference clock, each family last object first; every device is
    released before the transport is closed, and afterwards no device
    record is left and the port is closed. *)
Theorem disconnect_teardown_order (w : t D) :
  flagWorkerReady w = true ->
  let w' := snd (CommsDisconnect w) in
  teardown_of (added w w')
  = deletions F_GT1724 (length (gt1724Set w))
      ++ deletions F_LMX2594 (length (lmxClockSet w))
      ++ deletions F_PCA9557 (length (pca9557Set w))
      ++ deletions F_M24M02 (length (m24m02Set w))
      ++ deletions F_SI5340 (length (si5340Set w))
      ++ (if I2CComms.portIsOpen (comms w) then [Close] else [])
  /\ no_devices w'
  /\ I2CComms.portIsOpen (comms w') = false.
Proof.
  intros Hready w'.
  destruct (CommsDisconnect_ready w Hready) as (Hnone & Hport & _ & _ & Htr).
  fold w' in Hnone, Hport, Htr.
  rewrite (added_app w w' _ Htr), teardown_of_disconnect.
  repeat split; solve [assumption | apply Hnone].
Qed.

(** C9: a disconnect when already disconnected reports success and
    changes neither the transport nor the device sets, and a connect when
    the port is already open reports success without opening the
    transport, which is left as it was with all device records. *)
Theorem idempotent_connect_disconnect (A : globals.AddressTable)
        (port : string) (w : t D) :
  (I2CComms.portIsOpen (comms w) = false -> no_devices w ->
   let w' := snd (CommsDisconnect w) in
   comms w' = comms w /\ same_devices w w'
   /\ teardown_of (added w w') = [] /\ opens_of (added w w') = []
   /\ (flagWorkerReady w = true ->
       added w w' = [Emit (WorkerResult globals.OK);
                     Emit (WorkerShowMessage "Disconnected." None);
                     Emit (StatusConnect false)]))
  /\ (I2CComms.portIsOpen (comms w) = true ->
      let w' := snd (CommsConnect A port w) in
      comms w' = comms w /\ same_devices w w'
      /\ teardown_of (added w w') = [] /\ opens_of (added w w') = []
      /\ (flagWorkerReady w = true ->
          added w w' = [Emit (WorkerShowMessage "Connected." None);
                        Emit (StatusConnect true)])).
Proof.
  split.
  - intros Hclosed (Hgt & Hlmx & Hpca & Hee & Hsi) w'.
    destruct (flagWorkerReady w) eqn:Hready.
    + destruct (CommsDisconnect_ready w Hready)
        as ((Hgt' & Hlmx' & Hpca' & Hee' & Hsi') & _ & Hc & _ & Htr).
      fold w' in Hgt', Hlmx', Hpca', Hee', Hsi', Hc, Htr.
      unfold disconnect_events in Htr.
      rewrite Hclosed in Hc.
      rewrite Hclosed in Htr.
      rewrite Hgt, Hlmx, Hpca, Hee, Hsi in Htr. cbn in Htr.
      rewrite (added_app w w' _ Htr).
      unfold same_devices. rewrite Hgt, Hlmx, Hpca, Hee, Hsi.
      repeat split; assumption.
    + assert (Hw' : w' = w)
        by (subst w'; unfold CommsDisconnect, bind, gets, ret;
            rewrite Hready; reflexivity).
      rewrite Hw'. unfold added. rewrite skipn_all.
      repeat split. discriminate.
  - intros Hopen w'.
    destruct (flagWorkerReady w) eqn:Hready.
    + assert (Hw' : w' = set_trace (trace w
                                      ++ [Emit (WorkerShowMessage "Connected." None);
                                          Emit (StatusConnect true)]) w).
      { subst w'. unfold CommsConnect, bind, gets, ret, emit, record.
        rewrite Hready. cbn [negb]. rewrite Hopen.
        unfold set_trace. cbn [trace snd]. rewrite <- app_assoc.
        reflexivity. }
      assert (Htr : trace w' = trace w
                                 ++ [Emit (WorkerShowMessage "Connected." None);
                                     Emit (StatusConnect true)])
        by (rewrite Hw'; reflexivity).
      rewrite (added_app w w' _ Htr). rewrite Hw'.
      repeat split.
    + assert (Hw' : w' = w)
        by (subst w'; unfold CommsConnect, bind, gets, ret;
            rewrite Hready; reflexivity).
      rewrite Hw'. unfold added. rewrite skipn_all.
      repeat split. discriminate.
Qed.


(** *** Discovery *)

Lemma quiet_refl (w : t D) : quiet w w.
Proof.
  split; [reflexivity|]. exists []. rewrite app_nil_r. repeat split.
Qed.

Lemma quiet_trans (w1 w2 w3 : t D) : quiet w1 w2 -> quiet w2 w3 -> quiet w1 w3.
Proof.
  intros (Hr1 & e1 & Ht1 & Hs1 & Hd1) (Hr2 & e2 & Ht2 & Hs2 & Hd2).
  split; [congruence|]. exists (e1 ++ e2).
  rewrite Ht2, Ht1, <- app_assoc, status_of_app, teardown_of_app.
  rewrite Hs1, Hs2, Hd1, Hd2. repeat split.
Qed.

Lemma preserves_bind {X Y} (rel : t D -> t D -> Prop) (m : M D X)
      (k : X -> M D Y) :
  (forall a b c, rel a b -> rel b c -> rel a c) ->
  preserves rel m -> (forall x, preserves rel (k x)) ->
  preserves rel (bind m k).
Proof.
  intros Htrans Hm Hk w. unfold bind.
  specialize (Hm w). destruct (m w) as [x w1]. cbn [snd] in Hm.
  exact (Htrans _ _ _ Hm (Hk x w1)).
Qed.

Lemma quiet_bind {X Y} (m : M D X) (k : X -> M D Y) :
  preserves quiet m -> (forall x, preserves quiet (k x)) ->
  preserves quiet (bind m k).
Proof. apply preserves_bind. exact quiet_trans. Qed.

Lemma quiet_ret {X} (x : X) : preserves quiet (@ret D X x).
Proof. intros w. apply quiet_refl. Qed.

Lemma quiet_gets {X} (f : t D -> X) : preserves quiet (gets f).
Proof. intros w. apply quiet_refl. Qed.

Lemma quiet_record (e : Event) :
  status_of [e] = [] -> teardown_of [e] = [] ->
  preserves quiet (@record D e).
Proof.
  intros Hs Hd w. split; [reflexivity|]. exists [e]. repeat split; assumption.
Qed.

Lemma quiet_ping_with (ping : I2CComms.t -> Z -> bool * I2CComms.t)
      (address : Z) :
  preserves quiet (@ping_with D ping address).
Proof.
  intros w. unfold ping_with. destruct (ping (comms w) address) as [b c].
  split; [reflexivity|]. exists []. cbn. rewrite app_nil_r. repeat split.
Qed.

Lemma quiet_foreach_ping (ping : I2CComms.t -> Z -> bool * I2CComms.t)
      (add : Z -> Z -> M D unit) (step : Z) (addresses : list Z) (n : Z) :
  (forall a k, preserves quiet (add a k)) ->
  preserves quiet (foreach_ping ping add step addresses n).
Proof.
  intros Hadd. revert n.
  induction addresses as [|a rest IH]; intros n; cbn [foreach_ping].
  - apply quiet_ret.
  - apply quiet_bind; [apply quiet_ping_with|]. intros [|].
    + apply quiet_bind; [apply Hadd|]. intros _. apply IH.
    + apply IH.
Qed.

Ltac quiet_add :=
  intros a k w; unfold emit, record; split; [reflexivity|];
  eexists [_]; cbn; repeat split.

Lemma quiet_add_GT1724 a k : preserves quiet (@add_GT1724 D a k).
Proof. revert a k. unfold add_GT1724. quiet_add. Qed.
Lemma quiet_add_M24M02 a k : preserves quiet (@add_M24M02 D a k).
Proof. revert a k. unfold add_M24M02. quiet_add. Qed.
Lemma quiet_add_LMX2594 e a k : preserves quiet (@add_LMX2594 D e a k).
Proof. revert a k. unfold add_LMX2594. quiet_add. Qed.
Lemma quiet_add_PCA9557 a k : preserves quiet (@add_PCA9557 D a k).
Proof. revert a k. unfold add_PCA9557. quiet_add. Qed.
Lemma quiet_add_SI5340 a k : preserves quiet (@add_SI5340 D a k).
Proof. revert a k. unfold add_SI5340. quiet_add. Qed.

(** Discovery emits no [StatusConnect], tears nothing down and keeps the
    worker ready. *)
Lemma quiet_findComponents (A : globals.AddressTable) :
  preserves quiet (@findComponents D R A).
Proof.
  unfold findComponents.
  repeat first
    [ apply quiet_ret
    | apply quiet_gets
    | apply quiet_foreach_ping
    | apply quiet_add_GT1724 | apply quiet_add_M24M02
    | apply quiet_add_LMX2594 | apply quiet_add_PCA9557
    | apply quiet_add_SI5340
    | (apply quiet_record; reflexivity)
    | (apply quiet_bind; [|intros ?])
    | match goal with
      | |- preserves quiet (if ?b then _ else _) => destruct b
      | |- preserves quiet (match ?l with [] => _ | _ :: _ => _ end) =>
          destruct l
      end
    | intros ? ? ].
Qed.


(** *** Initialisation *)

Lemma init_outcome_cons_ok (d : Family * nat) (plan : list (Family * nat))
      (result : Z) (calls : list (Family * nat * Z)) :
  init_outcome plan result calls ->
  init_outcome (d :: plan) result ((d, globals.OK) :: calls).
Proof.
  intros [[Hr Hc]|[Hr (k & e & Hk & Hc)]].
  - left. split; [exact Hr|]. rewrite Hc. reflexivity.
  - right. split; [exact Hr|]. exists (S k), e. split; [exact Hk|].
    rewrite Hc. reflexivity.
Qed.

Lemma init_outcome_app_ok (p1 p2 : list (Family * nat)) (result : Z)
      (c1 c2 : list (Family * nat * Z)) :
  init_outcome p1 globals.OK c1 -> init_outcome p2 result c2 ->
  init_outcome (p1 ++ p2) result (c1 ++ c2).
Proof.
  intros [[_ H1]|[H1 _]] H2; [|contradiction]. subst c1.
  induction p1 as [|d p1 IH]; [exact H2|].
  cbn. apply init_outcome_cons_ok. exact IH.
Qed.

Lemma init_outcome_app_fail (p1 p2 : list (Family * nat)) (result : Z)
      (c1 : list (Family * nat * Z)) :
  result <> globals.OK ->
  init_outcome p1 result c1 -> init_outcome (p1 ++ p2) result c1.
Proof.
  intros Hr [[H1 _]|[_ (k & e & Hk & Hc)]]; [contradiction|].
  right. split; [exact Hr|]. exists k, e.
  assert (Hlt : (k < length p1)%nat)
    by (apply nth_error_Some; rewrite Hk; discriminate).
  split.
  - rewrite nth_error_app1 by exact Hlt. exact Hk.
  - rewrite firstn_app. replace (k - length p1)%nat with O by lia.
    cbn [firstn]. rewrite app_nil_r. exact Hc.
Qed.

(** The loop over one family: the calls go down the set by position and
    stop at the first failure; only [Init] events are added. *)
Lemma init_loop_outcome {X} (f : Family)
      (init : X -> I2CComms.t -> Z * X * I2CComms.t)
      (set : list X) (index : nat) (c : I2CComms.t) (tr : list Event) :
  let out := init_loop f init index set c tr in
  length (snd (fst (fst out))) = length set
  /\ exists evs,
      snd out = tr ++ evs
      /\ status_of evs = [] /\ teardown_of evs = []
      /\ init_outcome (map (fun i => (f, i)) (seq index (length set)))
                      (fst (fst (fst out))) (inits_of evs).
Proof.
  revert index c tr. induction set as [|dev rest IH]; intros index c tr.
  - cbn. split; [reflexivity|]. exists []. rewrite app_nil_r.
    repeat split. left. split; reflexivity.
  - cbn [init_loop]. destruct (init dev c) as [[r dev'] c'].
    destruct (Z.eqb_spec r globals.OK) as [->|Hr]; cbn [negb].
    + specialize (IH (S index) c' (tr ++ [Init f index globals.OK])).
      destruct (init_loop f init (S index) rest c'
                          (tr ++ [Init f index globals.OK]))
        as [[[r2 rest'] c2] tr2].
      cbn [fst snd] in IH |- *.
      destruct IH as (Hlen & evs & Htr & Hs & Hd & Hout).
      split; [cbn [length]; rewrite Hlen; reflexivity|].
      exists (Init f index globals.OK :: evs).
      rewrite Htr, <- app_assoc. repeat split; try assumption.
      cbn [length seq map inits_of]. apply init_outcome_cons_ok.
      exact Hout.
    + cbn [fst snd]. split; [reflexivity|].
      exists [Init f index r]. repeat split.
      right. split; [exact Hr|]. exists O, (f, index).
      split; reflexivity.
Qed.


Lemma same_counts_refl (w : t D) : same_counts w w.
Proof. repeat split. Qed.

Lemma same_counts_trans (w1 w2 w3 : t D) :
  same_counts w1 w2 -> same_counts w2 w3 -> same_counts w1 w3.
Proof.
  unfold same_counts. intros (?&?&?&?&?) (?&?&?&?&?).
  repeat split; congruence.
Qed.

(** One family's loop as a method of the worker. *)
Lemma foreach_init_run {X} (f : Family)
      (init : X -> I2CComms.t -> Z * X * I2CComms.t)
      (get : t D -> list X) (put : list X -> t D -> t D) (w : t D) :
  (forall s c tr, trace (put s (set_comms c (set_trace tr w))) = tr) ->
  (forall s c tr, flagWorkerReady (put s (set_comms c (set_trace tr w)))
                  = flagWorkerReady w) ->
  (forall s c tr, length s = length (get w) ->
                  same_counts w (put s (set_comms c (set_trace tr w)))) ->
  init_run (devices_of f (length (get w))) (foreach_init f init get put) w
  /\ quiet w (snd (foreach_init f init get put w)).
Proof.
  intros Htrace Hready Hcounts. unfold init_run, foreach_init, quiet.
  destruct (init_loop_outcome f init (get w) 0 (comms w) (trace w))
    as (Hlen & evs & Htr & Hs & Hd & Hout).
  destruct (init_loop f init 0 (get w) (comms w) (trace w))
    as [[[r set'] c'] tr'].
  cbn [fst snd] in *. subst tr'. rewrite Htrace, Hready.
  split; [split; [apply Hcounts; exact Hlen|]|split; [reflexivity|]];
    exists evs; repeat split; assumption.
Qed.

(** A stage of [initComponents] followed by the rest of the method. *)
Lemma init_run_stage (p1 p2 : list (Family * nat)) (stage rest : M D Z)
      (message : string) (w : t D) :
  init_run p1 stage w ->
  (forall w1, same_counts w w1 -> init_run p2 rest w1) ->
  init_run (p1 ++ p2)
           (bind stage (fun result =>
              if negb (result =? globals.OK)
              then bind (emit (WorkerShowMessage message None))
                        (fun _ => ret result)
              else rest))
           w.
Proof.
  intros (Hc1 & e1 & Ht1 & Ho1) Hrest. unfold init_run, bind.
  destruct (stage w) as [r w1]. cbn [fst snd] in Hc1, Ht1, Ho1.
  destruct (Z.eqb_spec r globals.OK) as [->|Hr]; cbn [negb].
  - destruct (Hrest w1 Hc1) as (Hc2 & e2 & Ht2 & Ho2).
    split; [exact (same_counts_trans _ _ _ Hc1 Hc2)|].
    exists (e1 ++ e2). rewrite Ht2, Ht1, <- app_assoc, inits_of_app.
    split; [reflexivity|]. apply init_outcome_app_ok; assumption.
  - unfold emit, record, ret. cbn [fst snd].
    split; [destruct w1; exact Hc1|].
    exists (e1 ++ [Emit (WorkerShowMessage message None)]).
    unfold set_trace. cbn [trace]. rewrite Ht1, <- app_assoc, inits_of_app.
    split; [reflexivity|]. cbn [inits_of]. rewrite app_nil_r.
    apply init_outcome_app_fail; assumption.
Qed.

Lemma init_run_done (w : t D) : init_run [] (ret globals.OK) w.
Proof.
  split; [apply same_counts_refl|]. exists []. cbn. rewrite app_nil_r.
  split; [reflexivity|]. left. split; reflexivity.
Qed.

(** [initComponents] runs the calls of [init_plan]. *)
Lemma initComponents_run (w : t D) :
  init_run (init_plan w) (@initComponents D R) w.
Proof.
  unfold init_plan, initComponents.
  apply init_run_stage;
    [apply foreach_init_run; intros s c tr; try reflexivity;
     intros Hlen; repeat split; exact Hlen|].
  intros w1 (Hgt1 & Hlmx1 & Hpca1 & Hee1 & Hsi1).
  rewrite <- Hee1, <- Hlmx1, <- Hpca1, <- Hgt1.
  apply init_run_stage;
    [apply foreach_init_run; intros s c tr; try reflexivity;
     intros Hlen; repeat split; exact Hlen|].
  intros w2 (Hgt2 & Hlmx2 & Hpca2 & Hee2 & Hsi2).
  rewrite <- Hlmx2, <- Hpca2, <- Hgt2.
  apply init_run_stage;
    [apply foreach_init_run; intros s c tr; try reflexivity;
     intros Hlen; repeat split; exact Hlen|].
  intros w3 (Hgt3 & Hlmx3 & Hpca3 & Hee3 & Hsi3).
  rewrite <- Hpca3, <- Hgt3.
  apply init_run_stage;
    [apply foreach_init_run; intros s c tr; try reflexivity;
     intros Hlen; repeat split; exact Hlen|].
  intros w4 (Hgt4 & Hlmx4 & Hpca4 & Hee4 & Hsi4).
  rewrite <- Hgt4.
  rewrite <- (app_nil_r (devices_of F_GT1724 _)).
  apply init_run_stage;
    [apply foreach_init_run; intros s c tr; try reflexivity;
     intros Hlen; repeat split; exact Hlen|].
  intros w5 _. apply init_run_done.
Qed.

(** One family's loop runs [init()] in turn on the objects of its set;
    when it returns [OK] the devices behind it are still to come. *)
Lemma init_loop_in_turn {X} (f : Family)
      (init : X -> I2CComms.t -> Z * X * I2CComms.t)
      (inj : X -> Device D) (set : list X) (index : nat)
      (c : I2CComms.t) (tr : list Event) (rest : list (Device D)) :
  (forall d c, init_device (inj d) c
               = (fst (fst (init d c)), inj (snd (fst (init d c))),
                  snd (init d c))) ->
  let out := init_loop f init index set c tr in
  exists evs,
    snd out = tr ++ evs
    /\ init_in_turn (map inj set ++ rest) c
       = if fst (fst (fst out)) =? globals.OK
         then (map snd (inits_of evs)
                 ++ fst (fst (init_in_turn rest (snd (fst out)))),
               map inj (snd (fst (fst out)))
                 ++ snd (fst (init_in_turn rest (snd (fst out)))),
               snd (init_in_turn rest (snd (fst out))))
         else (map snd (inits_of evs),
               map inj (snd (fst (fst out))) ++ rest,
               snd (fst out)).
Proof.
  intros Hinj. cbv zeta. revert index c tr.
  induction set as [|dev set IH]; intros index c tr.
  - cbn [init_loop fst snd map app]. exists [].
    rewrite app_nil_r. split; [reflexivity|].
    change (globals.OK =? globals.OK) with true. cbv iota.
    destruct (init_in_turn rest c) as [[rs ds] c']. reflexivity.
  - cbn [init_loop map app init_in_turn]. rewrite Hinj.
    destruct (init dev c) as [[r dev'] c1]. cbn [fst snd].
    destruct (Z.eqb_spec r globals.OK) as [->|Hr]; cbn [negb].
    + destruct (IH (S index) c1 (tr ++ [Init f index globals.OK]))
        as (evs & Htr & Heq).
      destruct (init_loop f init (S index) set c1
                          (tr ++ [Init f index globals.OK]))
        as [[[r2 set'] c2] tr2].
      cbn [fst snd] in Htr, Heq |- *.
      exists (Init f index globals.OK :: evs).
      split; [rewrite Htr, <- app_assoc; reflexivity|].
      rewrite Heq. destruct (r2 =? globals.OK); reflexivity.
    + cbn [fst snd]. exists [Init f index r].
      split; [reflexivity|].
      destruct (Z.eqb_spec r globals.OK) as [E|_]; [contradiction|].
      reflexivity.
Qed.

(** The planned call at a position is a call on the device at the same
    position of the sequence. *)
Lemma plan_block {X} (f : Family) (inj : X -> Device D) (s : list X)
      (w : t D) (P : list (Family * nat)) (Q : list (Device D)) :
  (forall i, device_at f i w = option_map inj (nth_error s i)) ->
  (forall k g i, nth_error P k = Some (g, i) ->
                 nth_error Q k = device_at g i w
                 /\ device_at g i w <> None) ->
  forall k g i,
    nth_error (devices_of f (length s) ++ P) k = Some (g, i) ->
    nth_error (map inj s ++ Q) k = device_at g i w
    /\ device_at g i w <> None.
Proof.
  intros Hat HP k g i. unfold devices_of.
  destruct (Nat.lt_ge_cases k (length s)) as [Hk|Hk].
  - rewrite nth_error_app1 by (rewrite length_map, length_seq; exact Hk).
    rewrite nth_error_app1 by (rewrite length_map; exact Hk).
    rewrite nth_error_map, nth_error_seq.
    destruct (Nat.ltb_spec k (length s)) as [_|Hge]; [|lia].
    cbn [option_map Nat.add]. intros H. injection H as <- <-.
    rewrite Hat, nth_error_map. split; [reflexivity|].
    destruct (nth_error s k) eqn:E; [discriminate|].
    apply nth_error_None in E. lia.
  - rewrite nth_error_app2 by (rewrite length_map, length_seq; exact Hk).
    rewrite nth_error_app2 by (rewrite length_map; exact Hk).
    rewrite !length_map, length_seq. apply HP.
Qed.

Lemma init_sequence_plan (w : t D) (k : nat) (f : Family) (i : nat) :
  nth_error (init_plan w) k = Some (f, i) ->
  nth_error (init_sequence w) k = device_at f i w
  /\ device_at f i w <> None.
Proof.
  unfold init_plan, init_sequence. revert k f i.
  apply plan_block; [reflexivity|].
  apply plan_block; [reflexivity|].
  apply plan_block; [reflexivity|].
  apply plan_block; [reflexivity|].
  rewrite <- (app_nil_r (devices_of F_GT1724 _)).
  rewrite <- (app_nil_r (map GT1724_device _)).
  apply plan_block; [reflexivity|].
  intros k g i H. destruct k; discriminate H.
Qed.

Ltac family_init init :=
  let d := fresh "d" in
  let c := fresh "c" in
  intros d c; cbn [init_device];
  destruct (init d c) as [[? ?] ?]; reflexivity.

Ltac finish_in_turn :=
  cbn [fst snd trace comms gt1724Set lmxClockSet pca9557Set m24m02Set
       si5340Set init_in_turn];
  rewrite <- ?app_assoc; rewrite skipn_length_app;
  rewrite ?inits_of_app, ?map_app; cbn [inits_of map app];
  rewrite ?app_nil_r; rewrite <- ?app_assoc; reflexivity.

Ltac in_turn_stage f init inj set rest Q :=
  cbv beta iota;
  cbn [comms trace gt1724Set lmxClockSet pca9557Set m24m02Set si5340Set
       flagStop flagWorkerReady];
  match goal with
  | |- context [init_loop f init 0 set ?c ?tr] =>
      let e := fresh "e" in
      let T := fresh "T" in
      let r := fresh "r" in
      let s := fresh "s" in
      let c' := fresh "c" in
      let t := fresh "t" in
      destruct (init_loop_in_turn f init inj set 0 c tr rest
                  ltac:(family_init init)) as (e & T & Q);
      destruct (init_loop f init 0 set c tr) as [[[r s] c'] t];
      cbn [fst snd] in T, Q; subst t; cbv beta iota;
      cbn [comms trace gt1724Set lmxClockSet pca9557Set m24m02Set
           si5340Set];
      destruct (Z.eqb_spec r globals.OK) as [->|?]; cbn [negb];
      [change (globals.OK =? globals.OK) with true in Q; cbv iota in Q
      |]
  end.

(** C2: [initComponents] calls [init()] on the devices in the order
    SI5340, M24M02, LMX2594, PCA9557, GT1724, within a family in
    discovery order (the position in the set, to which discovery
    appends); every call before the last returns [OK]; either all planned
    calls are made and the result is [OK], or the last call made is the
    first that fails, its result is the result, and no further [init()]
    call is made in any family.  The planned call at a position is a
    call on the device object at that position of the worker's sets, and
    the calls recorded are the drivers' [init()] run in turn on these
    objects: their results are the results recorded, and the objects and
    the transport they leave are those of the worker afterwards. *)
Theorem initComponents_order (w : t D) :
  let out := initComponents w in
  let w' := snd out in
  let calls := inits_of (added w w') in
  init_outcome (init_plan w) (fst out) calls
  /\ (forall k f i,
        nth_error (init_plan w) k = Some (f, i) ->
        nth_error (init_sequence w) k = device_at f i w
        /\ device_at f i w <> None)
  /\ init_in_turn (init_sequence w) (comms w)
     = (map snd calls, init_sequence w', comms w').
Proof.
  cbv zeta. split; [|split].
  - destruct (initComponents_run w) as (_ & evs & Htr & Hout).
    rewrite (added_app _ _ _ Htr). exact Hout.
  - apply init_sequence_plan.
  - destruct w as [fs fr c gt lmx pca ee si tr].
    unfold initComponents, bind, foreach_init, ret, emit, record, added,
      init_sequence, set_si5340Set, set_m24m02Set, set_lmxClockSet,
      set_pca9557Set, set_gt1724Set, set_comms, set_trace.
    cbn [comms trace gt1724Set lmxClockSet pca9557Set m24m02Set si5340Set
         flagStop flagWorkerReady].
    in_turn_stage F_SI5340 (SI5340_init D) (@SI5340_device D) si
      (map (@M24M02_device D) ee ++ map (@LMX2594_device D) lmx
         ++ map (@PCA9557_device D) pca ++ map (@GT1724_device D) gt) Q1.
    2: { rewrite Q1. finish_in_turn. }
    in_turn_stage F_M24M02 (M24M02_init D) (@M24M02_device D) ee
      (map (@LMX2594_device D) lmx
         ++ map (@PCA9557_device D) pca ++ map (@GT1724_device D) gt) Q2.
    2: { rewrite Q1, Q2. finish_in_turn. }
    in_turn_stage F_LMX2594 (LMX2594_init D) (@LMX2594_device D) lmx
      (map (@PCA9557_device D) pca ++ map (@GT1724_device D) gt) Q3.
    2: { rewrite Q1, Q2, Q3. finish_in_turn. }
    in_turn_stage F_PCA9557 PCA9557.init (@PCA9557_device D) pca
      (map (@GT1724_device D) gt) Q4.
    2: { rewrite Q1, Q2, Q3, Q4. finish_in_turn. }
    in_turn_stage F_GT1724 (GT1724_init D) (@GT1724_device D) gt
      (@nil (Device D)) Q5.
    all: rewrite app_nil_r in Q5; rewrite Q1, Q2, Q3, Q4, Q5.
    all: finish_in_turn.
Qed.


Lemma quiet_initComponents : preserves quiet (@initComponents D R).
Proof.
  unfold initComponents.
  repeat first
    [ apply quiet_ret
    | (apply quiet_record; reflexivity)
    | (apply quiet_bind; [|intros ?])
    | match goal with
      | |- preserves quiet (if ?b then _ else _) => destruct b
      | |- preserves quiet (foreach_init _ _ _ _) =>
          intros w; apply foreach_init_run; intros s c tr;
          try reflexivity; intros Hlen; repeat split; exact Hlen
      end ].
Qed.

(** *** Connect *)

(** Once the port has been opened, [CommsConnect] is the discovery
    followed by the dispatch on its result. *)
Lemma CommsConnect_opened (A : globals.AddressTable) (port : string)
      (w : t D) :
  flagWorkerReady w = true ->
  I2CComms.portIsOpen (comms w) = false ->
  I2CComms.os_open (comms w) port = globals.OK ->
  CommsConnect A port w
  = (let '(result, w1) := discovery A port w in
     (if result =? globals.OK
      then bind (emit (WorkerShowMessage "Connected." None))
                (fun _ => emit (StatusConnect true))
      else if (result =? globals.MISSING_LMX_DEFS)
              || (result =? globals.MISSING_GT1724)
      then bind CommsDisconnect
                (fun _ => emit (WorkerShowMessage
                     "Connect FAILED: Error setting up system components!"
                     None))
      else emit (StatusConnect true)) w1)
  /\ quiet (set_trace (trace w ++ [Open port globals.OK]) w)
           (snd (discovery A port w))
  /\ exists evs, trace (snd (discovery A port w))
                 = trace w ++ Open port globals.OK :: evs
                 /\ status_of evs = [] /\ teardown_of evs = [].
Proof.
  intros Hready Hclosed Hos.
  assert (Hopen : I2CComms.open port (comms w)
                  = (globals.OK,
                     I2CComms.mk (Some port) (I2CComms.os_open (comms w))
                                 (I2CComms.present (comms w))
                                 (I2CComms.reg (comms w))
                                 (I2CComms.faults (comms w))
                                 (I2CComms.log (comms w)))).
  { unfold I2CComms.open. rewrite Hclosed, Hos. reflexivity. }
  split; [|split].
  - unfold CommsConnect, discovery, bind, gets, comms_open.
    rewrite Hready. cbn [negb]. rewrite Hclosed, Hopen.
    cbn [negb Z.eqb globals.OK snd]. reflexivity.
  - unfold discovery.
    match goal with
    | |- quiet _ (snd (findComponents A ?w0)) =>
        apply (quiet_trans _ w0);
        [|apply (quiet_findComponents A w0)]
    end.
    unfold bind, comms_open, emit, record. rewrite Hopen.
    cbn [snd]. split; [reflexivity|].
    eexists [_]. repeat split.
  - unfold discovery.
    match goal with
    | |- context [findComponents A ?w0] =>
        destruct (quiet_findComponents A w0) as (_ & evs & Htr & Hs & Hd);
        assert (Hw0 : trace w0
                      = trace w ++ [Open port globals.OK;
                                    Emit (WorkerShowMessage
                                            "Comms Open. Checking system components..."
                                            None)])
    end.
    { unfold bind, comms_open, emit, record. rewrite Hopen.
      cbn [snd set_trace trace]. rewrite <- app_assoc. reflexivity. }
    rewrite Htr, Hw0, <- app_assoc. cbn [app].
    eexists. split; [reflexivity|]. split; assumption.
Qed.


(** C1 (amended): in a connect attempt whose discovery finds no
    BERT-core IC the worker performs a full disconnect, leaving no
    device record and the port closed, and emits exactly one
    [StatusConnect], with [false].  When discovery fails for a missing
    EEPROM, clock synthesizer or I/O expander there is no teardown: the
    transport and the device records are those that discovery left, and
    the one [StatusConnect] emitted carries [true].  [InitComponents]
    reports the result of the initialisation through [WorkerResult] and
    tears nothing down, whatever that result is. *)
Theorem connect_failure_policy (A : globals.AddressTable) (port : string)
        (w v : t D) :
  flagWorkerReady w = true ->
  I2CComms.portIsOpen (comms w) = false ->
  I2CComms.os_open (comms w) port = globals.OK ->
  flagWorkerReady v = true ->
  let result := fst (discovery A port w) in
  let found := snd (discovery A port w) in
  let w' := snd (CommsConnect A port w) in
  let v0 := snd (emit (WorkerShowMessage
                         "Comms Open. Initializing system components..."
                         None) v) in
  let v' := snd (InitComponents v) in
  (result = globals.MISSING_GT1724 ->
   no_devices w' /\ I2CComms.portIsOpen (comms w') = false
   /\ status_of (added w w') = [false])
  /\ (result = globals.MISSING_EEPROM \/ result = globals.MISSING_LMX
      \/ result = globals.MISSING_PCA ->
      comms w' = comms found /\ same_devices found w'
      /\ teardown_of (added w w') = []
      /\ status_of (added w w') = [true])
  /\ (same_counts v v'
      /\ teardown_of (added v v') = []
      /\ status_of (added v v') = []
      /\ exists evs,
          added v v'
          = evs ++ [Emit (WorkerResult (fst (initComponents v0)));
                    Emit (WorkerShowMessage "Ready." None)]).
Proof.
  intros Hready Hclosed Hos Hv result found w' v0 v'.
  destruct (CommsConnect_opened A port w Hready Hclosed Hos)
    as (Heq & (Hfr & _) & evs & Htr & Hs & Hd).
  subst result found w'. rewrite Heq. clear Heq.
  destruct (discovery A port w) as [r w1]. cbn [fst snd] in *.
  assert (Hready1 : flagWorkerReady w1 = true)
    by (rewrite Hfr; exact Hready).
  split; [|split].
  - intros ->.
    change (globals.MISSING_GT1724 =? globals.OK) with false.
    change ((globals.MISSING_GT1724 =? globals.MISSING_LMX_DEFS)
            || (globals.MISSING_GT1724 =? globals.MISSING_GT1724))
      with true.
    cbn iota. unfold bind.
    destruct (CommsDisconnect_ready w1 Hready1)
      as (Hnone & Hport & _ & _ & Htr2).
    destruct (CommsDisconnect w1) as [u w2]. cbn [snd] in *.
    unfold emit, record, set_trace. cbn [snd].
    split; [exact Hnone|]. split; [exact Hport|].
    unfold added. cbn [trace].
    rewrite Htr2, Htr, <- !app_assoc, skipn_length_app.
    cbn [app status_of].
    rewrite !status_of_app, Hs, status_of_disconnect. reflexivity.
  - intros Hr.
    assert (Hdis : (if r =? globals.OK
                    then bind (emit (WorkerShowMessage "Connected." None))
                              (fun _ => emit (StatusConnect true))
                    else if (r =? globals.MISSING_LMX_DEFS)
                            || (r =? globals.MISSING_GT1724)
                    then bind CommsDisconnect
                              (fun _ => emit (WorkerShowMessage
                                 "Connect FAILED: Error setting up system components!"
                                 None))
                    else emit (StatusConnect true))
                   = @emit D (StatusConnect true))
      by (destruct Hr as [->|[->| ->]]; reflexivity).
    rewrite Hdis. unfold emit, record, set_trace. cbn [snd].
    split; [reflexivity|]. split; [repeat split|].
    unfold added. cbn [trace].
    rewrite Htr, <- !app_assoc, skipn_length_app.
    cbn [app status_of teardown_of].
    rewrite teardown_of_app, status_of_app, Hs, Hd. split; reflexivity.
  - subst v' v0. unfold InitComponents, bind, gets. rewrite Hv.
    cbn [negb].
    set (v0 := snd (emit (WorkerShowMessage
                            "Comms Open. Initializing system components..."
                            None) v)).
    change (emit (WorkerShowMessage
                    "Comms Open. Initializing system components..." None) v)
      with (tt, v0).
    cbn iota.
    destruct (initComponents_run v0) as (Hcounts & _).
    destruct (quiet_initComponents v0) as (_ & ev & Htr1 & Hs1 & Hd1).
    destruct (initComponents v0) as [r1 v1]. cbn [fst snd] in *.
    unfold emit, record, set_trace. cbn [snd].
    split; [exact Hcounts|].
    unfold added. cbn [trace].
    rewrite Htr1. subst v0. unfold emit, record, set_trace. cbn [snd trace].
    rewrite <- !app_assoc, skipn_length_app. cbn [app].
    split; [cbn [teardown_of]; rewrite teardown_of_app, Hd1; reflexivity|].
    split; [cbn [status_of]; rewrite status_of_app, Hs1; reflexivity|].
    exists (Emit (WorkerShowMessage
                    "Comms Open. Initializing system components..." None)
              :: ev).
    rewrite <- app_comm_cons. reflexivity.
Qed.

End WorkerFacts.

(** On the dual board whose second clock synthesizer fails, the calls stop
    there: no I/O expander and no BERT core is initialised. *)
Example initComponents_stops_at_failing_clock :
  let w := Bench.connect Bench.bad_clock in
  let out := @BertWorker.initComponents Bench.bad_clock PCA9557.datasheet w in
  fst out = globals.GEN_ERROR
  /\ BertWorker.inits_of (BertWorker.added w (snd out))
     = [(BertWorker.F_SI5340, 0%nat, globals.OK);
        (BertWorker.F_SI5340, 1%nat, globals.OK);
        (BertWorker.F_M24M02, 0%nat, globals.OK);
        (BertWorker.F_M24M02, 1%nat, globals.OK);
        (BertWorker.F_LMX2594, 0%nat, globals.OK);
        (BertWorker.F_LMX2594, 1%nat, globals.GEN_ERROR)].
Proof. vm_compute. split; reflexivity. Qed.

(** C1, as the specification states it, fails when no EEPROM answers: the
    BERT cores found stay in their set, nothing is torn down, the port
    stays open and the connect is reported with [StatusConnect (true)]. *)
Lemma connect_without_eeprom_stays_connected :
  let w := Bench.idle Bench.no_eeprom (Bench.bus None [0x1C; 0x18] []) in
  let w' := Bench.connect Bench.no_eeprom in
  fst (@BertWorker.discovery Bench.no_eeprom PCA9557.datasheet
         globals.ADDRESSES_DUAL "COM1" w) = globals.MISSING_EEPROM
  /\ I2CComms.portIsOpen (BertWorker.comms w') = true
  /\ length (BertWorker.gt1724Set w') = 4%nat
  /\ BertWorker.teardown_of (BertWorker.trace w') = []
  /\ BertWorker.status_of (BertWorker.trace w') = [true].
Proof. vm_compute. repeat split. Qed.

Lemma connect_failure_policy_witness :
  let w := Bench.idle Bench.no_core (Bench.bus None [0x1C; 0x18] []) in
  let w' := Bench.connect Bench.no_core in
  BertWorker.flagWorkerReady w = true
  /\ I2CComms.portIsOpen (BertWorker.comms w) = false
  /\ I2CComms.os_open (BertWorker.comms w) "COM1" = globals.OK
  /\ fst (@BertWorker.discovery Bench.no_core PCA9557.datasheet
            globals.ADDRESSES_DUAL "COM1" w) = globals.MISSING_GT1724
  /\ BertWorker.no_devices w'
  /\ I2CComms.portIsOpen (BertWorker.comms w') = false
  /\ BertWorker.status_of (BertWorker.added w w') = [false].
Proof.
  intros w w'.
  assert (H1 : BertWorker.flagWorkerReady w = true) by reflexivity.
  assert (H2 : I2CComms.portIsOpen (BertWorker.comms w) = false)
    by reflexivity.
  assert (H3 : I2CComms.os_open (BertWorker.comms w) "COM1" = globals.OK)
    by reflexivity.
  assert (H4 : fst (@BertWorker.discovery Bench.no_core PCA9557.datasheet
                      globals.ADDRESSES_DUAL "COM1" w)
               = globals.MISSING_GT1724) by (vm_compute; reflexivity).
  repeat (split; [assumption|]).
  exact (proj1 (@connect_failure_policy Bench.no_core PCA9557.datasheet
                  globals.ADDRESSES_DUAL "COM1" w w H1 H2 H3 H1) H4).
Defined.

(** C3, as the specification states it, fails on the connected dual
    board: the two clock synthesizers are deleted before the two I/O
    expanders, so the deletions do not follow the order BERT-core IC,
    I/O expander, clock synthesizer, EEPROM, reference clock. *)
Lemma disconnect_deletes_clock_before_expander :
  let w' := snd (BertWorker.CommsDisconnect Bench.connected) in
  let deleted :=
    BertWorker.deleted_families (BertWorker.added Bench.connected w') in
  deleted
  = [BertWorker.F_GT1724; BertWorker.F_GT1724; BertWorker.F_GT1724;
     BertWorker.F_GT1724; BertWorker.F_LMX2594; BertWorker.F_LMX2594;
     BertWorker.F_PCA9557; BertWorker.F_PCA9557; BertWorker.F_M24M02;
     BertWorker.F_M24M02; BertWorker.F_SI5340; BertWorker.F_SI5340]
  /\ BertWorker.follows_order
       [BertWorker.F_GT1724; BertWorker.F_PCA9557; BertWorker.F_LMX2594;
        BertWorker.F_M24M02; BertWorker.F_SI5340] deleted = false.
Proof. vm_compute. split; reflexivity. Qed.

Lemma disconnect_teardown_order_witness :
  let w := Bench.connected in
  let w' := snd (BertWorker.CommsDisconnect w) in
  BertWorker.flagWorkerReady w = true
  /\ BertWorker.teardown_of (BertWorker.added w w')
     = BertWorker.deletions BertWorker.F_GT1724 4
         ++ BertWorker.deletions BertWorker.F_LMX2594 2
         ++ BertWorker.deletions BertWorker.F_PCA9557 2
         ++ BertWorker.deletions BertWorker.F_M24M02 2
         ++ BertWorker.deletions BertWorker.F_SI5340 2
         ++ [BertWorker.Close]
  /\ BertWorker.no_devices w'
  /\ I2CComms.portIsOpen (BertWorker.comms w') = false.
Proof.
  intros w w'.
  assert (H : BertWorker.flagWorkerReady w = true) by reflexivity.
  split; [exact H|].
  exact (@disconnect_teardown_order Bench.all_chips w H).
Defined.

Lemma idempotent_connect_disconnect_witness :
  let w := Bench.idle Bench.all_chips (Bench.bus None [0x1C; 0x18] []) in
  let w' := snd (BertWorker.CommsDisconnect w) in
  let v := Bench.connected in
  let v' := snd (@BertWorker.CommsConnect Bench.all_chips PCA9557.datasheet
                   globals.ADDRESSES_DUAL "COM1" v) in
  (I2CComms.portIsOpen (BertWorker.comms w) = false
   /\ BertWorker.no_devices w
   /\ BertWorker.comms w' = BertWorker.comms w
   /\ BertWorker.same_devices w w'
   /\ BertWorker.teardown_of (BertWorker.added w w') = []
   /\ BertWorker.opens_of (BertWorker.added w w') = [])
  /\ (I2CComms.portIsOpen (BertWorker.comms v) = true
      /\ BertWorker.comms v' = BertWorker.comms v
      /\ BertWorker.same_devices v v'
      /\ BertWorker.teardown_of (BertWorker.added v v') = []
      /\ BertWorker.opens_of (BertWorker.added v v') = []).
Proof.
  intros w w' v v'.
  assert (Hw : I2CComms.portIsOpen (BertWorker.comms w) = false)
    by reflexivity.
  assert (Hn : BertWorker.no_devices w) by (repeat split).
  assert (Hv : I2CComms.portIsOpen (BertWorker.comms v) = true)
    by reflexivity.
  split.
  - split; [exact Hw|]. split; [exact Hn|].
    destruct (proj1 (@idempotent_connect_disconnect Bench.all_chips
                       PCA9557.datasheet globals.ADDRESSES_DUAL "COM1" w)
                    Hw Hn) as (H1 & H2 & H3 & H4 & _).
    repeat split; assumption.
  - split; [exact Hv|].
    destruct (proj2 (@idempotent_connect_disconnect Bench.all_chips
                       PCA9557.datasheet globals.ADDRESSES_DUAL "COM1" v)
                    Hv) as (H1 & H2 & H3 & H4 & _).
    repeat split; assumption.
Defined.

(** * Further properties *)

(** ** Channel mapper: lanes and temperature read-outs *)

Section ChannelLanes.
Import BertChannel.

(** X1: on the channels in range, two different channels share neither
    a pattern-generator lane nor an error-detector lane, no
    pattern-generator lane is the error-detector lane of any channel,
    and a channel's error-detector lane is the lane after its
    pattern-generator lane. *)
Theorem lanes_never_shared (c1 c2 : Z) :
  in_range c1 -> in_range c2 -> c1 <> c2 ->
  pgLane (new c1) <> pgLane (new c2)
  /\ edLane (new c1) <> edLane (new c2)
  /\ pgLane (new c1) <> edLane (new c2)
  /\ pgLane (new c1) <> edLane (new c1)
  /\ edLane (new c1) = pgLane (new c1) + 1
  /\ esLane (new c1) = edLane (new c1)
  /\ ctLane (new c1) = pgLane (new c1).
Proof.
  intros H1 H2 Hne. rewrite (new_in_range c1 H1), (new_in_range c2 H2).
  cbn [pgLane edLane esLane ctLane]. repeat split; lia.
Qed.

Lemma lanes_never_shared_witness :
  in_range 1 /\ in_range 2
  /\ pgLane (new 1) <> pgLane (new 2)
  /\ edLane (new 1) <> edLane (new 2)
  /\ pgLane (new 1) <> edLane (new 2).
Proof.
  assert (H1 : in_range 1) by (unfold in_range, INT_MAX; lia).
  assert (H2 : in_range 2) by (unfold in_range, INT_MAX; lia).
  split; [exact H1|]. split; [exact H2|].
  destruct (lanes_never_shared 1 2 H1 H2 ltac:(lia)) as (A & B & C & _).
  split; [exact A|]. split; [exact B|exact C].
Defined.

Lemma quot_2_odd (k : Z) : 0 <= k -> (2 * k) ÷ 2 = k.
Proof.
  intros H. rewrite Z.quot_div_nonneg by lia. symmetry.
  apply Z.div_unique with 0; lia.
Qed.

(** X2: a temperature read-out exists exactly for the odd channels, one
    per GT1724 core: for channels in range, the read-out of channel 2k+1
    sits on lane 4k, which is 4 times the core index k, and channel 2k+2
    of the same core has none. *)
Theorem temperature_slot_per_core (k : Z) :
  0 <= k ->
  in_range (2 * k + 2) ->
  core (new (2 * k + 1)) = k
  /\ core (new (2 * k + 2)) = k
  /\ (exists s, temp (new (2 * k + 1)) = Some s
                /\ groupTemp_lane s = 4 * k /\ valueTemp_lane s = 4 * k)
  /\ temp (new (2 * k + 2)) = None.
Proof.
  intros Hk Hr2.
  assert (Hr1 : in_range (2 * k + 1))
    by (revert Hr2; unfold in_range, INT_MAX; lia).
  assert (H1 : (2 * k + 1 - 1) ÷ 2 = k)
    by (replace (2 * k + 1 - 1) with (2 * k) by lia; apply quot_2_odd; lia).
  assert (H2 : (2 * k + 2 - 1) ÷ 2 = k).
  { rewrite Z.quot_div_nonneg by lia. symmetry.
    apply Z.div_unique with 1; lia. }
  assert (H3 : Z.rem ((2 * k + 1 - 1) * 2) 4 = 0).
  { rewrite Z.rem_mod_nonneg by lia.
    replace ((2 * k + 1 - 1) * 2) with (k * 4) by lia. apply Z.mod_mul. lia. }
  assert (H4 : Z.rem ((2 * k + 2 - 1) * 2) 4 = 2).
  { rewrite Z.rem_mod_nonneg by lia.
    replace ((2 * k + 2 - 1) * 2) with (2 + k * 4) by lia.
    rewrite Z.mod_add by lia. reflexivity. }
  rewrite (new_in_range _ Hr1), (new_in_range _ Hr2).
  cbn [core temp]. rewrite H1, H2, H3, H4. cbn [Z.eqb].
  repeat split. eexists. split; [reflexivity|].
  cbn [groupTemp_lane valueTemp_lane]. lia.
Qed.

Lemma temperature_slot_per_core_witness :
  in_range 8
  /\ core (new 7) = 3
  /\ core (new 8) = 3
  /\ (exists s, temp (new 7) = Some s
                /\ groupTemp_lane s = 12 /\ valueTemp_lane s = 12)
  /\ temp (new 8) = None.
Proof.
  assert (H : in_range (2 * 3 + 2)) by (unfold in_range, INT_MAX; lia).
  split; [exact H|].
  exact (temperature_slot_per_core 3 ltac:(lia) H).
Defined.

(** X3: on the channels in range, the label of a temperature read-out
    says "Master" exactly on board 0 and "Slave" on every later board,
    and its number is 1 for the first core of a board and 2 for the
    second; so from channel 5 on the labels repeat with every board. *)
Theorem temperature_label_by_board (c : Z) (s : TempSlot) :
  in_range c ->
  temp (new c) = Some s ->
  labelTemp_text s
  = label_format (if board (new c) =? 0 then "Master"%string
                  else "Slave"%string)
                 (if core (new c) =? 2 * board (new c) then 1 else 2)
  /\ (5 <= c -> in_range (c + 4) ->
      exists s', temp (new (c + 4)) = Some s'
                 /\ labelTemp_text s' = labelTemp_text s).
Proof.
  intros Hr Hs.
  assert (Hc : 1 <= c) by (apply Hr).
  rewrite (new_in_range c Hr) in Hs |- *.
  assert (Hodd : exists k, 0 <= k /\ c = 2 * k + 1).
  { destruct (Z.Even_or_Odd c) as [[j Hj]|[j Hj]].
    - exfalso. subst c. revert Hs. cbn [temp].
      assert (H4 : Z.rem ((2 * j - 1) * 2) 4 = 2).
      { rewrite Z.rem_mod_nonneg by lia.
        replace ((2 * j - 1) * 2) with (2 + (j - 1) * 4) by lia.
        rewrite Z.mod_add by lia. reflexivity. }
      rewrite H4. discriminate.
    - exists j. split; lia. }
  destruct Hodd as (k & Hk & ->).
  assert (Hcore : forall j, 0 <= j -> (2 * j + 1 - 1) ÷ 2 = j)
    by (intros j Hj; replace (2 * j + 1 - 1) with (2 * j) by lia;
        apply quot_2_odd; lia).
  assert (Hrem : forall j, 0 <= j -> Z.rem ((2 * j + 1 - 1) * 2) 4 = 0).
  { intros j Hj. rewrite Z.rem_mod_nonneg by lia.
    replace ((2 * j + 1 - 1) * 2) with (j * 4) by lia. apply Z.mod_mul. lia. }
  assert (Hboard : forall j, 0 <= j -> (2 * j + 1 - 1) ÷ 4 = j / 2).
  { intros j Hj. rewrite Z.quot_div_nonneg by lia.
    replace (2 * j + 1 - 1) with (j * 2) by lia.
    replace 4 with (2 * 2) by lia. rewrite <- Z.div_div by lia.
    rewrite Z.div_mul by lia. reflexivity. }
  assert (Hgroup : forall j, 0 <= j ->
             Z.rem j 2 + 1 = if j =? 2 * (j / 2) then 1 else 2).
  { intros j Hj. rewrite Z.rem_mod_nonneg by lia.
    pose proof (Z.div_mod j 2 ltac:(lia)) as Hdm.
    pose proof (Z.mod_pos_bound j 2 ltac:(lia)) as Hb.
    destruct (Z.eqb_spec j (2 * (j / 2))); lia. }
  assert (Hword : forall j, 0 <= j ->
             ((2 * j + 1 - 1) * 2 <? 5) = (j / 2 =? 0)).
  { intros j Hj.
    pose proof (Z.div_mod j 2 ltac:(lia)) as Hdm.
    pose proof (Z.mod_pos_bound j 2 ltac:(lia)) as Hb.
    destruct (Z.ltb_spec ((2 * j + 1 - 1) * 2) 5),
             (Z.eqb_spec (j / 2) 0); try reflexivity; lia. }
  revert Hs. cbn [temp core board].
  rewrite (Hrem k Hk), (Hcore k Hk), (Hboard k Hk). cbn [Z.eqb].
  intros Hs.
  apply (f_equal (fun o => match o with
                           | Some x => labelTemp_text x
                           | None => EmptyString
                           end)) in Hs.
  cbn [labelTemp_text] in Hs. rewrite <- Hs.
  rewrite (Hgroup k Hk), (Hword k Hk). split; [reflexivity|].
  intros H5 Hr4. rewrite (new_in_range _ Hr4). cbn [temp].
  replace (2 * k + 1 + 4) with (2 * (k + 2) + 1) by lia.
  rewrite (Hrem (k + 2)), (Hcore (k + 2)) by lia. cbn [Z.eqb].
  eexists. split; [reflexivity|]. cbn [labelTemp_text].
  rewrite (Hgroup (k + 2)), (Hword (k + 2)) by lia.
  replace (k + 2) with (k + 1 * 2) by lia. rewrite Z.div_add by lia.
  assert (1 <= k / 2).
  { apply Z.div_le_lower_bound; lia. }
  destruct (Z.eqb_spec (k / 2) 0), (Z.eqb_spec (k / 2 + 1) 0); try lia.
  destruct (Z.eqb_spec k (2 * (k / 2))),
           (Z.eqb_spec (k + 1 * 2) (2 * (k / 2 + 1))); try lia; reflexivity.
Qed.

Lemma temperature_label_by_board_witness :
  in_range 7 /\ in_range 11
  /\ exists s, temp (new 7) = Some s
               /\ labelTemp_text s = "Slave 2:"%string
               /\ exists s', temp (new 11) = Some s'
                             /\ labelTemp_text s' = labelTemp_text s.
Proof.
  assert (H : in_range 7) by (unfold in_range, INT_MAX; lia).
  assert (H' : in_range (7 + 4)) by (unfold in_range, INT_MAX; lia).
  split; [exact H|]. split; [exact H'|].
  eexists. split; [reflexivity|].
  destruct (temperature_label_by_board 7 _ H eq_refl) as (A & B).
  split; [exact A|]. exact (B ltac:(lia) H').
Defined.

End ChannelLanes.

(** ** PCA9557 driver: probing, configuration and pin access *)

Section DriverOperations.
Import PCA9557.
Context {R : Registers}.

(** *** The transport primitives on an open port *)

Lemma outcome_OK (c : I2CComms.t) (a nack : Z) :
  nack <> globals.OK ->
  I2CComms.outcome c a nack = globals.OK ->
  I2CComms.present c a = true /\ hd globals.OK (I2CComms.faults c) = globals.OK.
Proof.
  intros Hn. unfold I2CComms.outcome.
  destruct (Z.eqb_spec (hd globals.OK (I2CComms.faults c)) globals.OK)
    as [E|E]; [|intros H; contradiction].
  destruct (I2CComms.present c a); [intros _; split; [reflexivity|exact E]|].
  intros H. contradiction.
Qed.

Lemma outcome_fault_free (c : I2CComms.t) (a nack : Z) :
  I2CComms.present c a = true ->
  hd globals.OK (I2CComms.faults c) = globals.OK ->
  I2CComms.outcome c a nack = globals.OK.
Proof.
  intros Hp Hf. unfold I2CComms.outcome. rewrite Hf, Hp. reflexivity.
Qed.

Lemma pingAddress_open (a : Z) (c : I2CComms.t) :
  I2CComms.portIsOpen c = true ->
  I2CComms.pingAddress a c
  = (I2CComms.outcome c a globals.DEVICE_NOT_FOUND,
     after c (I2CComms.reg c)
           (I2CComms.BusPing a
              (I2CComms.outcome c a globals.DEVICE_NOT_FOUND))).
Proof. intros H. unfold I2CComms.pingAddress. rewrite H. reflexivity. Qed.

Lemma read8_open (a r buf : Z) (c : I2CComms.t) :
  I2CComms.portIsOpen c = true ->
  I2CComms.read8 a r buf c
  = (I2CComms.outcome c a globals.ADAPTOR_READ_ERROR,
     (if I2CComms.outcome c a globals.ADAPTOR_READ_ERROR =? globals.OK
      then I2CComms.reg c a r else buf),
     after c (I2CComms.reg c)
           (I2CComms.BusRead a r
              (I2CComms.outcome c a globals.ADAPTOR_READ_ERROR))).
Proof. intros H. unfold I2CComms.read8. rewrite H. reflexivity. Qed.

Lemma write8_open_eq (a r v : Z) (c : I2CComms.t) :
  I2CComms.portIsOpen c = true ->
  I2CComms.write8 a r v c
  = (I2CComms.outcome c a globals.ADAPTOR_WRITE_ERROR,
     after c (if I2CComms.outcome c a globals.ADAPTOR_WRITE_ERROR
                 =? globals.OK
              then I2CComms.set_reg a r v (I2CComms.reg c)
              else I2CComms.reg c)
           (I2CComms.BusWrite a r v
              (I2CComms.outcome c a globals.ADAPTOR_WRITE_ERROR))).
Proof. intros H. unfold I2CComms.write8. rewrite H. reflexivity. Qed.

Lemma bus_added_app (c c' : I2CComms.t) (ops : list I2CComms.BusOp) :
  I2CComms.log c' = I2CComms.log c ++ ops -> bus_added c c' = ops.
Proof.
  intros H. unfold bus_added. rewrite H. apply skipn_length_app.
Qed.


(** *** Probing *)

Lemma touches_only_refl (a r : Z) (c : I2CComms.t) : touches_only a r c c.
Proof. repeat split. Qed.

Lemma touches_only_trans (a r : Z) (c1 c2 c3 : I2CComms.t) :
  touches_only a r c1 c2 -> touches_only a r c2 c3 -> touches_only a r c1 c3.
Proof.
  intros (Hp1 & Hd1 & Hr1) (Hp2 & Hd2 & Hr2).
  split; [congruence|]. split; [congruence|].
  intros a' r' H. rewrite Hr2, Hr1 by exact H. reflexivity.
Qed.

Lemma touches_only_after (a r : Z) (c : I2CComms.t) (op : I2CComms.BusOp) :
  touches_only a r c (after c (I2CComms.reg c) op).
Proof. repeat split. Qed.

Lemma touches_only_write (a r v : Z) (c : I2CComms.t) :
  touches_only a r c (snd (I2CComms.write8 a r v c)).
Proof.
  unfold I2CComms.write8.
  destruct (I2CComms.portIsOpen c); cbn [negb snd];
    [|apply touches_only_refl].
  split; [reflexivity|]. split; [reflexivity|].
  intros a' r' H. cbn [I2CComms.reg].
  destruct (_ =? globals.OK); [|reflexivity].
  unfold I2CComms.set_reg. rewrite H. reflexivity.
Qed.

Lemma touches_only_read (a r a0 r0 buf : Z) (c : I2CComms.t) :
  touches_only a r c (snd (I2CComms.read8 a0 r0 buf c)).
Proof.
  unfold I2CComms.read8.
  destruct (I2CComms.portIsOpen c); cbn [negb snd]; repeat split.
Qed.

Lemma touches_only_pingAddress (a r a0 : Z) (c : I2CComms.t) :
  touches_only a r c (snd (I2CComms.pingAddress a0 c)).
Proof.
  unfold I2CComms.pingAddress.
  destruct (I2CComms.portIsOpen c); cbn [negb snd]; repeat split.
Qed.

(** X4: whatever the outcome of [ping], and whatever faults the transport
    injects, the probe changes no register other than the polarity
    inversion register of the probed address, and neither the port nor
    the set of answering devices. *)
Theorem ping_touches_only_polarity (c : I2CComms.t) (address : Z) :
  touches_only address REG_POLARITY c (snd (ping c address)).
Proof.
  unfold ping.
  destruct (I2CComms.portIsOpen c); cbn [negb];
    [|apply touches_only_refl].
  pose proof (touches_only_pingAddress address REG_POLARITY address c) as H1.
  destruct (I2CComms.pingAddress address c) as [r1 c1]. cbn [snd] in H1.
  destruct (negb (r1 =? globals.OK)); [exact H1|].
  pose proof (touches_only_read address REG_POLARITY address REG_POLARITY
                                0 c1) as H2.
  destruct (I2CComms.read8 address REG_POLARITY 0 c1) as [[r2 v2] c2].
  cbn [snd] in H2.
  pose proof (touches_only_trans _ _ _ _ _ H1 H2) as H12.
  destruct (negb (r2 =? globals.OK)); [exact H12|].
  pose proof (touches_only_write address REG_POLARITY 85 c2) as H3.
  destruct (I2CComms.write8 address REG_POLARITY 85 c2) as [r3 c3].
  cbn [snd] in H3.
  pose proof (touches_only_trans _ _ _ _ _ H12 H3) as H13.
  destruct (negb (r3 =? globals.OK)); [exact H13|].
  pose proof (touches_only_read address REG_POLARITY address REG_POLARITY
                                85 c3) as H4.
  destruct (I2CComms.read8 address REG_POLARITY 85 c3) as [[r4 v4] c4].
  cbn [snd] in H4.
  pose proof (touches_only_trans _ _ _ _ _ H13 H4) as H14.
  destruct (negb (r4 =? globals.OK)); [exact H14|].
  pose proof (touches_only_write address REG_POLARITY v2 c4) as H5.
  destruct (I2CComms.write8 address REG_POLARITY v2 c4) as [r5 c5].
  cbn [snd] in H5 |- *.
  exact (touches_only_trans _ _ _ _ _ H14 H5).
Qed.

(** X5: on an open port [ping] reports a device only after the whole
    handshake: the address answers, and the address probe, the read of
    the polarity inversion register, the write of 0x55 and its read-back
    all succeeded, followed by the write of the value first read. *)
Theorem ping_true_after_handshake (c : I2CComms.t) (address : Z) :
  I2CComms.portIsOpen c = true ->
  fst (ping c address) = true ->
  I2CComms.present c address = true
  /\ exists r5,
      bus_added c (snd (ping c address))
      = [I2CComms.BusPing address globals.OK;
         I2CComms.BusRead address REG_POLARITY globals.OK;
         I2CComms.BusWrite address REG_POLARITY 0x55 globals.OK;
         I2CComms.BusRead address REG_POLARITY globals.OK;
         I2CComms.BusWrite address REG_POLARITY
                           (I2CComms.reg c address REG_POLARITY) r5].
Proof.
  intros Hopen. unfold ping. rewrite Hopen. cbn [negb].
  rewrite pingAddress_open by exact Hopen. cbv beta iota.
  destruct (Z.eqb_spec (I2CComms.outcome c address globals.DEVICE_NOT_FOUND)
                       globals.OK) as [E1|E1]; cbn [negb];
    [|cbn [fst]; discriminate].
  rewrite E1.
  destruct (outcome_OK c address globals.DEVICE_NOT_FOUND ltac:(discriminate) E1) as (Hp & _).
  set (c1 := after c _ _).
  assert (Ho1 : I2CComms.portIsOpen c1 = true) by exact Hopen.
  rewrite read8_open by exact Ho1. cbv beta iota.
  destruct (Z.eqb_spec (I2CComms.outcome c1 address globals.ADAPTOR_READ_ERROR)
                       globals.OK) as [E2|E2]; cbn [negb];
    [|cbn [fst]; discriminate].
  rewrite E2. set (c2 := after c1 _ _).
  assert (Ho2 : I2CComms.portIsOpen c2 = true) by exact Hopen.
  rewrite write8_open_eq by exact Ho2. cbv beta iota.
  destruct (Z.eqb_spec (I2CComms.outcome c2 address globals.ADAPTOR_WRITE_ERROR)
                       globals.OK) as [E3|E3]; cbn [negb];
    [|cbn [fst]; discriminate].
  rewrite E3. set (c3 := after c2 _ _).
  assert (Ho3 : I2CComms.portIsOpen c3 = true) by exact Hopen.
  rewrite read8_open by exact Ho3. cbv beta iota.
  destruct (Z.eqb_spec (I2CComms.outcome c3 address globals.ADAPTOR_READ_ERROR)
                       globals.OK) as [E4|E4]; cbn [negb];
    [|cbn [fst]; discriminate].
  rewrite E4. set (c4 := after c3 _ _).
  assert (Ho4 : I2CComms.portIsOpen c4 = true) by exact Hopen.
  rewrite write8_open_eq by exact Ho4. cbv beta iota.
  cbn [fst snd]. intros _. split; [exact Hp|].
  eexists. apply bus_added_app.
  subst c4 c3 c2 c1. unfold after. cbn [I2CComms.log I2CComms.reg].
  rewrite <- !app_assoc. reflexivity.
Qed.


(** *** Initialisation and pin configuration *)

Lemma fault_free_step (n : nat) (c : I2CComms.t) (rg : Z -> Z -> Z)
      (op : I2CComms.BusOp) :
  fault_free (S n) c ->
  hd globals.OK (I2CComms.faults c) = globals.OK
  /\ fault_free n (after c rg op).
Proof.
  intros H. split.
  - specialize (H O ltac:(lia)). destruct (I2CComms.faults c); exact H.
  - intros k Hk. specialize (H (S k) ltac:(lia)). cbn [after I2CComms.faults].
    destruct (I2CComms.faults c) as [|f fs]; [destruct k; reflexivity|exact H].
Qed.

Lemma or_if_testbit (b : bool) (bit r i : Z) :
  Z.testbit (or_if b bit r) i = Z.testbit r i || (b && Z.testbit bit i).
Proof.
  unfold or_if. destruct b; [apply Z.lor_spec|].
  rewrite orb_false_r. reflexivity.
Qed.

Lemma or_if_u8 (b : bool) (bit r : Z) :
  is_u8 bit -> is_u8 r -> is_u8 (or_if b bit r).
Proof.
  intros Hb Hr. unfold or_if. destruct b; [|exact Hr].
  apply high_bits_u8.
  - apply Z.lor_nonneg. split; [apply Hr|apply Hb].
  - intros i Hi. rewrite Z.lor_spec.
    rewrite (u8_high_bits r i Hr Hi), (u8_high_bits bit i Hb Hi). reflexivity.
Qed.

Ltac pin_bit :=
  rewrite !or_if_testbit; cbn;
  rewrite ?andb_false_r, ?andb_true_r, ?orb_false_r, ?orb_false_l;
  reflexivity.

(** X6: on an open port [configurePins] sets bit i of the cached
    configuration register exactly when pin i is not an output - and that
    byte is what it writes - and, when the configuration write succeeds,
    bit i of the cached polarity inversion register exactly when pin i is
    an inverted input. *)
Theorem configurePins_bits (p0 p1 p2 p3 p4 p5 p6 p7 : PinDirection)
        (d : t) (c : I2CComms.t) :
  I2CComms.portIsOpen c = true ->
  let dirs := [p0; p1; p2; p3; p4; p5; p6; p7] in
  let out := configurePins p0 p1 p2 p3 p4 p5 p6 p7 d c in
  let d' := snd (fst out) in
  is_u8 (regConfig d')
  /\ (forall i, (i < 8)%nat ->
        Z.testbit (regConfig d') (Z.of_nat i)
        = negb (is_OUTPUT (pin_dir dirs i)))
  /\ (exists r rest,
        bus_added c (snd out)
        = I2CComms.BusWrite (i2cAddress d) REG_CONFIG (regConfig d') r
            :: rest)
  /\ (fst (fst out) = globals.OK ->
      is_u8 (regPolarity d')
      /\ forall i, (i < 8)%nat ->
           Z.testbit (regPolarity d') (Z.of_nat i)
           = is_INVERTED_INPUT (pin_dir dirs i)).
Proof.
  intros Hopen dirs out d'. subst d' out. unfold configurePins.
  rewrite Hopen. cbn [negb]. cbv zeta.
  set (rc := or_if _ 128 _). set (rp := or_if _ 128 _).
  assert (Hrc : is_u8 rc)
    by (subst rc; repeat apply or_if_u8; unfold is_u8; lia).
  assert (Hrp : is_u8 rp)
    by (subst rp; repeat apply or_if_u8; unfold is_u8; lia).
  assert (Hcb : forall i, (i < 8)%nat ->
            Z.testbit rc (Z.of_nat i) = negb (is_OUTPUT (pin_dir dirs i))).
  { intros i Hi. subst rc dirs.
    do 8 (destruct i as [|i]; [pin_bit|]). lia. }
  assert (Hpb : forall i, (i < 8)%nat ->
            Z.testbit rp (Z.of_nat i) = is_INVERTED_INPUT (pin_dir dirs i)).
  { intros i Hi. subst rp dirs.
    do 8 (destruct i as [|i]; [pin_bit|]). lia. }
  cbn [regConfig set_regConfig i2cAddress].
  rewrite write8_open_eq by exact Hopen. cbv beta iota.
  set (c1 := after c _ _).
  destruct (Z.eqb_spec (I2CComms.outcome c (i2cAddress d)
                                         globals.ADAPTOR_WRITE_ERROR)
                       globals.OK) as [E1|E1]; cbn [negb].
  - cbn [regPolarity set_regPolarity i2cAddress set_regConfig].
    assert (Ho1 : I2CComms.portIsOpen c1 = true) by exact Hopen.
    rewrite write8_open_eq by exact Ho1. cbv beta iota.
    assert (Hlog : forall c2 : I2CComms.t,
               I2CComms.log c2
               = I2CComms.log c1
                   ++ [I2CComms.BusWrite (i2cAddress d) REG_POLARITY rp
                         (I2CComms.outcome c1 (i2cAddress d)
                                           globals.ADAPTOR_WRITE_ERROR)] ->
               exists r rest,
                 bus_added c c2
                 = I2CComms.BusWrite (i2cAddress d) REG_CONFIG rc r :: rest).
    { intros c2 H2. eexists _, _. apply bus_added_app. rewrite H2.
      subst c1. unfold after. cbn [I2CComms.log]. rewrite <- app_assoc.
      reflexivity. }
    destruct (negb (_ =? globals.OK));
      cbn [fst snd regConfig regPolarity set_regPolarity set_regConfig];
      (split; [exact Hrc|]); (split; [exact Hcb|]);
      (split; [apply Hlog; reflexivity|]); intros _; split; assumption.
  - cbn [fst snd regConfig set_regConfig].
    split; [exact Hrc|]. split; [exact Hcb|]. split.
    + eexists _, []. apply bus_added_app. reflexivity.
    + intros H. contradiction.
Qed.

(** X7: on an open port, with the device answering and no fault in the
    next three transactions, [init] succeeds with exactly three writes -
    configuration 0x3B (pins 2, 6 and 7 outputs), polarity inversion 0x00
    and output 0xC4 (trigger divide 1/2, EEPROM write disabled) - the
    caches hold these bytes, the output register of the hardware reads
    0xC4 afterwards, and no signal is emitted. *)
Theorem init_writes_safe_defaults (d : t) (c : I2CComms.t) :
  I2CComms.portIsOpen c = true ->
  I2CComms.present c (i2cAddress d) = true ->
  fault_free 3 c ->
  let out := init d c in
  fst (fst out) = globals.OK
  /\ regConfig (snd (fst out)) = 0x3B
  /\ regPolarity (snd (fst out)) = 0x00
  /\ regOutput (snd (fst out)) = 0xC4
  /\ emitted (snd (fst out)) = emitted d
  /\ bus_added c (snd out)
     = [I2CComms.BusWrite (i2cAddress d) REG_CONFIG 0x3B globals.OK;
        I2CComms.BusWrite (i2cAddress d) REG_POLARITY 0x00 globals.OK;
        I2CComms.BusWrite (i2cAddress d) REG_OUPUT 0xC4 globals.OK]
  /\ I2CComms.reg (snd out) (i2cAddress d) REG_OUPUT = 0xC4.
Proof.
  intros Hopen Hpresent Hfree out. subst out.
  unfold init, configurePins, setPins, writePins. rewrite Hopen.
  cbn [negb is_OUTPUT is_INVERTED_INPUT or_if Z.lor Pos.lor Pos.succ
       regConfig regPolarity regOutput i2cAddress set_regConfig
       set_regPolarity set_regOutput].
  rewrite write8_open_eq by exact Hopen. cbv beta iota.
  destruct (fault_free_step 2 c (I2CComms.set_reg (i2cAddress d) REG_CONFIG
                                                  59 (I2CComms.reg c))
              (I2CComms.BusWrite (i2cAddress d) REG_CONFIG 59 globals.OK)
              Hfree) as (Hf1 & Hfree1).
  rewrite (outcome_fault_free c _ _ Hpresent Hf1).
  cbn [Z.eqb globals.OK negb]. set (c1 := after c _ _) in *.
  assert (Ho1 : I2CComms.portIsOpen c1 = true) by exact Hopen.
  rewrite write8_open_eq by exact Ho1. cbv beta iota.
  destruct (fault_free_step 1 c1 (I2CComms.set_reg (i2cAddress d) REG_POLARITY
                                                   0 (I2CComms.reg c1))
              (I2CComms.BusWrite (i2cAddress d) REG_POLARITY 0 globals.OK)
              Hfree1) as (Hf2 & Hfree2).
  rewrite (outcome_fault_free c1 _ _ Hpresent Hf2).
  cbn [Z.eqb globals.OK negb]. set (c2 := after c1 _ _) in *.
  assert (Ho2 : I2CComms.portIsOpen c2 = true) by exact Hopen.
  rewrite Ho2. cbn [negb].
  change (to_u8 (Z.lor (nth TRIGGER_DIVIDE_DEFAULT_INDEX TRIGGER_DIVIDE_LOOKUP 0)
                       EEPROM_WRITE_DISABLE)) with 196.
  rewrite write8_open_eq by exact Ho2. cbv beta iota.
  destruct (fault_free_step 0 c2 (I2CComms.reg c2)
              (I2CComms.BusPing 0 0) Hfree2) as (Hf3 & _).
  rewrite (outcome_fault_free c2 _ _ Hpresent Hf3).
  cbn [Z.eqb globals.OK negb fst snd regConfig regPolarity regOutput emitted].
  repeat split.
  - apply bus_added_app. subst c2 c1. unfold after. cbn [I2CComms.log].
    rewrite <- !app_assoc. reflexivity.
  - unfold after, I2CComms.set_reg. cbn [I2CComms.reg].
    rewrite !Z.eqb_refl. reflexivity.
Qed.

(** X8: when [init] fails it emits the message "Error configuring I/O
    controller!" and nothing else, and it has stopped at the failing
    step: either the port was closed and nothing went on the bus, or the
    last transaction on the bus is the write that failed, with [init]'s
    result as its result, after which no further write - and no
    roll-back of the earlier ones - was issued. *)
Theorem init_stops_at_failure (d : t) (c : I2CComms.t) :
  let out := init d c in
  let r := fst (fst out) in
  let a := i2cAddress d in
  r <> globals.OK ->
  emitted (snd (fst out))
  = emitted d ++ [ShowMessage "Error configuring I/O controller!"]
  /\ ((I2CComms.portIsOpen c = false /\ r = globals.NOT_CONNECTED
       /\ snd out = c)
      \/ bus_added c (snd out) = [I2CComms.BusWrite a REG_CONFIG 0x3B r]
      \/ bus_added c (snd out)
         = [I2CComms.BusWrite a REG_CONFIG 0x3B globals.OK;
            I2CComms.BusWrite a REG_POLARITY 0x00 r]
      \/ bus_added c (snd out)
         = [I2CComms.BusWrite a REG_CONFIG 0x3B globals.OK;
            I2CComms.BusWrite a REG_POLARITY 0x00 globals.OK;
            I2CComms.BusWrite a REG_OUPUT 0xC4 r]).
Proof.
  intros out r a. subst out r a.
  unfold init, configurePins, setPins, writePins.
  destruct (I2CComms.portIsOpen c) eqn:Hopen; cbn [negb];
    [|cbn [Z.eqb globals.NOT_CONNECTED globals.OK negb fst snd emitted emit];
      intros _; split; [reflexivity|left; repeat split]].
  cbn [negb is_OUTPUT is_INVERTED_INPUT or_if Z.lor Pos.lor Pos.succ
       regConfig regPolarity regOutput i2cAddress set_regConfig
       set_regPolarity set_regOutput].
  rewrite write8_open_eq by exact Hopen. cbv beta iota.
  set (c1 := after c _ _).
  destruct (Z.eqb_spec (I2CComms.outcome c (i2cAddress d)
                                         globals.ADAPTOR_WRITE_ERROR)
                       globals.OK) as [E1|E1]; cbn [negb].
  2:{ rewrite (proj2 (Z.eqb_neq _ _) E1).
      cbn [negb fst snd emitted emit]. intros _. split; [reflexivity|].
      right. left. apply bus_added_app. reflexivity. }
  assert (Ho1 : I2CComms.portIsOpen c1 = true) by exact Hopen.
  rewrite write8_open_eq by exact Ho1. cbv beta iota.
  set (c2 := after c1 _ _).
  destruct (Z.eqb_spec (I2CComms.outcome c1 (i2cAddress d)
                                         globals.ADAPTOR_WRITE_ERROR)
                       globals.OK) as [E2|E2]; cbn [negb].
  2:{ rewrite (proj2 (Z.eqb_neq _ _) E2).
      cbn [negb fst snd emitted emit]. intros _. split; [reflexivity|].
      right. right. left. apply bus_added_app.
      subst c2 c1. unfold after. cbn [I2CComms.log].
      rewrite E1, <- !app_assoc. reflexivity. }
  cbn [Z.eqb globals.OK negb].
  assert (Ho2 : I2CComms.portIsOpen c2 = true) by exact Hopen.
  rewrite Ho2. cbn [negb].
  cbn [regConfig regPolarity regOutput i2cAddress set_regConfig
       set_regPolarity set_regOutput].
  change (to_u8 (Z.lor (nth TRIGGER_DIVIDE_DEFAULT_INDEX TRIGGER_DIVIDE_LOOKUP 0)
                       EEPROM_WRITE_DISABLE)) with 196.
  rewrite write8_open_eq by exact Ho2. cbv beta iota.
  destruct (Z.eqb_spec (I2CComms.outcome c2 (i2cAddress d)
                                         globals.ADAPTOR_WRITE_ERROR)
                       globals.OK) as [E3|E3]; cbn [negb].
  - cbn [fst snd Z.eqb globals.OK negb]. intros H. exfalso. apply H.
    reflexivity.
  - rewrite (proj2 (Z.eqb_neq _ _) E3).
    cbn [negb fst snd emitted emit]. intros _. split; [reflexivity|].
    right. right. right. apply bus_added_app.
    assert (Hl1 : I2CComms.log c1
                  = I2CComms.log c
                      ++ [I2CComms.BusWrite (i2cAddress d) REG_CONFIG 59
                                            globals.OK])
      by (unfold c1, after; cbn [I2CComms.log]; rewrite E1; reflexivity).
    assert (Hl2 : I2CComms.log c2
                  = I2CComms.log c1
                      ++ [I2CComms.BusWrite (i2cAddress d) REG_POLARITY 0
                                            globals.OK])
      by (unfold c2; cbn [after I2CComms.log]; rewrite E2; reflexivity).
    cbn [after I2CComms.log].
    rewrite Hl2, Hl1, <- !app_assoc. reflexivity.
Qed.

(** *** Run-time pin operations *)

Lemma byte_cases (P : Z -> bool) :
  forallb P (map Z.of_nat (seq 0 256)) = true ->
  forall r, is_u8 r -> P r = true.
Proof.
  intros H r [Hlo Hhi]. rewrite forallb_forall in H. apply H.
  replace r with (Z.of_nat (Z.to_nat r)) by lia.
  apply in_map, in_seq. lia.
Qed.

Lemma index_guard (index : Z) :
  (index <? 0) || (index >=? Z.of_nat (length TRIGGER_DIVIDE_LOOKUP))
  = negb ((0 <=? index) && (index <? 3)).
Proof.
  cbn [length TRIGGER_DIVIDE_LOOKUP]. rewrite Z.geb_leb.
  change (Z.of_nat 3) with 3.
  destruct (Z.ltb_spec index 0), (Z.leb_spec 3 index), (Z.leb_spec 0 index),
    (Z.ltb_spec index 3); try reflexivity; lia.
Qed.

Lemma SelectTriggerDivide_cache (index : Z) (d : t) (c : I2CComms.t) :
  0 <= index < 3 ->
  regOutput (fst (SelectTriggerDivide index d c))
  = to_u8 (Z.lor (Z.land (regOutput d) (Z.lnot TRIGGER_DIVIDE_BITMASK))
                 (nth (Z.to_nat index) TRIGGER_DIVIDE_LOOKUP 0)).
Proof.
  intros Hi. unfold SelectTriggerDivide.
  rewrite index_guard.
  replace ((0 <=? index) && (index <? 3)) with true
    by (symmetry; apply andb_true_iff;
        split; [apply Z.leb_le|apply Z.ltb_lt]; lia).
  cbn [negb].
  destruct (updatePins_step TRIGGER_DIVIDE_BITMASK
              (nth (Z.to_nat index) TRIGGER_DIVIDE_LOOKUP 0) d c) as (H & _).
  destruct (updatePins _ _ d c) as [[r d1] c1]. cbn [fst snd] in *.
  exact H.
Qed.

Lemma SetEEPROMWriteEnable_cache (enable : bool) (d : t) (c : I2CComms.t) :
  regOutput (fst (SetEEPROMWriteEnable enable d c))
  = to_u8 (Z.lor (Z.land (regOutput d) (Z.lnot EEPROM_WC_BITMASK))
                 (if enable then EEPROM_WRITE_ENABLE
                  else EEPROM_WRITE_DISABLE)).
Proof.
  unfold SetEEPROMWriteEnable.
  destruct (updatePins_step EEPROM_WC_BITMASK
              (if enable then EEPROM_WRITE_ENABLE else EEPROM_WRITE_DISABLE)
              d c) as (H & _).
  destruct (updatePins _ _ d c) as [[r d1] c1]. cbn [fst snd] in *.
  exact H.
Qed.

(** The two updates as functions of the cached byte, checked on every
    byte. *)
Lemma divide_and_write_control_bytes (r : Z) (k : nat) (enable : bool) :
  is_u8 r -> (k < 3)%nat ->
  let lookup := nth k TRIGGER_DIVIDE_LOOKUP 0 in
  let wc := if enable then EEPROM_WRITE_ENABLE else EEPROM_WRITE_DISABLE in
  let sel := to_u8 (Z.lor (Z.land r (Z.lnot TRIGGER_DIVIDE_BITMASK)) lookup) in
  let ena := to_u8 (Z.lor (Z.land r (Z.lnot EEPROM_WC_BITMASK)) wc) in
  is_u8 sel /\ is_u8 ena
  /\ Z.land sel 0xC0 = lookup /\ Z.land sel 0x3F = Z.land r 0x3F
  /\ Z.land ena 0x04 = wc /\ Z.land ena 0xFB = Z.land r 0xFB
  /\ to_u8 (Z.lor (Z.land sel (Z.lnot EEPROM_WC_BITMASK)) wc)
     = to_u8 (Z.lor (Z.land ena (Z.lnot TRIGGER_DIVIDE_BITMASK)) lookup).
Proof.
  intros Hr Hk lookup wc sel ena. subst sel ena.
  assert (Hsel : is_u8 (to_u8 (Z.lor (Z.land r (Z.lnot TRIGGER_DIVIDE_BITMASK))
                                     lookup)))
    by (unfold to_u8, is_u8; apply Z.mod_pos_bound; lia).
  assert (Hena : is_u8 (to_u8 (Z.lor (Z.land r (Z.lnot EEPROM_WC_BITMASK))
                                     wc)))
    by (unfold to_u8, is_u8; apply Z.mod_pos_bound; lia).
  split; [exact Hsel|]. split; [exact Hena|].
  set (check := fun r =>
    let sel := to_u8 (Z.lor (Z.land r (Z.lnot TRIGGER_DIVIDE_BITMASK)) lookup) in
    let ena := to_u8 (Z.lor (Z.land r (Z.lnot EEPROM_WC_BITMASK)) wc) in
    (Z.land sel 0xC0 =? lookup) && (Z.land sel 0x3F =? Z.land r 0x3F)
    && (Z.land ena 0x04 =? wc) && (Z.land ena 0xFB =? Z.land r 0xFB)
    && (to_u8 (Z.lor (Z.land sel (Z.lnot EEPROM_WC_BITMASK)) wc)
        =? to_u8 (Z.lor (Z.land ena (Z.lnot TRIGGER_DIVIDE_BITMASK)) lookup))).
  assert (Hall : check r = true).
  { apply byte_cases; [|exact Hr]. subst check lookup wc.
    destruct enable; do 3 (destruct k as [|k]; [vm_compute; reflexivity|]);
      lia. }
  subst check. cbv beta zeta in Hall.
  repeat (apply andb_true_iff in Hall; destruct Hall as [Hall ?]).
  repeat match goal with H : (_ =? _) = true |- _ => apply Z.eqb_eq in H end.
  repeat split; assumption.
Qed.

(** X9: selecting a trigger divide ratio sets bits 6 and 7 of the cached
    output register to the ratio's code and keeps bits 0 to 5, among them
    the EEPROM write control; switching the EEPROM write control sets bit
    2 (set: writes disabled) and keeps all other bits; so the two
    settings can be made in either order.  An index outside 0..2 changes
    nothing and puts nothing on the bus. *)
Theorem trigger_divide_and_write_control (index : Z) (enable : bool)
        (d : t) (c : I2CComms.t) :
  is_u8 (regOutput d) ->
  let sel := SelectTriggerDivide index d c in
  let ena := SetEEPROMWriteEnable enable d c in
  (index < 0 \/ 3 <= index -> sel = (d, c))
  /\ (0 <= index < 3 ->
      Z.land (regOutput (fst sel)) 0xC0
      = nth (Z.to_nat index) TRIGGER_DIVIDE_LOOKUP 0
      /\ Z.land (regOutput (fst sel)) 0x3F = Z.land (regOutput d) 0x3F
      /\ regOutput (fst (SetEEPROMWriteEnable enable (fst sel) (snd sel)))
         = regOutput (fst (SelectTriggerDivide index (fst ena) (snd ena))))
  /\ Z.land (regOutput (fst ena)) 0x04 = (if enable then 0x00 else 0x04)
  /\ Z.land (regOutput (fst ena)) 0xFB = Z.land (regOutput d) 0xFB.
Proof.
  intros Hu8 sel ena. subst sel ena.
  split; [|split].
  - intros Hout. unfold SelectTriggerDivide.
    rewrite index_guard.
    replace ((0 <=? index) && (index <? 3)) with false; [reflexivity|].
    symmetry. apply andb_false_iff.
    destruct Hout; [left; apply Z.leb_gt|right; apply Z.ltb_ge]; lia.
  - intros Hin.
    destruct (divide_and_write_control_bytes (regOutput d) (Z.to_nat index)
                enable Hu8 ltac:(lia))
      as (_ & _ & H1 & H2 & _ & _ & H5).
    rewrite SetEEPROMWriteEnable_cache.
    rewrite (SelectTriggerDivide_cache index (fst _) (snd _) Hin).
    rewrite SetEEPROMWriteEnable_cache.
    rewrite (SelectTriggerDivide_cache index d c Hin).
    repeat split; assumption.
  - destruct (divide_and_write_control_bytes (regOutput d) 0 enable Hu8
                ltac:(lia)) as (_ & _ & _ & _ & H3 & H4 & _).
    rewrite SetEEPROMWriteEnable_cache. split; [|exact H4].
    rewrite H3. destruct enable; reflexivity.
Qed.

Lemma testbit_3_of_shift (v : Z) :
  bool_of_int (Z.land (Z.shiftr v 3) 0x01) = Z.testbit v 3.
Proof.
  replace (Z.testbit v 3) with (Z.testbit (Z.shiftr v 3) 0)
    by (rewrite Z.shiftr_spec by lia; reflexivity).
  rewrite Z.bit0_odd.
  change 1 with (Z.ones 1). rewrite Z.land_ones by lia.
  change (2 ^ 1) with 2. rewrite Zmod_odd. unfold bool_of_int.
  destruct (Z.odd (Z.shiftr v 3)); reflexivity.
Qed.

(** X10: [ReadLMXLockDetect] emits exactly one [LMXLockDetect] signal,
    carrying the device ID and bit 3 of the input register of the
    hardware, when the read of that register succeeds; when the port is
    closed or the read fails it emits nothing. *)
Theorem ReadLMXLockDetect_reports_bit3 (d : t) (c : I2CComms.t) :
  let out := ReadLMXLockDetect d c in
  let a := i2cAddress d in
  let res := I2CComms.outcome c a globals.ADAPTOR_READ_ERROR in
  (I2CComms.portIsOpen c = true -> res = globals.OK ->
   emitted (fst out)
   = emitted d
       ++ [LMXLockDetect (deviceID d)
                         (Z.testbit (I2CComms.reg c a REG_INPUT) 3)])
  /\ (I2CComms.portIsOpen c = false \/ res <> globals.OK ->
      emitted (fst out) = emitted d).
Proof.
  intros out a res. subst out a res.
  unfold ReadLMXLockDetect, getPins, readPins.
  destruct (I2CComms.portIsOpen c) eqn:Hopen; cbn [negb].
  - rewrite read8_open by exact Hopen. cbv beta iota.
    destruct (Z.eqb_spec (I2CComms.outcome c (i2cAddress d)
                                           globals.ADAPTOR_READ_ERROR)
                         globals.OK) as [E|E]; cbn [negb].
    + cbn [Z.eqb globals.OK regInput set_regInput].
      rewrite testbit_3_of_shift.
      split; [|intros [H|H]; [discriminate H|contradiction]].
      intros _ _.
      destruct (Z.testbit (I2CComms.reg c (i2cAddress d) REG_INPUT) 3);
        reflexivity.
    + rewrite (proj2 (Z.eqb_neq _ _) E). cbn [fst emitted set_regInput].
      split; [intros _ H; contradiction|intros _; reflexivity].
  - cbn [Z.eqb globals.NOT_CONNECTED globals.OK fst].
    split; [intros H; discriminate H|intros _; reflexivity].
Qed.

(** X11: [getPins] assigns [*value] the cached input byte as its read
    leaves it.  When it returns [OK] the port was open and the value is
    the input register of the hardware; on a closed port it returns
    [NOT_CONNECTED] and hands back the stale cached byte, with the
    instance and the transport untouched. *)
Theorem getPins_value (d : t) (c : I2CComms.t) :
  let out := getPins d c in
  let result := fst (fst (fst out)) in
  let value := snd (fst (fst out)) in
  let d' := snd (fst out) in
  value = regInput d'
  /\ (result = globals.OK ->
      I2CComms.portIsOpen c = true
      /\ value = I2CComms.reg c (i2cAddress d) REG_INPUT)
  /\ (I2CComms.portIsOpen c = false ->
      result = globals.NOT_CONNECTED /\ value = regInput d /\ d' = d
      /\ snd out = c).
Proof.
  intros out result value d'. subst out result value d'.
  unfold getPins, readPins.
  destruct (I2CComms.portIsOpen c) eqn:Hopen; cbn [negb].
  - rewrite read8_open by exact Hopen. cbv beta iota.
    destruct (Z.eqb_spec (I2CComms.outcome c (i2cAddress d)
                                           globals.ADAPTOR_READ_ERROR)
                         globals.OK) as [E|E]; cbn [negb fst snd regInput
                                                    set_regInput].
    + split; [reflexivity|]. split; [intros _; split; reflexivity|].
      intros H. discriminate H.
    + split; [reflexivity|]. split; [intros H; contradiction|].
      intros H. discriminate H.
  - cbn [fst snd]. split; [reflexivity|].
    split; [intros H; discriminate H|]. intros _. repeat split.
Qed.

(** *** The interface test *)

Lemma all_succeeded_refl (c : I2CComms.t) :
  I2CComms.portIsOpen c = true -> all_succeeded c c.
Proof.
  intros H. split; [exact H|]. exists []. rewrite app_nil_r.
  split; [reflexivity|constructor].
Qed.

Lemma all_succeeded_after (c ck : I2CComms.t) (rg : Z -> Z -> Z)
      (op : I2CComms.BusOp) :
  all_succeeded c ck -> op_result op = globals.OK ->
  all_succeeded c (after ck rg op).
Proof.
  intros (Hopen & ops & Hlog & Hall) Hop. split; [exact Hopen|].
  exists (ops ++ [op]). cbn [after I2CComms.log].
  rewrite Hlog, <- app_assoc. split; [reflexivity|].
  apply Forall_app. split; [exact Hall|]. constructor; [exact Hop|constructor].
Qed.

Lemma RESULT_CHECK_OK (result : Z) (c : I2CComms.t) (rest : Z * I2CComms.t) :
  fst (RESULT_CHECK result c rest) = globals.OK ->
  result = globals.OK /\ RESULT_CHECK result c rest = rest.
Proof.
  unfold RESULT_CHECK.
  destruct (Z.eqb_spec result globals.OK) as [E|E]; cbn [negb fst].
  - intros _. split; [exact E|reflexivity].
  - intros H. contradiction.
Qed.

(** One transaction of [test] followed by its [RESULT_CHECK], in a run
    that is to return [OK]. *)
Ltac test_step c :=
  match goal with
  | Hgood : all_succeeded c ?ck
    |- context [I2CComms.read8 ?a ?r ?buf ?ck] =>
      rewrite (read8_open a r buf ck (proj1 Hgood)); cbv beta iota;
      unfold RESULT_CHECK at 1;
      let E := fresh "E" in
      destruct (Z.eqb_spec (I2CComms.outcome ck a globals.ADAPTOR_READ_ERROR)
                           globals.OK) as [E|E]; cbn [negb];
      [|cbn [fst]; let HH := fresh in intros HH; exfalso; exact (E HH)];
      rewrite E;
      let Hnew := fresh "Hgood" in
      pose proof (all_succeeded_after c ck (I2CComms.reg ck)
                    (I2CComms.BusRead a r globals.OK) Hgood eq_refl) as Hnew;
      clear Hgood E;
      let ck' := fresh "ck" in
      set (ck' := after ck (I2CComms.reg ck)
                        (I2CComms.BusRead a r globals.OK)) in *;
      clearbody ck'
  | Hgood : all_succeeded c ?ck
    |- context [I2CComms.write8 ?a ?r ?v ?ck] =>
      rewrite (write8_open_eq a r v ck (proj1 Hgood)); cbv beta iota;
      unfold RESULT_CHECK at 1;
      let E := fresh "E" in
      destruct (Z.eqb_spec (I2CComms.outcome ck a globals.ADAPTOR_WRITE_ERROR)
                           globals.OK) as [E|E]; cbn [negb];
      [|cbn [fst]; let HH := fresh in intros HH; exfalso; exact (E HH)];
      rewrite E;
      let Hnew := fresh "Hgood" in
      pose proof (all_succeeded_after c ck
                    (I2CComms.set_reg a r v (I2CComms.reg ck))
                    (I2CComms.BusWrite a r v globals.OK) Hgood eq_refl)
        as Hnew;
      clear Hgood E;
      let ck' := fresh "ck" in
      set (ck' := after ck (I2CComms.set_reg a r v (I2CComms.reg ck))
                        (I2CComms.BusWrite a r v globals.OK)) in *;
      clearbody ck'
  end.

Ltac test_compare :=
  match goal with
  | |- fst (if ?b then _ else _) = _ -> _ =>
      destruct b; [cbn [fst]; intro; discriminate|]
  end.

Ltac test_done c :=
  match goal with
  | Hgood : all_succeeded c ?ck |- _ -> _ =>
      intros _; unfold RESULT_CHECK; cbn [Z.eqb globals.OK negb snd];
      destruct Hgood as (Ho & ops & Hlog & Hall);
      rewrite (bus_added_app c ck ops Hlog); exact Hall
  end.

(** X12: without the loop-back part, [test] returns [OK] only if the
    port was open and every transaction it put on the bus succeeded -
    the restoring writes included. *)
Theorem test_OK_means_all_succeeded (d : t) (c : I2CComms.t) :
  fst (test false d c) = globals.OK ->
  I2CComms.portIsOpen c = true
  /\ Forall (fun op => op_result op = globals.OK)
            (bus_added c (snd (test false d c))).
Proof.
  unfold test.
  destruct (I2CComms.portIsOpen c) eqn:Hopen; cbn [negb];
    [|cbn [fst]; intros H; discriminate H].
  pose proof (all_succeeded_refl c Hopen) as Hgood.
  cbv zeta.
  intros H. split; [reflexivity|]. revert H.
  do 6 test_step c. test_compare.
  do 2 test_step c. test_compare.
  cbn [negb]; unfold testFinished.
  do 3 test_step c. test_done c.
Qed.

(** X13: without the loop-back part, on an open port with the device
    answering and no fault, [test] returns [OK] after eleven transactions
    and leaves every register of the hardware as it was. *)
Theorem test_restores_registers (d : t) (c : I2CComms.t) :
  I2CComms.portIsOpen c = true ->
  I2CComms.present c (i2cAddress d) = true ->
  I2CComms.faults c = [] ->
  fst (test false d c) = globals.OK
  /\ I2CComms.same_hardware (snd (test false d c)) c
  /\ length (bus_added c (snd (test false d c))) = 11%nat.
Proof.
  intros Hopen Hpresent Hfaults.
  unfold test, testFinished, RESULT_CHECK, I2CComms.read8, I2CComms.write8,
    I2CComms.outcome, I2CComms.portIsOpen, bus_added in *.
  destruct c as [p os pr rg fs lg]. cbn in Hopen, Hpresent, Hfaults |- *.
  subst fs. destruct p; [|discriminate]. cbn.
  unfold I2CComms.set_reg.
  repeat (first [rewrite Hpresent | rewrite Z.eqb_refl]; cbn).
  split; [reflexivity|]. split.
  - intros a r. cbn. unfold I2CComms.set_reg.
    repeat match goal with
           | |- context [(a =? ?x) && (r =? ?y)] =>
               let E := fresh "E" in
               destruct ((a =? x) && (r =? y)) eqn:E;
               [apply andb_true_iff in E; destruct E as [Ea Er];
                apply Z.eqb_eq in Ea, Er; subst; reflexivity|]
           end.
    reflexivity.
  - rewrite <- !app_assoc, skipn_length_app. reflexivity.
Qed.

End DriverOperations.

Lemma configurePins_bits_witness :
  let c := Bench.bus (Some "COM1"%string) [0x1C] [] in
  let out := @PCA9557.configurePins PCA9557.datasheet PCA9557.NORMAL_INPUT PCA9557.INVERTED_INPUT PCA9557.OUTPUT
               PCA9557.NORMAL_INPUT PCA9557.NORMAL_INPUT PCA9557.NORMAL_INPUT PCA9557.OUTPUT PCA9557.OUTPUT
               (PCA9557.new 0x1C 0) c in
  I2CComms.portIsOpen c = true
  /\ Z.testbit (PCA9557.regConfig (snd (fst out))) 2 = false
  /\ Z.testbit (PCA9557.regPolarity (snd (fst out))) 1 = true.
Proof.
  intros c out. split; [reflexivity|].
  destruct (@configurePins_bits PCA9557.datasheet PCA9557.NORMAL_INPUT PCA9557.INVERTED_INPUT PCA9557.OUTPUT
              PCA9557.NORMAL_INPUT PCA9557.NORMAL_INPUT PCA9557.NORMAL_INPUT PCA9557.OUTPUT PCA9557.OUTPUT
              (PCA9557.new 0x1C 0) c eq_refl) as (_ & Hc & _ & Hp).
  split; [exact (Hc 2%nat ltac:(lia))|].
  exact (proj2 (Hp eq_refl) 1%nat ltac:(lia)).
Defined.


Lemma init_writes_safe_defaults_witness :
  let d := PCA9557.new 0x1C 0 in
  let c := Bench.bus (Some "COM1"%string) [0x1C] [] in
  let out := @PCA9557.init PCA9557.datasheet d c in
  I2CComms.portIsOpen c = true
  /\ I2CComms.present c (PCA9557.i2cAddress d) = true
  /\ PCA9557.fault_free 3 c
  /\ fst (fst out) = globals.OK
  /\ I2CComms.reg (snd out) 0x1C 1 = 0xC4.
Proof.
  intros d c out.
  assert (Hf : PCA9557.fault_free 3 c)
    by (intros k _; destruct k; reflexivity).
  split; [reflexivity|]. split; [reflexivity|]. split; [exact Hf|].
  destruct (@init_writes_safe_defaults PCA9557.datasheet d c eq_refl eq_refl
              Hf) as (H1 & _ & _ & _ & _ & _ & H7).
  split; [exact H1 | exact H7].
Defined.

Lemma init_stops_at_failure_witness :
  let d := PCA9557.new 0x1C 0 in
  let c := Bench.bus (Some "COM1"%string) [0x1C]
                     [globals.OK; globals.WRITE_ERROR] in
  let out := @PCA9557.init PCA9557.datasheet d c in
  fst (fst out) <> globals.OK
  /\ PCA9557.emitted (snd (fst out))
     = [PCA9557.ShowMessage "Error configuring I/O controller!"].
Proof.
  intros d c out.
  assert (H : fst (fst out) <> globals.OK) by (vm_compute; discriminate).
  split; [exact H|].
  exact (proj1 (@init_stops_at_failure PCA9557.datasheet d c H)).
Defined.

Lemma trigger_divide_and_write_control_witness :
  let d := PCA9557.set_regOutput 0xC4 (PCA9557.new 0x1C 0) in
  let c := Bench.bus (Some "COM1"%string) [0x1C] [] in
  let sel := @PCA9557.SelectTriggerDivide PCA9557.datasheet 2 d c in
  is_u8 (PCA9557.regOutput d)
  /\ Z.land (PCA9557.regOutput (fst sel)) 0xC0 = 0x40
  /\ Z.land (PCA9557.regOutput (fst sel)) 0x3F = 0x04.
Proof.
  intros d c sel.
  assert (Hd : is_u8 (PCA9557.regOutput d)) by (unfold is_u8; cbn; lia).
  split; [exact Hd|].
  destruct (proj1 (proj2 (@trigger_divide_and_write_control PCA9557.datasheet
                            2 true d c Hd)) ltac:(lia)) as (H1 & H2 & _).
  split; [exact H1 | exact H2].
Defined.

Lemma ReadLMXLockDetect_reports_bit3_witness :
  let d := PCA9557.new 0x1C 0 in
  let c := I2CComms.mk (Some "COM1"%string) (fun _ => globals.OK)
                       (fun _ => true) (fun _ _ => 0x08) [] [] in
  let c0 := Bench.bus None [0x1C] [] in
  (I2CComms.portIsOpen c = true
   /\ I2CComms.outcome c 0x1C globals.ADAPTOR_READ_ERROR = globals.OK
   /\ PCA9557.emitted
        (fst (@PCA9557.ReadLMXLockDetect PCA9557.datasheet d c))
      = [PCA9557.LMXLockDetect 0 true])
  /\ (I2CComms.portIsOpen c0 = false
      /\ PCA9557.emitted
           (fst (@PCA9557.ReadLMXLockDetect PCA9557.datasheet d c0))
         = []).
Proof.
  intros d c c0.
  assert (H1 : I2CComms.portIsOpen c = true) by reflexivity.
  assert (H2 : I2CComms.outcome c 0x1C globals.ADAPTOR_READ_ERROR
               = globals.OK) by reflexivity.
  assert (H3 : I2CComms.portIsOpen c0 = false) by reflexivity.
  split.
  - split; [exact H1|]. split; [exact H2|].
    exact (proj1 (@ReadLMXLockDetect_reports_bit3 PCA9557.datasheet d c)
                 H1 H2).
  - split; [exact H3|].
    exact (proj2 (@ReadLMXLockDetect_reports_bit3 PCA9557.datasheet d c0)
                 (or_introl H3)).
Defined.

Lemma getPins_value_witness :
  let d := PCA9557.set_regInput 0x08 (PCA9557.new 0x1C 0) in
  let c := I2CComms.mk (Some "COM1"%string) (fun _ => globals.OK)
                       (fun _ => true) (fun _ _ => 0x40) [] [] in
  let c0 := Bench.bus None [0x1C] [] in
  let out := @PCA9557.getPins PCA9557.datasheet d c in
  let out0 := @PCA9557.getPins PCA9557.datasheet d c0 in
  (fst (fst (fst out)) = globals.OK
   /\ snd (fst (fst out)) = 0x40)
  /\ (I2CComms.portIsOpen c0 = false
      /\ fst (fst (fst out0)) = globals.NOT_CONNECTED
      /\ snd (fst (fst out0)) = 0x08).
Proof.
  intros d c c0 out out0.
  assert (H1 : fst (fst (fst out)) = globals.OK) by reflexivity.
  assert (H2 : I2CComms.portIsOpen c0 = false) by reflexivity.
  split.
  - split; [exact H1|].
    exact (proj2 (proj1 (proj2 (@getPins_value PCA9557.datasheet d c))
                        H1)).
  - split; [exact H2|].
    destruct (proj2 (proj2 (@getPins_value PCA9557.datasheet d c0)) H2)
      as (A & B & _).
    split; [exact A|exact B].
Defined.

Lemma test_OK_means_all_succeeded_witness :
  let d := PCA9557.new 0x1C 0 in
  let c := Bench.bus (Some "COM1"%string) [0x1C] [] in
  fst (@PCA9557.test PCA9557.datasheet false d c) = globals.OK
  /\ I2CComms.portIsOpen c = true
  /\ Forall (fun op => PCA9557.op_result op = globals.OK)
            (PCA9557.bus_added
               c (snd (@PCA9557.test PCA9557.datasheet false d c))).
Proof.
  intros d c.
  assert (H : fst (@PCA9557.test PCA9557.datasheet false d c) = globals.OK)
    by (vm_compute; reflexivity).
  split; [exact H|].
  exact (@test_OK_means_all_succeeded PCA9557.datasheet d c H).
Defined.

Lemma test_restores_registers_witness :
  let d := PCA9557.new 0x1C 0 in
  let c := Bench.bus (Some "COM1"%string) [0x1C] [] in
  I2CComms.portIsOpen c = true
  /\ I2CComms.present c (PCA9557.i2cAddress d) = true
  /\ I2CComms.faults c = []
  /\ fst (@PCA9557.test PCA9557.datasheet false d c) = globals.OK.
Proof.
  intros d c. repeat (split; [reflexivity|]).
  exact (proj1 (@test_restores_registers PCA9557.datasheet d c eq_refl
                  eq_refl eq_refl)).
Defined.

Lemma ping_true_after_handshake_witness :
  let c := Bench.bus (Some "COM1"%string) [0x1C] [] in
  I2CComms.portIsOpen c = true
  /\ fst (@PCA9557.ping PCA9557.datasheet c 0x1C) = true
  /\ I2CComms.present c 0x1C = true.
Proof.
  intros c.
  assert (H : fst (@PCA9557.ping PCA9557.datasheet c 0x1C) = true)
    by reflexivity.
  split; [reflexivity|]. split; [exact H|].
  exact (proj1 (@ping_true_after_handshake PCA9557.datasheet c 0x1C eq_refl H)).
Defined.

(** ** Worker: discovery, connect outcomes and initialised expanders *)

Section WorkerDiscovery.
Import BertWorker.
Context {D : Drivers} {R : PCA9557.Registers}.

Lemma same_set_refl (f : Family) (w : t D) : same_set f w w.
Proof. destruct f; reflexivity. Qed.

Lemma same_set_trans (f : Family) (w1 w2 w3 : t D) :
  same_set f w1 w2 -> same_set f w2 w3 -> same_set f w1 w3.
Proof. destruct f; cbn; congruence. Qed.

Lemma same_set_count (f : Family) (w w' : t D) :
  same_set f w w' -> count f w' = count f w.
Proof. destruct f; cbn; intros ->; reflexivity. Qed.

Lemma others_kept_refl (f : Family) (w : t D) : others_kept f w w.
Proof. split; [reflexivity|]. intros g _. apply same_set_refl. Qed.

Lemma others_kept_trans (f : Family) (w1 w2 w3 : t D) :
  others_kept f w1 w2 -> others_kept f w2 w3 -> others_kept f w1 w3.
Proof.
  intros (H1 & K1) (H2 & K2). split; [congruence|].
  intros g Hg. exact (same_set_trans g _ _ _ (K1 g Hg) (K2 g Hg)).
Qed.

Lemma announcements_S (f : Family) (k : nat) (n : Z) (m : nat) :
  announcements f k n (S m)
  = Emit (added_signal f k n)
      :: announcements f (S k) (n + counter_step f) m.
Proof.
  unfold announcements. cbn [seq map].
  rewrite Nat.add_0_r, Z.mul_0_r, Z.add_0_r. f_equal.
  rewrite <- seq_shift, map_map. apply map_ext. intros j.
  f_equal. f_equal; [lia|]. lia.
Qed.

(** A discovery loop of family [f]: it announces each device it finds
    with the next position and the next counter value, appends to the set
    of [f] only, and finds at most as many devices as it has candidate
    addresses. *)
Lemma foreach_ping_family (f : Family)
      (ping : I2CComms.t -> Z -> bool * I2CComms.t)
      (add : Z -> Z -> M D unit) (addresses : list Z) (n : Z) (w : t D) :
  (forall a k v,
      others_kept f v (snd (add a k v))
      /\ count f (snd (add a k v)) = S (count f v)
      /\ trace (snd (add a k v))
         = trace v ++ [Emit (added_signal f (count f v) k)]) ->
  let w' := snd (foreach_ping ping add (counter_step f) addresses n w) in
  others_kept f w w'
  /\ exists m, (m <= length addresses)%nat
               /\ count f w' = (count f w + m)%nat
               /\ trace w' = trace w ++ announcements f (count f w) n m.
Proof.
  intros Hadd. cbv zeta. revert n w.
  induction addresses as [|a rest IH]; intros n w; cbn [foreach_ping].
  - split; [apply others_kept_refl|]. exists O. cbn.
    rewrite app_nil_r, Nat.add_0_r. repeat split. lia.
  - unfold bind, ping_with.
    destruct (ping (comms w) a) as [found c1]. cbv beta iota.
    set (w1 := set_comms c1 w).
    assert (K1 : others_kept f w w1)
      by (split; [reflexivity|]; intros g _; destruct g; reflexivity).
    assert (C1 : count f w1 = count f w) by (destruct f; reflexivity).
    assert (T1 : trace w1 = trace w) by reflexivity.
    destruct found; cbv beta iota.
    + destruct (Hadd a n w1) as (K2 & C2 & T2).
      destruct (add a n w1) as [u w2]. cbn [snd] in K2, C2, T2.
      cbv beta iota.
      destruct (IH (n + counter_step f) w2) as (K3 & m & Hm & C3 & T3).
      split; [exact (others_kept_trans _ _ _ _ K1
                       (others_kept_trans _ _ _ _ K2 K3))|].
      exists (S m). split; [cbn [length]; lia|].
      split; [rewrite C3, C2, C1; lia|].
      rewrite T3, T2, T1, C2, C1, announcements_S, <- app_assoc.
      reflexivity.
    + destruct (IH n w1) as (K3 & m & Hm & C3 & T3).
      split; [exact (others_kept_trans _ _ _ _ K1 K3)|].
      exists m. split; [cbn [length]; lia|].
      split; [rewrite C3, C1; reflexivity|].
      rewrite T3, T1, C1. reflexivity.
Qed.

Ltac add_facts :=
  intros a k v; unfold emit, record;
  cbn [snd trace count gt1724Set m24m02Set lmxClockSet pca9557Set
       si5340Set set_trace set_gt1724Set set_m24m02Set set_lmxClockSet
       set_pca9557Set set_si5340Set added_signal];
  split;
  [split; [reflexivity|];
   intros g Hg; destruct g; try reflexivity; exfalso; apply Hg; reflexivity
  |split; [apply last_length|reflexivity]].

Lemma add_GT1724_facts (a k : Z) (v : t D) :
  others_kept F_GT1724 v (snd (add_GT1724 a k v))
  /\ count F_GT1724 (snd (add_GT1724 a k v)) = S (count F_GT1724 v)
  /\ trace (snd (add_GT1724 a k v))
     = trace v ++ [Emit (added_signal F_GT1724 (count F_GT1724 v) k)].
Proof. revert a k v. unfold add_GT1724. add_facts. Qed.

Lemma add_M24M02_facts (a k : Z) (v : t D) :
  others_kept F_M24M02 v (snd (add_M24M02 a k v))
  /\ count F_M24M02 (snd (add_M24M02 a k v)) = S (count F_M24M02 v)
  /\ trace (snd (add_M24M02 a k v))
     = trace v ++ [Emit (added_signal F_M24M02 (count F_M24M02 v) k)].
Proof. revert a k v. unfold add_M24M02. add_facts. Qed.

Lemma add_LMX2594_facts (e : M24M02 D) (a k : Z) (v : t D) :
  others_kept F_LMX2594 v (snd (add_LMX2594 e a k v))
  /\ count F_LMX2594 (snd (add_LMX2594 e a k v)) = S (count F_LMX2594 v)
  /\ trace (snd (add_LMX2594 e a k v))
     = trace v ++ [Emit (added_signal F_LMX2594 (count F_LMX2594 v) k)].
Proof. revert a k v. unfold add_LMX2594. add_facts. Qed.

Lemma add_PCA9557_facts (a k : Z) (v : t D) :
  others_kept F_PCA9557 v (snd (add_PCA9557 a k v))
  /\ count F_PCA9557 (snd (add_PCA9557 a k v)) = S (count F_PCA9557 v)
  /\ trace (snd (add_PCA9557 a k v))
     = trace v ++ [Emit (added_signal F_PCA9557 (count F_PCA9557 v) k)].
Proof. revert a k v. unfold add_PCA9557. add_facts. Qed.

Lemma add_SI5340_facts (a k : Z) (v : t D) :
  others_kept F_SI5340 v (snd (add_SI5340 a k v))
  /\ count F_SI5340 (snd (add_SI5340 a k v)) = S (count F_SI5340 v)
  /\ trace (snd (add_SI5340 a k v))
     = trace v ++ [Emit (added_signal F_SI5340 (count F_SI5340 v) k)].
Proof. revert a k v. unfold add_SI5340. add_facts. Qed.

Lemma no_devices_count (f : Family) (w : t D) :
  no_devices w -> count f w = 0%nat.
Proof.
  intros (Hgt & Hlmx & Hpca & Hee & Hsi).
  destruct f; cbn [count]; rewrite ?Hgt, ?Hlmx, ?Hpca, ?Hee, ?Hsi;
    reflexivity.
Qed.

Lemma count_added_app (f : Family) (a b : list Event) :
  count_added f (a ++ b) = (count_added f a + count_added f b)%nat.
Proof. unfold count_added. rewrite filter_app, length_app. reflexivity. Qed.

Lemma count_added_announcements (g f : Family) (k : nat) (n : Z) (m : nat) :
  count_added g (announcements f k n m)
  = if family_eqb g f then m else 0%nat.
Proof.
  unfold count_added, announcements.
  assert (H : forall l : list nat,
             length (filter (is_added g)
                       (map (fun j => Emit (added_signal f (k + j)
                                 (n + counter_step f * Z.of_nat j))) l))
             = if family_eqb g f then length l else 0%nat).
  { induction l as [|j l IH]; [destruct (family_eqb g f); reflexivity|].
    cbn [map filter].
    destruct g, f; cbn [is_added added_signal family_eqb length] in *;
      rewrite ?IH; reflexivity. }
  rewrite H, length_seq. reflexivity.
Qed.

Lemma announcements_well_numbered (f : Family) (m : nat) :
  Forall well_numbered (announcements f 0 0 m).
Proof.
  unfold announcements. apply Forall_forall. intros e He.
  apply in_map_iff in He. destruct He as (j & <- & _).
  destruct f; cbn [added_signal well_numbered counter_step]; lia.
Qed.

Lemma family_eqb_refl (f : Family) : family_eqb f f = true.
Proof. destruct f; reflexivity. Qed.

Lemma family_eqb_neq (g f : Family) : g <> f -> family_eqb g f = false.
Proof. destruct g, f; try reflexivity; intros H; exfalso; apply H; reflexivity. Qed.

Lemma probed_refl (w : t D) : probed [] w w.
Proof.
  split; [reflexivity|]. split; [intros g _; apply same_set_refl|].
  exists []. rewrite app_nil_r. split; [reflexivity|]. intros Hnone.
  split; [constructor|]. intros f. rewrite (no_devices_count f w Hnone).
  reflexivity.
Qed.

(** One discovery loop, run after the families [fs] have been probed. *)
Lemma probed_foreach (f : Family) (fs : list Family)
      (ping : I2CComms.t -> Z -> bool * I2CComms.t)
      (add : Z -> Z -> M D unit) (addresses : list Z) (w wk : t D) :
  (forall a k v,
      others_kept f v (snd (add a k v))
      /\ count f (snd (add a k v)) = S (count f v)
      /\ trace (snd (add a k v))
         = trace v ++ [Emit (added_signal f (count f v) k)]) ->
  ~ In f fs ->
  probed fs w wk ->
  let w' := snd (foreach_ping ping add (counter_step f) addresses 0 wk) in
  probed (f :: fs) w w'
  /\ forall g, g <> f -> count g w' = count g wk.
Proof.
  intros Hadd Hf (Hfr & Hkeep & evs & Htr & Hnum) w'.
  destruct (foreach_ping_family f ping add addresses 0 wk Hadd)
    as ((Hfr' & Hkeep') & m & _ & Hc & Htr').
  fold w' in Hfr', Hkeep', Hc, Htr'.
  split.
  - split; [congruence|]. split.
    + intros g Hg. apply (same_set_trans g w wk w').
      * apply Hkeep. intros Hin. apply Hg. right. exact Hin.
      * apply Hkeep'. intros ->. apply Hg. left. reflexivity.
    + exists (evs ++ announcements f (count f wk) 0 m).
      split; [rewrite Htr', Htr, app_assoc; reflexivity|].
      intros Hnone. destruct (Hnum Hnone) as (Hwell & Hcount).
      assert (H0 : count f wk = 0%nat).
      { rewrite (same_set_count f w wk (Hkeep f Hf)).
        apply no_devices_count. exact Hnone. }
      rewrite H0 in *. split.
      * apply Forall_app. split; [exact Hwell|].
        apply announcements_well_numbered.
      * intros g. rewrite count_added_app, count_added_announcements, Hcount.
        destruct g, f; cbn [family_eqb];
          first [ rewrite Hc, H0; reflexivity
                | rewrite Nat.add_0_r; symmetry; apply same_set_count;
                  apply Hkeep'; discriminate ].
  - intros g Hg. apply same_set_count. apply Hkeep'. exact Hg.
Qed.

(** A message to the user after the families [fs] have been probed. *)
Lemma probed_message (fs : list Family) (message : string)
      (append : option bool) (w wk : t D) :
  probed fs w wk ->
  let w' := snd (emit (WorkerShowMessage message append) wk) in
  probed fs w w' /\ forall g, count g w' = count g wk.
Proof.
  intros (Hfr & Hkeep & evs & Htr & Hnum) w'. subst w'.
  unfold emit, record. cbn [snd]. split.
  - split; [exact Hfr|]. split.
    + intros g Hg. specialize (Hkeep g Hg). destruct g; exact Hkeep.
    + exists (evs ++ [Emit (WorkerShowMessage message append)]).
      split; [cbn [trace set_trace]; rewrite Htr, app_assoc; reflexivity|].
      intros Hnone. destruct (Hnum Hnone) as (Hwell & Hcount). split.
      * apply Forall_app. split; [exact Hwell|].
        constructor; [exact I|constructor].
      * intros f. rewrite count_added_app, Hcount.
        destruct f; cbn; rewrite Nat.add_0_r; reflexivity.
  - intros g. destruct g; reflexivity.
Qed.

(** The five ways [findComponents] ends. *)
Lemma findComponents_cases (A : globals.AddressTable) (w : t D) :
  let r := fst (findComponents A w) in
  let w' := snd (findComponents A w) in
  (r = globals.MISSING_GT1724
   /\ count F_GT1724 w' = 0%nat
   /\ probed [F_GT1724] w w')
  \/ (r = globals.MISSING_EEPROM
      /\ count F_GT1724 w' <> 0%nat /\ count F_M24M02 w' = 0%nat
      /\ probed [F_M24M02; F_GT1724] w w')
  \/ (r = globals.MISSING_LMX
      /\ count F_GT1724 w' <> 0%nat /\ count F_M24M02 w' <> 0%nat
      /\ count F_LMX2594 w' = 0%nat
      /\ probed [F_LMX2594; F_M24M02; F_GT1724] w w')
  \/ (r = globals.MISSING_PCA
      /\ count F_GT1724 w' <> 0%nat /\ count F_M24M02 w' <> 0%nat
      /\ count F_LMX2594 w' <> 0%nat /\ count F_PCA9557 w' = 0%nat
      /\ probed [F_PCA9557; F_LMX2594; F_M24M02; F_GT1724] w w')
  \/ (r = globals.OK
      /\ count F_GT1724 w' <> 0%nat /\ count F_M24M02 w' <> 0%nat
      /\ count F_LMX2594 w' <> 0%nat /\ count F_PCA9557 w' <> 0%nat
      /\ probed [F_SI5340; F_PCA9557; F_LMX2594; F_M24M02; F_GT1724] w w').
Proof.
  cbv zeta. unfold findComponents, bind, gets, ret.
  (* GT1724 *)
  destruct (probed_foreach F_GT1724 [] (GT1724_ping D) add_GT1724
              (globals.I2C_ADDRESSES_GT1724 A) w w add_GT1724_facts
              (fun H => H) (probed_refl w)) as (P1 & K1).
  cbn [counter_step] in P1, K1.
  destruct (foreach_ping (GT1724_ping D) add_GT1724 4
              (globals.I2C_ADDRESSES_GT1724 A) 0 w) as [[] w1].
  cbn [snd] in P1, K1. cbv beta iota.
  destruct (Nat.eqb_spec (length (gt1724Set w1)) 0) as [G|G].
  { left.
    destruct (probed_message _ "Core module not found!" None w w1 P1)
      as (P & K).
    cbv zeta in P, K.
    destruct (emit (WorkerShowMessage "Core module not found!" None) w1)
      as [[] w2].
    cbn [fst snd] in *. split; [reflexivity|]. split; [|exact P].
    rewrite (K F_GT1724). exact G. }
  right.
  (* M24M02 *)
  destruct (probed_foreach F_M24M02 [F_GT1724] (M24M02_ping D) add_M24M02
              (globals.I2C_ADDRESSES_M24M02 A) w w1 add_M24M02_facts
              ltac:(cbn; intros [H|[]]; discriminate) P1) as (P2 & K2).
  cbn [counter_step] in P2, K2.
  destruct (foreach_ping (M24M02_ping D) add_M24M02 1
              (globals.I2C_ADDRESSES_M24M02 A) 0 w1) as [[] w2].
  cbn [snd] in P2, K2. cbv beta iota.
  assert (G2 : count F_GT1724 w2 <> 0%nat)
    by (rewrite K2 by discriminate; exact G).
  destruct (m24m02Set w2) as [|eeprom0 eeproms] eqn:E.
  { left.
    destruct (probed_message _ "Data EEPROM not found!" None w w2 P2)
      as (P & K).
    cbv zeta in P, K.
    destruct (emit (WorkerShowMessage "Data EEPROM not found!" None) w2)
      as [[] w3].
    cbn [fst snd] in *. split; [reflexivity|].
    split; [rewrite (K F_GT1724); exact G2|].
    split; [|exact P].
    rewrite (K F_M24M02). cbn [count]. rewrite E. reflexivity. }
  right.
  assert (E2 : count F_M24M02 w2 <> 0%nat)
    by (cbn [count]; rewrite E; discriminate).
  (* LMX2594 *)
  destruct (probed_foreach F_LMX2594 [F_M24M02; F_GT1724] (LMX2594_ping D)
              (add_LMX2594 eeprom0) (globals.I2C_ADDRESSES_LMX2594 A) w w2
              (add_LMX2594_facts eeprom0)
              ltac:(cbn; intros [H|[H|[]]]; discriminate) P2) as (P3 & K3).
  cbn [counter_step] in P3, K3.
  destruct (foreach_ping (LMX2594_ping D) (add_LMX2594 eeprom0) 1
              (globals.I2C_ADDRESSES_LMX2594 A) 0 w2) as [[] w3].
  cbn [snd] in P3, K3. cbv beta iota.
  assert (G3 : count F_GT1724 w3 <> 0%nat)
    by (rewrite K3 by discriminate; exact G2).
  assert (E3 : count F_M24M02 w3 <> 0%nat)
    by (rewrite K3 by discriminate; exact E2).
  destruct (Nat.eqb_spec (length (lmxClockSet w3)) 0) as [L|L].
  { left.
    destruct (probed_message _ "Clock synthesizer module not found!" None
                w w3 P3) as (P & K).
    cbv zeta in P, K.
    destruct (emit (WorkerShowMessage "Clock synthesizer module not found!"
                      None) w3) as [[] w4].
    cbn [fst snd] in *. split; [reflexivity|].
    split; [rewrite (K F_GT1724); exact G3|].
    split; [rewrite (K F_M24M02); exact E3|].
    split; [|exact P].
    rewrite (K F_LMX2594). exact L. }
  right.
  (* PCA9557 *)
  destruct (probed_foreach F_PCA9557 [F_LMX2594; F_M24M02; F_GT1724]
              PCA9557.ping add_PCA9557 (globals.I2C_ADDRESSES_PCA9557 A)
              w w3 add_PCA9557_facts
              ltac:(cbn; intros [H|[H|[H|[]]]]; discriminate) P3)
    as (P4 & K4).
  cbn [counter_step] in P4, K4.
  destruct (foreach_ping PCA9557.ping add_PCA9557 1
              (globals.I2C_ADDRESSES_PCA9557 A) 0 w3) as [[] w4].
  cbn [snd] in P4, K4. cbv beta iota.
  assert (G4 : count F_GT1724 w4 <> 0%nat)
    by (rewrite K4 by discriminate; exact G3).
  assert (E4 : count F_M24M02 w4 <> 0%nat)
    by (rewrite K4 by discriminate; exact E3).
  assert (L4 : count F_LMX2594 w4 <> 0%nat)
    by (rewrite K4 by discriminate; exact L).
  destruct (Nat.eqb_spec (length (pca9557Set w4)) 0) as [X|X].
  { left.
    destruct (probed_message _ "IO controller module not found!" None
                w w4 P4) as (P & K).
    cbv zeta in P, K.
    destruct (emit (WorkerShowMessage "IO controller module not found!"
                      None) w4) as [[] w5].
    cbn [fst snd] in *. split; [reflexivity|].
    split; [rewrite (K F_GT1724); exact G4|].
    split; [rewrite (K F_M24M02); exact E4|].
    split; [rewrite (K F_LMX2594); exact L4|].
    split; [|exact P].
    rewrite (K F_PCA9557). exact X. }
  right.
  (* SI5340 *)
  destruct (probed_foreach F_SI5340
              [F_PCA9557; F_LMX2594; F_M24M02; F_GT1724]
              (SI5340_ping D) add_SI5340 (globals.I2C_ADDRESSES_SI5340 A)
              w w4 add_SI5340_facts
              ltac:(cbn; intros [H|[H|[H|[H|[]]]]]; discriminate) P4)
    as (P5 & K5).
  cbn [counter_step] in P5, K5.
  destruct (foreach_ping (SI5340_ping D) add_SI5340 1
              (globals.I2C_ADDRESSES_SI5340 A) 0 w4) as [[] w5].
  cbn [fst snd] in *. split; [reflexivity|].
  split; [rewrite K5 by discriminate; exact G4|].
  split; [rewrite K5 by discriminate; exact E4|].
  split; [rewrite K5 by discriminate; exact L4|].
  split; [rewrite K5 by discriminate; exact X|].
  exact P5.
Qed.

(** X14: [findComponents] returns one of five codes - never
    [MISSING_LMX_DEFS] - and the code tells which families answered: it
    stops at the first mandatory family (BERT core, EEPROM, clock
    synthesizer, I/O expander, in this order) of which it holds no
    device, leaving the sets of the families it has not probed yet as
    they were, and it returns [OK] only with at least one device of each
    of the four; a reference clock is optional. *)
Theorem findComponents_result (A : globals.AddressTable) (w : t D) :
  let r := fst (findComponents A w) in
  let w' := snd (findComponents A w) in
  r <> globals.MISSING_LMX_DEFS
  /\ ((r = globals.MISSING_GT1724
       /\ count F_GT1724 w' = 0%nat
       /\ forall g, ~ In g [F_GT1724] -> same_set g w w')
      \/ (r = globals.MISSING_EEPROM
          /\ count F_GT1724 w' <> 0%nat /\ count F_M24M02 w' = 0%nat
          /\ forall g, ~ In g [F_M24M02; F_GT1724] -> same_set g w w')
      \/ (r = globals.MISSING_LMX
          /\ count F_GT1724 w' <> 0%nat /\ count F_M24M02 w' <> 0%nat
          /\ count F_LMX2594 w' = 0%nat
          /\ forall g, ~ In g [F_LMX2594; F_M24M02; F_GT1724] ->
                       same_set g w w')
      \/ (r = globals.MISSING_PCA
          /\ count F_GT1724 w' <> 0%nat /\ count F_M24M02 w' <> 0%nat
          /\ count F_LMX2594 w' <> 0%nat /\ count F_PCA9557 w' = 0%nat
          /\ forall g, ~ In g [F_PCA9557; F_LMX2594; F_M24M02; F_GT1724] ->
                       same_set g w w')
      \/ (r = globals.OK
          /\ count F_GT1724 w' <> 0%nat /\ count F_M24M02 w' <> 0%nat
          /\ count F_LMX2594 w' <> 0%nat /\ count F_PCA9557 w' <> 0%nat)).
Proof.
  intros r w'.
  destruct (findComponents_cases A w)
    as [(Hr & H1 & _ & P & _)
       |[(Hr & H1 & H2 & _ & P & _)
        |[(Hr & H1 & H2 & H3 & _ & P & _)
         |[(Hr & H1 & H2 & H3 & H4 & _ & P & _)
          |(Hr & H1 & H2 & H3 & H4 & _)]]]];
    fold r in Hr; fold w' in H1; try fold w' in P; try fold w' in H2;
    try fold w' in H3; try fold w' in H4;
    (split; [rewrite Hr; discriminate|]).
  - left. repeat split; assumption.
  - right. left. repeat split; assumption.
  - right. right. left. repeat split; assumption.
  - right. right. right. left. repeat split; assumption.
  - right. right. right. right. repeat split; assumption.
Qed.

(** X15: a discovery that starts without device records announces every
    device it creates exactly once: for each family the number of
    [...Added] signals equals the number of objects in the set
    afterwards, a BERT core is announced with the lane offset 4 times
    its position in the set, and a device of another family with its
    position as device ID. *)
Theorem discovery_numbering (A : globals.AddressTable) (w : t D) :
  no_devices w ->
  let w' := snd (findComponents A w) in
  Forall well_numbered (added w w')
  /\ forall f, count_added f (added w w') = count f w'.
Proof.
  intros Hnone w'.
  assert (P : exists fs, probed fs w w').
  { destruct (findComponents_cases A w)
      as [(_ & _ & P)
         |[(_ & _ & _ & P)
          |[(_ & _ & _ & _ & P)
           |[(_ & _ & _ & _ & _ & P)
            |(_ & _ & _ & _ & _ & P)]]]];
      eexists; exact P. }
  destruct P as (fs & _ & _ & evs & Htr & Hnum).
  rewrite (added_app w w' evs Htr). exact (Hnum Hnone).
Qed.

(** In a text without percent sign there is no place marker. *)
Lemma lowest_marker_app (a b : string) :
  has_percent a = false ->
  lowest_marker (a ++ b) = lowest_marker b.
Proof.
  induction a as [|x a IH]; [reflexivity|].
  cbn [has_percent append lowest_marker]. intros H.
  apply orb_false_iff in H. destruct H as [Hx Ha].
  rewrite Hx. apply IH. exact Ha.
Qed.

Lemma replace_markers_app (n : nat) (arg a b : string) :
  has_percent a = false ->
  replace_markers n arg 0 (a ++ b) = (a ++ replace_markers n arg 0 b)%string.
Proof.
  induction a as [|x a IH]; [reflexivity|].
  cbn [has_percent append replace_markers]. intros H.
  apply orb_false_iff in H. destruct H as [Hx Ha].
  rewrite Hx, IH by exact Ha. reflexivity.
Qed.

(** The message of a failed open, for a port name without percent
    sign. *)
Lemma connect_failure_message (port : string) (r : Z) :
  has_percent port = false ->
  QString_arg_int
    (QString_arg "Couldn't connect to instrument on %1 (%2)" port) r
  = ("Couldn't connect to instrument on " ++ port ++ " ("
       ++ string_of_Z r ++ ")")%string.
Proof.
  intros Hport.
  assert (H1 : QString_arg "Couldn't connect to instrument on %1 (%2)" port
               = ("Couldn't connect to instrument on "
                    ++ (port ++ " (%2)"))%string) by reflexivity.
  rewrite H1. unfold QString_arg_int, QString_arg.
  rewrite !lowest_marker_app by (reflexivity || exact Hport).
  change (lowest_marker " (%2)") with (Some 2%nat). cbv beta iota.
  rewrite !replace_markers_app by (reflexivity || exact Hport).
  reflexivity.
Qed.

(** A port name that holds a place marker is substituted once more by
    the second [arg] of the chain. *)
Example connect_failure_message_with_marker :
  QString_arg_int
    (QString_arg "Couldn't connect to instrument on %1 (%2)" "%2") (-1)
  = "Couldn't connect to instrument on -1 (-1)"%string.
Proof. reflexivity. Qed.

(** X16: when the operating system refuses to open the port,
    [CommsConnect] reports the error code through [WorkerResult], emits
    [StatusConnect (false)] and a message, and does nothing else: no
    discovery is attempted, so the transport and the device sets are as
    before.  For a port name without percent sign the message names the
    port and the code. *)
Theorem connect_open_failure (A : globals.AddressTable) (port : string)
        (w : t D) :
  flagWorkerReady w = true ->
  I2CComms.portIsOpen (comms w) = false ->
  I2CComms.os_open (comms w) port <> globals.OK ->
  has_percent port = false ->
  let r := I2CComms.os_open (comms w) port in
  let w' := snd (CommsConnect A port w) in
  comms w' = comms w
  /\ same_devices w w'
  /\ added w w'
     = [Open port r;
        Emit (WorkerResult r);
        Emit (StatusConnect false);
        Emit (WorkerShowMessage
                ("Couldn't connect to instrument on " ++ port ++ " ("
                   ++ string_of_Z r ++ ")")%string (Some false))].
Proof.
  intros Hready Hclosed Hos Hport r w'. subst w'.
  assert (Hneq : (r =? globals.OK) = false) by (apply Z.eqb_neq; exact Hos).
  assert (Hopen : I2CComms.open port (comms w) = (r, comms w)).
  { unfold I2CComms.open. rewrite Hclosed. fold r. cbv zeta.
    rewrite Hneq. reflexivity. }
  unfold CommsConnect, bind, gets, comms_open.
  repeat (cbv beta iota;
          first [rewrite Hready | rewrite Hclosed | rewrite Hopen
                | rewrite Hneq];
          cbn [negb]).
  rewrite (connect_failure_message port r Hport).
  unfold emit, record, added.
  cbn [snd comms trace set_trace set_comms].
  split; [reflexivity|]. split; [repeat split|].
  rewrite <- !app_assoc, skipn_length_app. reflexivity.
Qed.

(** X17: once the port is open, the status that [CommsConnect] reports
    depends only on whether discovery found a BERT core.  Without one the
    worker disconnects again - no device record is left, the port is
    closed - and reports [StatusConnect (false)]; with at least one it
    reports [StatusConnect (true)], tears nothing down and keeps the
    transport and the devices as discovery left them, whichever other
    family is missing. *)
Theorem connect_status_follows_cores (A : globals.AddressTable)
        (port : string) (w : t D) :
  flagWorkerReady w = true ->
  I2CComms.portIsOpen (comms w) = false ->
  I2CComms.os_open (comms w) port = globals.OK ->
  let found := snd (discovery A port w) in
  let w' := snd (CommsConnect A port w) in
  (count F_GT1724 found = 0%nat ->
   no_devices w' /\ I2CComms.portIsOpen (comms w') = false
   /\ status_of (added w w') = [false])
  /\ (count F_GT1724 found <> 0%nat ->
      comms w' = comms found /\ same_devices found w'
      /\ teardown_of (added w w') = []
      /\ status_of (added w w') = [true]).
Proof.
  intros Hready Hclosed Hos found w'.
  destruct (CommsConnect_opened A port w Hready Hclosed Hos)
    as (Heq & (Hfr & _) & evs & Htr & Hs & Hd).
  subst found w'. rewrite Heq. clear Heq.
  assert (Hcases :
            let r := fst (discovery A port w) in
            let w1 := snd (discovery A port w) in
            (r = globals.MISSING_GT1724 /\ count F_GT1724 w1 = 0%nat)
            \/ ((r = globals.OK \/ r = globals.MISSING_EEPROM
                 \/ r = globals.MISSING_LMX \/ r = globals.MISSING_PCA)
                /\ count F_GT1724 w1 <> 0%nat)).
  { unfold discovery.
    match goal with
    | |- context [findComponents A ?w0] =>
        destruct (findComponents_cases A w0)
          as [(Hr & H1 & _)
             |[(Hr & H1 & _)
              |[(Hr & H1 & _)
               |[(Hr & H1 & _)
                |(Hr & H1 & _)]]]]
    end; cbv zeta; rewrite Hr; auto 6. }
  cbv zeta in Hcases.
  destruct (discovery A port w) as [r w1]. cbn [fst snd] in *.
  assert (Hready1 : flagWorkerReady w1 = true)
    by (rewrite Hfr; exact Hready).
  destruct Hcases as [(-> & H0)|(Hr & H1)].
  - split; [intros _|intros H; contradiction].
    change (globals.MISSING_GT1724 =? globals.OK) with false.
    change ((globals.MISSING_GT1724 =? globals.MISSING_LMX_DEFS)
            || (globals.MISSING_GT1724 =? globals.MISSING_GT1724))
      with true.
    cbn iota. unfold bind.
    destruct (CommsDisconnect_ready w1 Hready1)
      as (Hnone & Hport & _ & _ & Htr2).
    destruct (CommsDisconnect w1) as [u w2]. cbn [snd] in *.
    unfold emit, record, set_trace. cbn [snd].
    split; [exact Hnone|]. split; [exact Hport|].
    unfold added. cbn [trace].
    rewrite Htr2, Htr, <- !app_assoc, skipn_length_app.
    cbn [app status_of].
    rewrite !status_of_app, Hs, status_of_disconnect. reflexivity.
  - split; [intros H; contradiction|intros _].
    destruct Hr as [->|Hr].
    + change (globals.OK =? globals.OK) with true. cbn iota.
      unfold bind, emit, record, set_trace. cbn [snd trace].
      split; [reflexivity|]. split; [repeat split|].
      unfold added. cbn [trace].
      rewrite Htr, <- !app_assoc, skipn_length_app.
      cbn [app status_of teardown_of].
      rewrite teardown_of_app, status_of_app, Hs, Hd. split; reflexivity.
    + assert (Hdis : (if r =? globals.OK
                      then bind (emit (WorkerShowMessage "Connected." None))
                                (fun _ => emit (StatusConnect true))
                      else if (r =? globals.MISSING_LMX_DEFS)
                              || (r =? globals.MISSING_GT1724)
                      then bind CommsDisconnect
                                (fun _ => emit (WorkerShowMessage
                                   "Connect FAILED: Error setting up system components!"
                                   None))
                      else emit (StatusConnect true))
                     = @emit D (StatusConnect true))
        by (destruct Hr as [->|[->| ->]]; reflexivity).
      rewrite Hdis. unfold emit, record, set_trace. cbn [snd].
      split; [reflexivity|]. split; [repeat split|].
      unfold added. cbn [trace].
      rewrite Htr, <- !app_assoc, skipn_length_app.
      cbn [app status_of teardown_of].
      rewrite teardown_of_app, status_of_app, Hs, Hd. split; reflexivity.
Qed.

End WorkerDiscovery.

Lemma discovery_numbering_witness :
  let w := Bench.idle Bench.all_chips
                      (Bench.bus (Some "COM1"%string) [0x1C; 0x18] []) in
  let w' := snd (@BertWorker.findComponents Bench.all_chips
                   PCA9557.datasheet globals.ADDRESSES_DUAL w) in
  BertWorker.no_devices w
  /\ Forall BertWorker.well_numbered (BertWorker.added w w')
  /\ BertWorker.count_added BertWorker.F_GT1724 (BertWorker.added w w')
     = BertWorker.count BertWorker.F_GT1724 w'.
Proof.
  intros w w'.
  assert (H : BertWorker.no_devices w) by (repeat split).
  split; [exact H|].
  destruct (@discovery_numbering Bench.all_chips PCA9557.datasheet
              globals.ADDRESSES_DUAL w H) as (H1 & H2).
  split; [exact H1|exact (H2 BertWorker.F_GT1724)].
Defined.

Lemma connect_open_failure_witness :
  let c := I2CComms.mk None (fun _ => globals.GEN_ERROR) (fun _ => true)
                       (fun _ _ => 0) [] [] in
  let w := Bench.idle Bench.all_chips c in
  let w' := snd (@BertWorker.CommsConnect Bench.all_chips PCA9557.datasheet
                   globals.ADDRESSES_DUAL "COM1" w) in
  BertWorker.flagWorkerReady w = true
  /\ I2CComms.portIsOpen (BertWorker.comms w) = false
  /\ I2CComms.os_open (BertWorker.comms w) "COM1" <> globals.OK
  /\ has_percent "COM1" = false
  /\ BertWorker.comms w' = BertWorker.comms w
  /\ BertWorker.added w w'
     = [BertWorker.Open "COM1" globals.GEN_ERROR;
        BertWorker.Emit (BertWorker.WorkerResult globals.GEN_ERROR);
        BertWorker.Emit (BertWorker.StatusConnect false);
        BertWorker.Emit
          (BertWorker.WorkerShowMessage
             "Couldn't connect to instrument on COM1 (-1)" (Some false))].
Proof.
  intros c w w'.
  assert (H1 : BertWorker.flagWorkerReady w = true) by reflexivity.
  assert (H2 : I2CComms.portIsOpen (BertWorker.comms w) = false)
    by reflexivity.
  assert (H3 : I2CComms.os_open (BertWorker.comms w) "COM1" <> globals.OK)
    by (cbn; discriminate).
  assert (H4 : has_percent "COM1" = false) by reflexivity.
  repeat (split; [assumption|]).
  destruct (@connect_open_failure Bench.all_chips PCA9557.datasheet
              globals.ADDRESSES_DUAL "COM1" w H1 H2 H3 H4) as (Hc & _ & Ha).
  fold w' in Hc, Ha. split; [exact Hc|]. rewrite Ha. reflexivity.
Defined.

Lemma connect_status_follows_cores_witness :
  let w := Bench.idle Bench.no_core (Bench.bus None [0x1C; 0x18] []) in
  let w' := Bench.connect Bench.no_core in
  BertWorker.flagWorkerReady w = true
  /\ I2CComms.portIsOpen (BertWorker.comms w) = false
  /\ I2CComms.os_open (BertWorker.comms w) "COM1" = globals.OK
  /\ BertWorker.count BertWorker.F_GT1724
       (snd (@BertWorker.discovery Bench.no_core PCA9557.datasheet
               globals.ADDRESSES_DUAL "COM1" w)) = 0%nat
  /\ BertWorker.no_devices w'
  /\ I2CComms.portIsOpen (BertWorker.comms w') = false
  /\ BertWorker.status_of (BertWorker.added w w') = [false].
Proof.
  intros w w'.
  assert (H1 : BertWorker.flagWorkerReady w = true) by reflexivity.
  assert (H2 : I2CComms.portIsOpen (BertWorker.comms w) = false)
    by reflexivity.
  assert (H3 : I2CComms.os_open (BertWorker.comms w) "COM1" = globals.OK)
    by reflexivity.
  assert (H4 : BertWorker.count BertWorker.F_GT1724
                 (snd (@BertWorker.discovery Bench.no_core PCA9557.datasheet
                         globals.ADDRESSES_DUAL "COM1" w)) = 0%nat)
    by (vm_compute; reflexivity).
  repeat (split; [assumption|]).
  exact (proj1 (@connect_status_follows_cores Bench.no_core
                  PCA9557.datasheet globals.ADDRESSES_DUAL "COM1" w
                  H1 H2 H3) H4).
Defined.

(** ** Worker: the expanders after a successful initialisation *)

Section WorkerInit.
Import BertWorker.
Context {D : Drivers} {R : PCA9557.Registers}.

(** A successful [init] leaves the three caches at the bytes it wrote and
    the identity of the object as it was. *)
Lemma init_OK_initialised (d : PCA9557.t) (c : I2CComms.t) :
  fst (fst (PCA9557.init d c)) = globals.OK ->
  let d' := snd (fst (PCA9557.init d c)) in
  PCA9557.i2cAddress d' = PCA9557.i2cAddress d
  /\ PCA9557.deviceID d' = PCA9557.deviceID d
  /\ PCA9557.initialised d'.
Proof.
  unfold PCA9557.init, PCA9557.configurePins, PCA9557.setPins,
    PCA9557.writePins.
  cbv zeta.
  repeat (cbv beta iota; cbn [negb fst snd Z.eqb globals.OK];
          match goal with
          | E : (?r =? globals.OK) = _ |- context [?r =? globals.OK] =>
              rewrite E
          | |- context [I2CComms.write8 ?a ?r ?v ?ck] =>
              let res := fresh "r" in
              let E := fresh "E" in
              destruct (I2CComms.write8 a r v ck) as [res ?];
              destruct (res =? globals.OK) eqn:E
          | |- context [I2CComms.portIsOpen ?ck] =>
              destruct (I2CComms.portIsOpen ck)
          end).
  all: cbv beta iota; cbn [negb fst snd].
  all: intros H;
    try discriminate H;
    try (match goal with
         | E : (?r =? globals.OK) = false |- _ =>
             rewrite H in E; discriminate E
         end).
  all: repeat split.
Qed.

(** A loop of [init()] calls that returns [OK] has run [init] with the
    result [OK] on every object of the set. *)
Lemma init_loop_OK {X} (f : Family)
      (init : X -> I2CComms.t -> Z * X * I2CComms.t) (Q : X -> X -> Prop)
      (set : list X) (index : nat) (c : I2CComms.t) (tr : list Event) :
  (forall d c, fst (fst (init d c)) = globals.OK ->
               Q d (snd (fst (init d c)))) ->
  fst (fst (fst (init_loop f init index set c tr))) = globals.OK ->
  Forall2 Q set (snd (fst (fst (init_loop f init index set c tr)))).
Proof.
  intros HQ. revert index c tr.
  induction set as [|dev rest IH]; intros index c tr.
  - intros _. constructor.
  - cbn [init_loop]. specialize (HQ dev c).
    destruct (init dev c) as [[r dev'] c']. cbn [fst snd] in HQ.
    destruct (Z.eqb_spec r globals.OK) as [->|Hr]; cbn [negb].
    + specialize (IH (S index) c' (tr ++ [Init f index globals.OK])).
      destruct (init_loop f init (S index) rest c'
                          (tr ++ [Init f index globals.OK]))
        as [[[r2 rest'] c2] tr2].
      cbn [fst snd] in IH |- *. intros H.
      constructor; [apply HQ; reflexivity|apply IH; exact H].
    + cbn [fst snd]. intros H. contradiction.
Qed.

(** The loop over another family leaves the set of I/O expanders as it
    was. *)
Lemma foreach_init_keeps_expanders {X} (f : Family)
      (init : X -> I2CComms.t -> Z * X * I2CComms.t)
      (get : t D -> list X) (put : list X -> t D -> t D) (w : t D) :
  (forall s v, pca9557Set (put s v) = pca9557Set v) ->
  pca9557Set (snd (foreach_init f init get put w)) = pca9557Set w.
Proof.
  intros Hput. unfold foreach_init.
  destruct (init_loop f init 0 (get w) (comms w) (trace w))
    as [[[r s] c] tr].
  cbn [snd]. rewrite Hput. reflexivity.
Qed.

(** The loop over the I/O expanders, when it returns [OK], has
    initialised each of them. *)
Lemma foreach_init_expanders (w : t D) :
  fst (foreach_init F_PCA9557 PCA9557.init pca9557Set set_pca9557Set w)
  = globals.OK ->
  Forall2 (fun d d' => PCA9557.i2cAddress d' = PCA9557.i2cAddress d
                       /\ PCA9557.deviceID d' = PCA9557.deviceID d
                       /\ PCA9557.initialised d')
          (pca9557Set w)
          (pca9557Set
             (snd (foreach_init F_PCA9557 PCA9557.init pca9557Set
                                set_pca9557Set w))).
Proof.
  unfold foreach_init.
  pose proof (init_loop_OK F_PCA9557 PCA9557.init
                (fun d d' =>
                   PCA9557.i2cAddress d' = PCA9557.i2cAddress d
                   /\ PCA9557.deviceID d' = PCA9557.deviceID d
                   /\ PCA9557.initialised d')
                (pca9557Set w) 0 (comms w) (trace w)
                init_OK_initialised) as HP.
  destruct (init_loop F_PCA9557 PCA9557.init 0 (pca9557Set w) (comms w)
                      (trace w)) as [[[r s] c] tr].
  cbn [fst snd] in *. exact HP.
Qed.

(** A stage of [initComponents] that is not the one of the I/O
    expanders, in a run that is to return [OK]. *)
Ltac init_stage f w K :=
  match goal with
  | |- context [foreach_init f ?init ?get ?put w] =>
      let r := fresh "r" in
      let w' := fresh "w" in
      pose proof (foreach_init_keeps_expanders f init get put w
                    (fun _ _ => eq_refl)) as K;
      destruct (foreach_init f init get put w) as [r w'];
      cbn [snd] in K; cbv beta iota;
      destruct (Z.eqb_spec r globals.OK) as [->|?]; cbn [negb];
      [|let u := fresh "u" in
        match goal with
        | |- context [emit ?m w'] => destruct (emit m w') as [u ?]
        end;
        cbn [fst]; intros H; contradiction]
  end.

(** X18: when [initComponents] returns [OK], every I/O expander of the
    worker has been initialised: each object of the set is the one that
    was there, same address and device ID, and its caches hold the
    configuration 0x3B, the polarity inversion 0x00 and the output
    0xC4. *)
Theorem initComponents_OK_expanders (w : t D) :
  fst (initComponents w) = globals.OK ->
  Forall2 (fun d d' => PCA9557.i2cAddress d' = PCA9557.i2cAddress d
                       /\ PCA9557.deviceID d' = PCA9557.deviceID d
                       /\ PCA9557.initialised d')
          (pca9557Set w) (pca9557Set (snd (initComponents w))).
Proof.
  unfold initComponents, bind, ret.
  init_stage F_SI5340 w K1.
  init_stage F_M24M02 w0 K2.
  init_stage F_LMX2594 w1 K3.
  pose proof (foreach_init_expanders w2) as HP.
  destruct (foreach_init F_PCA9557 PCA9557.init pca9557Set set_pca9557Set
                         w2) as [r4 w3].
  cbn [fst snd] in HP. cbv beta iota.
  destruct (Z.eqb_spec r4 globals.OK) as [->|?]; cbn [negb];
    [|destruct (emit _ w3) as [u ?]; cbn [fst]; intros H; contradiction].
  init_stage F_GT1724 w3 K5.
  cbn [fst snd]. intros _.
  rewrite K5, <- K1, <- K2, <- K3. apply HP. reflexivity.
Qed.

End WorkerInit.

Lemma initComponents_OK_expanders_witness :
  let w := Bench.connect Bench.all_chips in
  fst (@BertWorker.initComponents Bench.all_chips PCA9557.datasheet w)
  = globals.OK
  /\ Forall2 (fun d d' => PCA9557.i2cAddress d' = PCA9557.i2cAddress d
                          /\ PCA9557.deviceID d' = PCA9557.deviceID d
                          /\ PCA9557.initialised d')
             (BertWorker.pca9557Set w)
             (BertWorker.pca9557Set
                (snd (@BertWorker.initComponents Bench.all_chips
                        PCA9557.datasheet w))).
Proof.
  intros w.
  assert (H : fst (@BertWorker.initComponents Bench.all_chips
                     PCA9557.datasheet w) = globals.OK)
    by (vm_compute; reflexivity).
  split; [exact H|].
  exact (@initComponents_OK_expanders Bench.all_chips PCA9557.datasheet
           w H).
Defined.
